(** * ts-user-code-runner: the compile-verify-execute pipeline

    A shallow embedding of [src/UserCodeRunner.ts]: the harness
    synthesizer, the diagnostic collection of [preProcess], the
    relocation of harness diagnostics ([ExecutionHarnessTypeError]),
    the executor ([executeUserCodeFromArtifacts]) and the
    runtime error translator ([UserCodeRuntimeError]).

    The TypeScript compiler, the [vm] module, [stack-trace] and
    [source-map] are external collaborators.  Their answers are data of
    the model: syntax trees, symbols and diagnostics are values the
    compiler hands out, the [vm] module is a record of functions.  Everything
    the runner itself computes on those answers is a Rocq function that
    follows the TypeScript text line by line. *)

From Stdlib Require Import ZArith String List Ascii Lia Bool.
From stdpp Require Import base option list strings gmap pretty.

Set Warnings "-register-all".

Open Scope string_scope.
Open Scope list_scope.
Open Scope Z_scope.

(** ** JavaScript strings and control flow *)

Module Js.

Definition LF : string := String (ascii_of_nat 10) EmptyString.
Definition TAB : string := String (ascii_of_nat 9) EmptyString.
Definition DQ : string := String (ascii_of_nat 34) EmptyString.

(** [String.prototype.endsWith] *)
Definition endsWith (s suffix : string) : bool :=
  let n := String.length s in
  let k := String.length suffix in
  (k <=? n)%nat && String.eqb (substring (n - k) k s) suffix.

(** [String.prototype.replace] with a string pattern: only the first
    occurrence is replaced. *)
Definition replace (s pattern replacement : string) : string :=
  match index 0 pattern s with
  | Some i =>
      substring 0 i s +:+ replacement +:+
      substring (i + String.length pattern)
                (String.length s - (i + String.length pattern)) s
  | None => s
  end.

(** [String.prototype.includes] *)
Definition includes (s pattern : string) : bool :=
  match index 0 pattern s with Some _ => true | None => false end.

(** [Array.prototype.join] on an array of strings *)
Definition join (separator : string) (parts : list string) : string :=
  String.concat separator parts.

(** Conversion of an integral number to a string. *)
Definition numberToString (n : Z) : string := pretty n.

(** String concatenation with a value that may be [null]. *)
Definition nullableToString {A} (show : A -> string) (v : option A) : string :=
  match v with Some a => show a | None => "null" end.

(** A JavaScript computation either returns or throws an [Error]
    carrying a message. *)
Inductive Outcome (A : Type) : Type :=
| Returned (value : A)
| Raised (message : string).
Arguments Returned {A} value.
Arguments Raised {A} message.

Definition bind {A B} (c : Outcome A) (k : A -> Outcome B) : Outcome B :=
  match c with
  | Returned a => k a
  | Raised m => Raised m
  end.

(** Reading a property of [undefined] throws a [TypeError]. *)
Definition undefinedError : string :=
  "TypeError: Cannot read properties of undefined".

Definition deref {A} (v : option A) : Outcome A :=
  match v with
  | Some a => Returned a
  | None => Raised undefinedError
  end.

(** [try { c } catch {}] around an assignment whose old value is [dflt] *)
Definition tryOr {A} (c : Outcome A) (dflt : A) : A :=
  match c with Returned a => a | Raised _ => dflt end.

Definition isRaised {A} (c : Outcome A) : Prop :=
  exists m, c = Raised m.

End Js.

Import Js.

#[export] Instance outcome_ret : MRet Outcome := fun _ a => Returned a.
#[export] Instance outcome_bind : MBind Outcome := fun _ _ k c => Js.bind c k.

(** Short-circuit [||] of two conditions whose evaluation may throw. *)
Definition orElse (a b : Outcome bool) : Outcome bool :=
  x ← a; if x : bool then mret true else b.

(** ** [path.basename], [path.extname] (POSIX) and [removeExt] *)

Module path.

Definition isSlash (c : ascii) : bool := Ascii.eqb c "/".
Definition isDot (c : ascii) : bool := Ascii.eqb c ".".

Fixpoint dropWhile {A} (p : A -> bool) (l : list A) : list A :=
  match l with
  | [] => []
  | x :: r => if p x then dropWhile p r else l
  end.

Fixpoint takeWhile {A} (p : A -> bool) (l : list A) : list A :=
  match l with
  | [] => []
  | x :: r => if p x then x :: takeWhile p r else []
  end.

(** The last portion of the path, read backwards: trailing separators
    are skipped, then characters are taken up to the next separator. *)
Definition lastPortionRev (pathname : string) : list ascii :=
  takeWhile (fun c => negb (isSlash c))
    (dropWhile isSlash (rev (list_ascii_of_string pathname))).

Definition basename (pathname : string) : string :=
  string_of_list_ascii (rev (lastPortionRev pathname)).

(** From the last [.] of the last portion to its end; empty when there
    is no dot, when the dot is the first character of the portion, or
    when the portion is [..]. *)
Definition extname (pathname : string) : string :=
  let r := lastPortionRev pathname in
  let afterDot := takeWhile (fun c => negb (isDot c)) r in
  match dropWhile (fun c => negb (isDot c)) r with
  | [] => ""
  | _dot :: before =>
      match before with
      | [] => ""
      | _ =>
          if String.eqb (string_of_list_ascii (rev r)) ".." then ""
          else string_of_list_ascii ("."%char :: rev afterDot)
      end
  end.

End path.

Definition removeExt (pathname : string) : string :=
  Js.replace (path.basename pathname) (path.extname pathname) "".

Definition EXECUTION_HARNESS_FILENAME : string := "__execution_harness".
Definition USER_CODE_FILENAME : string := "__user_file".


(** ** The compiler front end, as the runner sees it *)

Module ts.

Inductive SyntaxKind : Type :=
| SourceFileKind | SyntaxList | EndOfFileToken | Token
| Identifier | StringLiteral
| ImportDeclaration | ImportClause | ExportAssignment | ExportSpecifier
| ModuleDeclaration | ModuleBlock
| VariableStatement | VariableDeclarationList | VariableDeclaration
| ExpressionStatement | IfStatement | Block | ReturnStatement
| BinaryExpression | CallExpression | SpreadElement | AwaitExpression
| ParenthesizedExpression | AsExpression
| ParameterDeclaration | TypeNode
| FunctionDeclaration | FunctionExpression | ArrowFunction
| MethodDeclaration | Constructor | GetAccessor | SetAccessor
| MethodSignature | CallSignature | ConstructSignature | IndexSignature
| FunctionType | ConstructorType.

#[export] Instance SyntaxKind_eq_dec : EqDecision SyntaxKind.
Proof. solve_decision. Defined.

(** A syntax node.  [node_id] stands for the identity of the JavaScript
    object ([===] on nodes); [getStart], [getEnd], [getText] and
    [getChildren] are the results of the methods of the same names;
    [props] holds the node-valued properties ([expression], [left],
    [right], [thenStatement], [body], [type], [name]) and [arrays] the
    node-array properties ([statements], [declarations]). *)
Inductive Node : Type := MkNode {
  node_id : nat;
  kind : SyntaxKind;
  getStart : Z;
  getEnd : Z;
  getText : string;
  getChildren : list Node;
  props : list (string * Node);
  arrays : list (string * list Node);
}.

(** [node.<name>] for a node-valued property; [None] is [undefined]. *)
Definition prop (name : string) (node : Node) : option Node :=
  snd <$> List.find (fun entry => String.eqb (fst entry) name) (props node).

(** [node.<name>] for a node-array property. *)
Definition array (name : string) (node : Node) : option (list Node) :=
  snd <$> List.find (fun entry => String.eqb (fst entry) name) (arrays node).

(** [a === b] on nodes *)
Definition sameNode (a b : Node) : bool := Nat.eqb (node_id a) (node_id b).

(** [a === b] where [b] may be [undefined] *)
Definition sameNodeOpt (a : Node) (b : option Node) : bool :=
  match b with Some n => sameNode a n | None => false end.

Definition isKind (k : SyntaxKind) (node : Node) : bool :=
  bool_decide (kind node = k).

Definition isExpressionStatement := isKind ExpressionStatement.
Definition isIfStatement := isKind IfStatement.
Definition isModuleDeclaration := isKind ModuleDeclaration.
Definition isVariableDeclarationList := isKind VariableDeclarationList.
Definition isExportAssignment := isKind ExportAssignment.

Definition isFunctionLikeKind (k : SyntaxKind) : bool :=
  match k with
  | MethodSignature | CallSignature | ConstructSignature | IndexSignature
  | FunctionType | ConstructorType
  | MethodDeclaration | Constructor | GetAccessor | SetAccessor
  | FunctionExpression | FunctionDeclaration | ArrowFunction => true
  | _ => false
  end.

(** [ts.isFunctionLike(node)], also defined on [undefined] *)
Definition isFunctionLike (node : option Node) : bool :=
  match node with Some n => isFunctionLikeKind (kind n) | None => false end.

(** The chain [node; node.parent; node.parent.parent; ...] up to [root],
    read off the tree below [root]: [None] when [target] is not a node of
    that tree. *)
Fixpoint parentChain (root : Node) (target : Node) : option (list Node) :=
  if sameNode root target then Some [root]
  else
    match root with
    | MkNode _ _ _ _ _ children _ _ =>
        (fix inChildren (l : list Node) : option (list Node) :=
           match l with
           | [] => None
           | child :: rest =>
               match parentChain child target with
               | Some chain => Some (chain ++ [root])
               | None => inChildren rest
               end
           end) children
    end.

(** [ts.findAncestor(node, callback)]: the first node of the parent chain,
    [node] included, that satisfies [callback]. *)
Definition findAncestor (root : Node) (node : Node) (callback : Node -> bool)
  : option Node :=
  match parentChain root node with
  | Some chain => List.find callback chain
  | None => if callback node then Some node else None
  end.

(** A source file: its name, its text and its syntax tree (the
    [SourceFile] node itself).  The text is a sequence of UTF-16 code
    units; a character of [text] stands for one code unit below 256, so
    the texts covered are those without code units from 256 on, and a
    position counts code units. *)
Record SourceFile : Type := MkSourceFile {
  fileName : string;
  text : string;
  root : Node;
}.

(** [sourceFile.statements] *)
Definition statements (file : SourceFile) : list Node :=
  default [] (array "statements" (root file)).

(** *** Line map ([computeLineStarts], [computeLineOfPosition])

    A line ends at a carriage return, a line feed, or the two in a row;
    the other line breaks of the compiler, U+2028 and U+2029, are code
    units above 255 and do not occur in the texts covered. *)

Definition CR : ascii := ascii_of_nat 13.
Definition NL : ascii := ascii_of_nat 10.

Fixpoint computeLineStartsFrom (chars : list ascii) (pos lineStart : Z) : list Z :=
  match chars with
  | [] => [lineStart]
  | ch :: rest =>
      if Ascii.eqb ch CR then
        match rest with
        | ch' :: rest' =>
            if Ascii.eqb ch' NL
            then lineStart :: computeLineStartsFrom rest' (pos + 2) (pos + 2)
            else lineStart :: computeLineStartsFrom rest (pos + 1) (pos + 1)
        | [] => lineStart :: computeLineStartsFrom rest (pos + 1) (pos + 1)
        end
      else if Ascii.eqb ch NL then
        lineStart :: computeLineStartsFrom rest (pos + 1) (pos + 1)
      else computeLineStartsFrom rest (pos + 1) lineStart
  end.

Definition computeLineStarts (text : string) : list Z :=
  computeLineStartsFrom (list_ascii_of_string text) 0 0.

Record LineAndCharacter : Type := MkLineAndCharacter {
  line : Z;
  character : Z;
}.

(** The line of [position] is the last line that starts at or before it;
    a position before the first line start fails the compiler's debug
    assertion. *)
Definition getLineAndCharacterOfPosition (file : SourceFile) (position : Z)
  : Outcome LineAndCharacter :=
  let lineStarts := computeLineStarts (text file) in
  let before := List.filter (fun s => s <=? position) lineStarts in
  match last before with
  | None =>
      Raised "Debug Failure. False expression: position cannot precede the beginning of the file"
  | Some lineStart =>
      Returned {| line := Z.of_nat (length before) - 1;
                  character := position - lineStart |}
  end.

(** *** Diagnostics *)

Inductive DiagnosticMessageChain : Type := MkChain {
  chainText : string;
  chainCode : Z;
  next : option (list DiagnosticMessageChain);
}.

Record Diagnostic : Type := MkDiagnostic {
  file : option SourceFile;
  start : option Z;
  length : option Z;
  code : Z;
  messageText : string + DiagnosticMessageChain;
}.

Fixpoint flattenChain (indent : nat) (chain : DiagnosticMessageChain) : string :=
  match chain with
  | MkChain txt _ nxt =>
      (match indent with
       | O => ""
       | _ => LF +:+ String.concat "" (repeat "  " indent)
       end)
      +:+ txt +:+
      match nxt with
      | None => ""
      | Some kids =>
          (fix kidsText (l : list DiagnosticMessageChain) : string :=
             match l with
             | [] => ""
             | kid :: rest => flattenChain (S indent) kid +:+ kidsText rest
             end) kids
      end
  end.

(** [ts.flattenDiagnosticMessageText(messageText, '\n')] *)
Definition flattenDiagnosticMessageText (m : string + DiagnosticMessageChain) : string :=
  match m with
  | inl s => s
  | inr chain => flattenChain 0 chain
  end.

(** *** Symbols, types and the type checker *)

Record Symbol : Type := MkSymbol {
  escapedName : string;
  flags : Z;
  valueDeclaration : option Node;
  declarations : option (list Node);
}.

Definition SymbolFlags_Function : Z := 16.

Record Type_ : Type := MkType { type_id : nat }.

Record Signature : Type := MkSignature {
  getReturnType : Type_;
  getParameters : list Symbol;
}.

Record TypeChecker : Type := MkTypeChecker {
  getSymbolAtLocation : Node -> option Symbol;
  getExportsOfModule : Symbol -> list Symbol;
  getAliasedSymbol : Symbol -> Outcome Symbol;
  getTypeAtLocation : option Node -> Type_;
  getCallSignatures : Type_ -> list Signature;
  getTypeOfSymbolAtLocation : Symbol -> option Node -> Type_;
  typeToString : Type_ -> string;
}.

(** What [ts.createProgram] answers for a set of root names and a
    compiler host serving the given virtual file table: the type checker,
    the pre-emit diagnostics, and for [emit] the calls made to the host's
    [writeFile] followed by the emit diagnostics. *)
Record Program : Type := MkProgram {
  getTypeChecker : TypeChecker;
  getPreEmitDiagnostics : list Diagnostic;
  emitWrites : list (string * string);
  emitDiagnostics : list Diagnostic;
}.

Record Compiler : Type := MkCompiler {
  createSourceFile : string -> string -> SourceFile;
  createProgram : list string -> gmap string SourceFile -> Program;
}.

End ts.


Import ts.

(** ** Numbers that may be [undefined]

    [diagnostic.start] and [diagnostic.length] are optional; arithmetic on
    [undefined] gives [NaN], and every comparison with [undefined] or
    [NaN] is false.  [None] stands for both. *)

Module Num.

Definition add (a b : option Z) : option Z :=
  match a, b with Some x, Some y => Some (x + y) | _, _ => None end.

(** [a === b] *)
Definition eq (a : Z) (b : option Z) : bool :=
  match b with Some y => a =? y | None => false end.

(** [a <= b] with [b] optional, and with [a] optional *)
Definition le_r (a : Z) (b : option Z) : bool :=
  match b with Some y => a <=? y | None => false end.

Definition le_l (a : option Z) (b : Z) : bool :=
  match a with Some x => x <=? b | None => false end.

(** [Math.min(x, ...xs)] and [Math.max(x, ...xs)] *)
Definition min (x : Z) (xs : list Z) : Z := fold_left Z.min xs x.
Definition max (x : Z) (xs : list Z) : Z := fold_left Z.max xs x.

End Num.

(** ** The harness synthesizer (the [executionCode] template of [preProcess]) *)

Definition importLine (file : SourceFile) : string :=
  if endsWith (fileName file) ".d.ts" then ""
  else "import '" +:+ removeExt (fileName file) +:+ "';".

Definition executionCode (additionalSourceFiles : list SourceFile)
    (argsTypes : list string) (outputType : string) : string :=
  LF +:+ TAB +:+ TAB +:+ TAB +:+
  join (LF +:+ "  ") (map importLine additionalSourceFiles) +:+ LF +:+
  "      import defaultExport from '" +:+ USER_CODE_FILENAME +:+ "';" +:+ LF +:+
  "            " +:+ LF +:+
  "      declare global {" +:+ LF +:+
  "        const __args: [" +:+ join ", " argsTypes +:+ "];" +:+ LF +:+
  "        let __result: " +:+ outputType +:+ " | Promise<" +:+ outputType +:+ ">;" +:+ LF +:+
  "      }" +:+ LF +:+
  "      __result = defaultExport(...__args);" +:+ LF +:+
  "      " +:+ LF +:+
  "      if ((__result as any) instanceof Promise) {" +:+ LF +:+
  "      " +:+ TAB +:+ "__result = await __result;" +:+ LF +:+
  "      }" +:+ LF +:+
  "    ".

(** ** Stack frames, thrown values and the source map *)

(** A call site as parsed by [stack-trace].  The runner reads the line
    and the column of a frame with [!]: they are numbers. *)
Record StackFrame : Type := MkStackFrame {
  getFileName : option string;
  getLineNumber : Z;
  getColumnNumber : Z;
  getFunctionName : option string;
}.

(** What an evaluation throws.  User code can throw any value, and the
    runner catches it as [any] and casts it to [Error]:
    - an object, an [Error] or not: the string that concatenation makes of
      its [message] property (or the [TypeError] that conversion throws,
      as for a [Symbol]), what assigning a string to that property does
      (it throws a [TypeError] on a frozen object), and the call sites
      [parse] reads from its [stack], innermost first (none when it has no
      stack);
    - a primitive other than [null] and [undefined], given by its [typeof]
      and its rendering: it has no stack, its [message] is [undefined], and
      assigning to a property of it throws in strict code;
    - [null] or [undefined]: reading a property of it throws. *)
Inductive JsError : Type :=
| ThrownObject (message : Outcome string) (setMessage : Outcome unit)
    (callSites : list StackFrame)
| ThrownPrimitive (typeOf shown : string)
| ThrownNullish (shown : string).

(** [err.stack], the first thing [parse(err)] evaluates *)
Definition readStack (error : JsError) : Outcome unit :=
  match error with
  | ThrownNullish shown =>
      Raised ("TypeError: Cannot read properties of " +:+ shown +:+ " (reading 'stack')")
  | _ => Returned tt
  end.

(** [parse(err)] of [stack-trace], once [err.stack] is read *)
Definition parse (error : JsError) : list StackFrame :=
  match error with
  | ThrownObject _ _ callSites => callSites
  | _ => []
  end.

(** [error.message] inside a string concatenation *)
Definition message (error : JsError) : Outcome string :=
  match error with
  | ThrownObject message _ _ => message
  | ThrownPrimitive _ _ => Returned "undefined"
  | ThrownNullish shown =>
      Raised ("TypeError: Cannot read properties of " +:+ shown +:+ " (reading 'message')")
  end.

(** [error.message = text] in the strict code of a class body *)
Definition setMessage (error : JsError) : Outcome unit :=
  match error with
  | ThrownObject _ setMessage _ => setMessage
  | ThrownPrimitive typeOf shown =>
      Raised ("TypeError: Cannot create property 'message' on " +:+ typeOf +:+
              " '" +:+ shown +:+ "'")
  | ThrownNullish shown =>
      Raised ("TypeError: Cannot set properties of " +:+ shown +:+ " (setting 'message')")
  end.

(** The consumer of [source-map].  Its [originalPositionFor] answers for
    the one-based lines and zero-based columns of generated code, with
    [null] line and column where nothing is mapped; the call sites of
    frames in the user module carry such positions. *)
Record MappedPosition : Type := MkMappedPosition {
  mappedLine : option Z;
  mappedColumn : option Z;
}.

Record SourceMapConsumer : Type := MkSourceMapConsumer {
  originalPositionFor : Z -> Z -> MappedPosition;
}.

(** ** [UserCodeError] and its three classes *)

Record Location : Type := MkLocation {
  line : option Z;
  column : option Z;
}.

Inductive UserCodeError : Type :=
| UserCodeTypeError
    (diagnostic : Diagnostic) (sources : gmap string SourceFile)
    (typeChecker : TypeChecker) (mapDiagnosticMessage : Diagnostic -> list string)
| ExecutionHarnessTypeError
    (diagnostic : Diagnostic) (sources : gmap string SourceFile)
    (typeChecker : TypeChecker) (mapDiagnosticMessage : Diagnostic -> list string)
| UserCodeRuntimeError
    (error : JsError) (sourceMap : SourceMapConsumer) (stackFrames : list StackFrame).

(** [UserCodeError.getDescendentNodes] *)
Fixpoint getDescendentNodes (node : Node) (guard : Node -> bool) : list Node :=
  if guard node then [node]
  else
    match node with
    | MkNode _ _ _ _ _ children _ _ =>
        (fix ofChildren (l : list Node) : list Node :=
           match l with
           | [] => []
           | child :: rest => getDescendentNodes child guard ++ ofChildren rest
           end) children
    end.

(** [UserCodeError.getDescendentAtLocation] *)
Fixpoint getDescendentAtLocation (node : Node) (start end_ : option Z) : Node :=
  if Num.eq (getStart node) start && Num.eq (getEnd node) end_ then node
  else
    match node with
    | MkNode _ _ _ _ _ children _ _ =>
        (fix firstEnclosing (l : list Node) : Node :=
           match l with
           | [] => node
           | child1 :: rest =>
               if Num.le_r (getStart child1) start && Num.le_l end_ (getEnd child1)
               then getDescendentAtLocation child1 start end_
               else firstEnclosing rest
           end) children
    end.

(** [node?.name?.getText() ?? ''] *)
Definition nameText (node : option Node) : string :=
  match node ≫= prop "name" with
  | Some name => getText name
  | None => ""
  end.

Definition frameText (name : string) (location : Location) : string :=
  "at " +:+ name +:+ "(" +:+
  nullableToString numberToString (line location) +:+ ":" +:+
  nullableToString numberToString (column location) +:+ ")".

(** *** [UserCodeTypeError] *)

Module UserCodeTypeError.

(** [get message] *)
Definition message (diagnostic : Diagnostic)
    (mapDiagnosticMessage : Diagnostic -> list string) : string :=
  "TypeError: TS" +:+ numberToString (code diagnostic) +:+ " " +:+
  join LF (mapDiagnosticMessage diagnostic).

(** [get location] *)
Definition location (diagnostic : Diagnostic) (sources : gmap string SourceFile)
  : Outcome Location :=
  match start diagnostic with
  | None => Raised "Could not find start position"
  | Some position =>
      userFile ← deref (sources !! USER_CODE_FILENAME);
      location ← getLineAndCharacterOfPosition userFile position;
      mret {| line := Some (ts.line location + 1);
              column := Some (character location + 1) |}
  end.

(** [get stack] *)
Definition stack (diagnostic : Diagnostic) (sources : gmap string SourceFile)
  : Outcome string :=
  userFile ← deref (sources !! USER_CODE_FILENAME);
  let diagnosticNode :=
    getDescendentAtLocation (root userFile) (start diagnostic)
      (Num.add (start diagnostic) (length diagnostic)) in
  let functionDeclaration :=
    findAncestor (root userFile) diagnosticNode (fun n => isFunctionLike (Some n)) in
  location ← location diagnostic sources;
  mret (frameText (nameText functionDeclaration) location).

End UserCodeTypeError.

(** *** [ExecutionHarnessTypeError]: harness diagnostics redirected to the
    user code's type signature *)

Module ExecutionHarnessTypeError.

Section Getters.

Variable sources : gmap string SourceFile.
Variable typeChecker : TypeChecker.

Definition defaultExportSymbol : Outcome (option Symbol) :=
  userFile ← deref (sources !! USER_CODE_FILENAME);
  match getSymbolAtLocation typeChecker (root userFile) with
  | None => mret None
  | Some userFileSymbol =>
      mret (List.find (fun symbol => String.eqb (escapedName symbol) "default")
                      (getExportsOfModule typeChecker userFileSymbol))
  end.

Definition defaultExportNode : Outcome (option Node) :=
  defaultExportSymbol ← defaultExportSymbol;
  match defaultExportSymbol with
  | None => mret None
  | Some symbol =>
      mret (match valueDeclaration symbol with
            | Some node => Some node
            | None => declarations symbol ≫= head
            end)
  end.

Definition defaultExportedFunctionSymbol : Outcome (option Symbol) :=
  defaultExportSymbol ← defaultExportSymbol;
  match defaultExportSymbol with
  | None => mret None
  | Some symbol =>
      let unaliasedDefaultExportSymbol :=
        tryOr (getAliasedSymbol typeChecker symbol) symbol in
      if Z.land (flags unaliasedDefaultExportSymbol) SymbolFlags_Function =? 0
      then mret None
      else mret (Some unaliasedDefaultExportSymbol)
  end.

Definition defaultExportNodeType : Outcome (option Type_) :=
  defaultExportNode ← defaultExportNode;
  match defaultExportNode with
  | None => mret None
  | Some node =>
      if isExportAssignment node
      then mret (Some (getTypeAtLocation typeChecker (prop "expression" node)))
      else mret (Some (getTypeAtLocation typeChecker (Some node)))
  end.

Definition defaultExportedFunctionNode : Outcome (option Node) :=
  symbol ← defaultExportedFunctionSymbol;
  let node := symbol ≫= valueDeclaration in
  if negb (isFunctionLike node) then mret None else mret node.

Definition defaultExportedFunctionReturnNode : Outcome (option Node) :=
  defaultExportedFunctionNode ← defaultExportedFunctionNode;
  match defaultExportedFunctionNode with
  | None => mret None
  | Some node => mret (prop "type" node)
  end.

Definition executionHarnessExpressionStatementNode : Outcome (option Node) :=
  executionHarness ← deref (sources !! EXECUTION_HARNESS_FILENAME);
  expressionStatement ← deref (List.find isExpressionStatement (statements executionHarness));
  mret (prop "expression" expressionStatement).

Definition executionHarnessAsyncExpressionStatementNode : Outcome (option Node) :=
  executionHarness ← deref (sources !! EXECUTION_HARNESS_FILENAME);
  ifStatement ← deref (List.find isIfStatement (statements executionHarness));
  thenStatement ← deref (prop "thenStatement" ifStatement);
  thenStatements ← deref (array "statements" thenStatement);
  expressionStatement ← deref (List.find isExpressionStatement thenStatements);
  mret (prop "expression" expressionStatement).

Definition executionHarnessResultNode : Outcome (option Node) :=
  binaryExpression ← executionHarnessExpressionStatementNode;
  binaryExpression ← deref binaryExpression;
  mret (prop "left" binaryExpression).

Definition executionHarnessAsyncResultNode : Outcome (option Node) :=
  binaryExpression ← executionHarnessAsyncExpressionStatementNode;
  binaryExpression ← deref binaryExpression;
  mret (prop "left" binaryExpression).

Definition executionHarnessDefaultFunctionCallNode : Outcome (option Node) :=
  binaryExpression ← executionHarnessExpressionStatementNode;
  binaryExpression ← deref binaryExpression;
  mret (prop "right" binaryExpression).

Definition executionHarnessArgumentsNode : Outcome (option Node) :=
  callExpression ← executionHarnessDefaultFunctionCallNode;
  callExpression ← deref callExpression;
  mret (List.find (isKind SyntaxList) (getChildren callExpression)).

Definition executionHarnessDefaultFunctionIdentifierNode : Outcome (option Node) :=
  callExpression ← executionHarnessDefaultFunctionCallNode;
  callExpression ← deref callExpression;
  mret (prop "expression" callExpression).

Definition globalModuleDeclarationBlock : Outcome (option Node) :=
  executionHarness ← deref (sources !! EXECUTION_HARNESS_FILENAME);
  moduleDeclaration ← deref (List.find isModuleDeclaration (statements executionHarness));
  mret (prop "body" moduleDeclaration).

(** The [type] of the first declaration of the first variable declaration
    list below the [index]-th statement of the [declare global] block. *)
Definition declaredTypeNode (index : nat) : Outcome (option Node) :=
  moduleBlock ← globalModuleDeclarationBlock;
  moduleBlock ← deref moduleBlock;
  blockStatements ← deref (array "statements" moduleBlock);
  statement ← deref (nth_error blockStatements index);
  variableDeclaration ← deref (head (getDescendentNodes statement isVariableDeclarationList));
  declarations ← deref (array "declarations" variableDeclaration);
  declaration ← deref (head declarations);
  mret (prop "type" declaration).

Definition argumentTypeNode : Outcome (option Node) := declaredTypeNode 0.
Definition outputTypeNode : Outcome (option Node) := declaredTypeNode 1.

(** [this.<getter>.getText()] *)
Definition textOf (getter : Outcome (option Node)) : Outcome string :=
  node ← getter;
  node ← deref node;
  mret (getText node).

(** [diagnosticNode === this.<getter>] *)
Definition isNode (diagnosticNode : Node) (getter : Outcome (option Node))
  : Outcome bool :=
  node ← getter;
  mret (sameNodeOpt diagnosticNode node).

(** The signature the messages ask for:
    [(...args: <argument type>) => <output type>] *)
Definition expectedSignature : Outcome string :=
  argumentType ← textOf argumentTypeNode;
  outputType ← textOf outputTypeNode;
  mret ("(...args: " +:+ argumentType +:+ ") => " +:+ outputType).

(** [parameters.map(p => typeToString(getTypeOfSymbolAtLocation(p, file))).join(', ')] *)
Definition parameterTypes (parameters : list Symbol) (file : option SourceFile)
  : string :=
  join ", "
    (map (fun p => typeToString typeChecker
                     (getTypeOfSymbolAtLocation typeChecker p (root <$> file)))
         parameters).

Definition incorrectArgumentType (parameters : list Symbol)
    (file : option SourceFile) : Outcome string :=
  argumentType ← textOf argumentTypeNode;
  mret ("Incorrect argument type. Expected: '" +:+ argumentType +:+
        "', Actual: '[" +:+ parameterTypes parameters file +:+ "]'.").

(** [getDescendentAtLocation] on the harness, at the diagnostic's range *)
Definition diagnosticNode (diagnostic : Diagnostic) : Outcome Node :=
  executionHarness ← deref (sources !! EXECUTION_HARNESS_FILENAME);
  mret (getDescendentAtLocation (root executionHarness) (start diagnostic)
          (Num.add (start diagnostic) (length diagnostic))).

(** [this.defaultExportNodeType?.getCallSignatures()?.[0]] *)
Definition callSignature : Outcome (option Signature) :=
  defaultExportNodeType ← defaultExportNodeType;
  mret (defaultExportNodeType ≫= fun t => head (getCallSignatures typeChecker t)).

(** [diagnosticNode === this.executionHarnessResultNode ||
     diagnosticNode === this.executionHarnessAsyncResultNode] *)
Definition inResultSlot (diagnosticNode : Node) : Outcome bool :=
  orElse (isNode diagnosticNode executionHarnessResultNode)
         (isNode diagnosticNode executionHarnessAsyncResultNode).

(** [diagnosticNode === this.executionHarnessDefaultFunctionCallNode ||
     diagnosticNode === this.executionHarnessDefaultFunctionIdentifierNode ||
     diagnosticNode === this.executionHarnessArgumentsNode] *)
Definition inCall (diagnosticNode : Node) : Outcome bool :=
  orElse (isNode diagnosticNode executionHarnessDefaultFunctionCallNode)
    (orElse (isNode diagnosticNode executionHarnessDefaultFunctionIdentifierNode)
            (isNode diagnosticNode executionHarnessArgumentsNode)).

(** The constructor: the diagnostic after it has been rewritten in
    place, or the error the constructor throws. *)
Definition relocate (diagnostic : Diagnostic) : Outcome Diagnostic :=
  diagnosticNode ← diagnosticNode diagnostic;
  defaultExportSymbol ← defaultExportSymbol;
  defaultExportNode ← defaultExportNode;
  match defaultExportSymbol, defaultExportNode with
  | Some _, Some defaultExportNode =>
      callSignature ← callSignature;
      match callSignature with
      | None =>
          (* Default export is not a function *)
          signature ← expectedSignature;
          mret {| file := sources !! USER_CODE_FILENAME;
                  start := Some (getStart defaultExportNode);
                  length := Some (getEnd defaultExportNode - getStart defaultExportNode);
                  code := code diagnostic;
                  messageText := inl
                    ("Default export is not a valid function. Expected a default export function with the signature: "
                     +:+ DQ +:+ signature +:+ DQ +:+ ".") |}
      | Some callSignature =>
          (* Errors in the return type of the user code default export *)
          inResult ← inResultSlot diagnosticNode;
          if inResult : bool then
            let returnType := getReturnType callSignature in
            returnTypeNode ← defaultExportedFunctionReturnNode;
            let range :=
              match returnTypeNode with
              | Some node => (getStart node, getEnd node - getStart node)
              | None => (getStart defaultExportNode,
                         getEnd defaultExportNode - getStart defaultExportNode)
              end in
            outputType ← textOf outputTypeNode;
            mret {| file := sources !! USER_CODE_FILENAME;
                    start := Some (fst range);
                    length := Some (snd range);
                    code := code diagnostic;
                    messageText := inl
                      ("Incorrect return type. Expected: '" +:+ outputType +:+
                       "', Actual: '" +:+ typeToString typeChecker returnType +:+ "'.") |}
          else
            (* Errors in the argument type of the user code default export *)
            inCall ← inCall diagnosticNode;
            if inCall : bool then
              let parameters := getParameters callSignature in
              let file := sources !! USER_CODE_FILENAME in
              match parameters with
              | [] =>
                  text ← incorrectArgumentType parameters file;
                  mret {| file := file;
                          start := Some (getStart defaultExportNode);
                          length := Some (getEnd defaultExportNode - getStart defaultExportNode);
                          code := code diagnostic;
                          messageText := inl text |}
              | p :: ps =>
                  first ← deref (valueDeclaration p);
                  others ← mapM (fun q => deref (valueDeclaration q)) ps;
                  let start := Num.min (getStart first) (map getStart others) in
                  let end_ := Num.max (getEnd first) (map getEnd others) in
                  text ← incorrectArgumentType parameters file;
                  mret {| file := file;
                          start := Some start;
                          length := Some (end_ - start);
                          code := code diagnostic;
                          messageText := inl text |}
              end
            else
              Raised ("Unhandled diagnostic node: " +:+ getText diagnosticNode)
      end
  | _, _ =>
      (* No default export *)
      userFile ← deref (sources !! USER_CODE_FILENAME);
      signature ← expectedSignature;
      mret {| file := Some userFile;
              start := Some (getStart (root userFile));
              length := Some (getEnd (root userFile) - getStart (root userFile));
              code := code diagnostic;
              messageText := inl
                ("No default export. Expected a default export function with the signature: "
                 +:+ DQ +:+ signature +:+ DQ +:+ ".") |}
  end.

(** [get location] *)
Definition location (diagnostic : Diagnostic) : Outcome Location :=
  match start diagnostic with
  | None => mret {| line := Some 1; column := Some 1 |}
  | Some position =>
      userFile ← deref (sources !! USER_CODE_FILENAME);
      location ← getLineAndCharacterOfPosition userFile position;
      mret {| line := Some (ts.line location + 1);
              column := Some (character location + 1) |}
  end.

(** [get stack] *)
Definition stack (diagnostic : Diagnostic) : Outcome string :=
  functionNode ← defaultExportedFunctionNode;
  location ← location diagnostic;
  mret (frameText (nameText functionNode) location).

End Getters.

End ExecutionHarnessTypeError.

(** [UserCodeTypeError.new] *)
Definition UserCodeTypeError_new (diagnostic : Diagnostic)
    (sources : gmap string SourceFile) (typeChecker : TypeChecker)
    (mapDiagnosticMessage : Diagnostic -> list string) : Outcome UserCodeError :=
  if String.eqb
       (removeExt (match file diagnostic with Some f => fileName f | None => "" end))
       EXECUTION_HARNESS_FILENAME
  then
    relocated ← ExecutionHarnessTypeError.relocate sources typeChecker diagnostic;
    mret (ExecutionHarnessTypeError relocated sources typeChecker mapDiagnosticMessage)
  else
    mret (UserCodeTypeError diagnostic sources typeChecker mapDiagnosticMessage).

(** *** [UserCodeRuntimeError]: runtime errors with mapped line numbers *)

Module UserCodeRuntimeError.

Definition inUserFile (callSite : StackFrame) : bool :=
  bool_decide (getFileName callSite = Some USER_CODE_FILENAME).

Definition outsideUserCode : string :=
  "Error: Runtime error detected outside of user code execution path. This is most likely a bug in the additional library source."
  +:+ LF +:+ "Inherited from:" +:+ LF.

(** The constructor, reached through [UserCodeRuntimeError.new] *)
Definition new (error : JsError) (sourceMap : SourceMapConsumer)
  : Outcome UserCodeError :=
  _ ← readStack error;
  let stackFrames := parse error in
  match List.find inUserFile stackFrames with
  | None =>
      (* this.error.message = '...' + this.error.message; throw this.error *)
      text ← message error;
      _ ← setMessage error;
      Raised (outsideUserCode +:+ text)
  | Some _ => mret (UserCodeRuntimeError error sourceMap stackFrames)
  end.

(** [get message] *)
Definition message (error : JsError) : Outcome string :=
  text ← message error;
  mret ("Error: " +:+ text).

Definition mappedLocation (sourceMap : SourceMapConsumer) (callSite : StackFrame)
  : MappedPosition :=
  originalPositionFor sourceMap (getLineNumber callSite) (getColumnNumber callSite).

(** [callSite.getFileName()?.endsWith(USER_CODE_FILENAME)] *)
Definition fileEndsWithUserFile (callSite : StackFrame) : bool :=
  match getFileName callSite with
  | Some name => endsWith name USER_CODE_FILENAME
  | None => false
  end.

Definition hasOriginalLine (sourceMap : SourceMapConsumer) (callSite : StackFrame)
  : bool :=
  match getFileName callSite with
  | None => false
  | Some _ =>
      match mappedLine (mappedLocation sourceMap callSite) with
      | Some _ => true
      | None => false
      end
  end.

Definition renderFrame (sourceMap : SourceMapConsumer) (callSite : StackFrame)
  : string :=
  let mappedLocation := mappedLocation sourceMap callSite in
  let functionName := getFunctionName callSite in
  let lineNumber := mappedLine mappedLocation in
  let columnNumber := mappedColumn mappedLocation in
  "at " +:+ nullableToString (fun s => s) functionName +:+ "(" +:+
  nullableToString numberToString lineNumber +:+ ":" +:+
  nullableToString numberToString columnNumber +:+ ")".

(** [get stack] *)
Definition stack (sourceMap : SourceMapConsumer) (stackFrames : list StackFrame)
  : string :=
  let stackWithoutHarness :=
    List.filter (hasOriginalLine sourceMap)
      (List.filter fileEndsWithUserFile stackFrames) in
  join LF (map (renderFrame sourceMap) stackWithoutHarness).

(** [get location] *)
Definition location (error : JsError) (sourceMap : SourceMapConsumer)
  : Outcome Location :=
  _ ← readStack error;
  let stack := parse error in
  userFileStackFrame ← deref (List.find inUserFile stack);
  let originalPosition := mappedLocation sourceMap userFileStackFrame in
  mret {| line := mappedLine originalPosition;
          column := mappedColumn originalPosition |}.

End UserCodeRuntimeError.

(** *** The three getters every [UserCodeError] answers *)

Definition errorMessage (e : UserCodeError) : Outcome string :=
  match e with
  | UserCodeTypeError d _ _ mapDiagnosticMessage
  | ExecutionHarnessTypeError d _ _ mapDiagnosticMessage =>
      mret (UserCodeTypeError.message d mapDiagnosticMessage)
  | UserCodeRuntimeError error _ _ => UserCodeRuntimeError.message error
  end.

Definition errorStack (e : UserCodeError) : Outcome string :=
  match e with
  | UserCodeTypeError d sources _ _ => UserCodeTypeError.stack d sources
  | ExecutionHarnessTypeError d sources typeChecker _ =>
      ExecutionHarnessTypeError.stack sources typeChecker d
  | UserCodeRuntimeError _ sourceMap stackFrames =>
      mret (UserCodeRuntimeError.stack sourceMap stackFrames)
  end.

Definition errorLocation (e : UserCodeError) : Outcome Location :=
  match e with
  | UserCodeTypeError d sources _ _ => UserCodeTypeError.location d sources
  | ExecutionHarnessTypeError d sources _ _ =>
      ExecutionHarnessTypeError.location sources d
  | UserCodeRuntimeError error sourceMap _ =>
      UserCodeRuntimeError.location error sourceMap
  end.

(** The diagnostic a compile-time error carries. *)
Definition errorDiagnostic (e : UserCodeError) : option Diagnostic :=
  match e with
  | UserCodeTypeError d _ _ _ | ExecutionHarnessTypeError d _ _ _ => Some d
  | UserCodeRuntimeError _ _ _ => None
  end.

(** ** Diagnostic codes *)

Fixpoint getDiagnosticMessageChainCodes (diagnosticMessageChain : DiagnosticMessageChain)
  : list Z :=
  match diagnosticMessageChain with
  | MkChain _ code nxt =>
      code ::
      match nxt with
      | None => []
      | Some kids =>
          (fix ofKids (l : list DiagnosticMessageChain) : list Z :=
             match l with
             | [] => []
             | kid :: rest => getDiagnosticMessageChainCodes kid ++ ofKids rest
             end) kids
      end
  end.

Definition getDiagnosticCodes (diagnostic : Diagnostic) : list Z :=
  code diagnostic ::
  match messageText diagnostic with
  | inl _ => []
  | inr chain => getDiagnosticMessageChainCodes chain
  end.

(** ** The runner *)

Inductive Result (T E : Type) : Type :=
| Ok (value : T)
| Err (error : E).
Arguments Ok {T E} value.
Arguments Err {T E} error.

(** The artifacts of a compilation.  [jsFileMap] is a plain object with
    string values, read back with [Object.entries]: the map holds its own
    properties. *)
Record CacheItem : Type := MkCacheItem {
  jsFileMap : gmap string string;
  userCodeSourceMap : option string;
}.

(** The runner holds the message mapper its constructor builds with
    [createMapDiagnosticMessage] from the configured code-to-message
    mappers.  That function lives in [utils/errorMessageMapping], outside
    the sources at hand, so the mapper is a field of the model. *)
Record UserCodeRunner : Type := MkUserCodeRunner {
  mapDiagnosticMessage : Diagnostic -> list string;
}.

(** [array.forEach] with a callback that may throw; the accumulator is
    the state the callback mutates. *)
Fixpoint forEach {A S : Type} (callback : S -> A -> Outcome S) (l : list A) (s : S)
  : Outcome S :=
  match l with
  | [] => mret s
  | x :: rest => s' ← callback s x; forEach callback rest s'
  end.

Definition unhandledDiagnostic (diagnostic : Diagnostic) : string :=
  "Unhandled diagnostic: " +:+ numberToString (code diagnostic) +:+ " " +:+
  flattenDiagnosticMessageText (messageText diagnostic).

Definition isImplicitLibImport (codes : list Z) : bool :=
  existsb (fun code => existsb (Z.eqb code) [1420]) codes.

Section Collect.

Variable sources : gmap string SourceFile.
Variable typeChecker : TypeChecker.
Variable mapMessage : Diagnostic -> list string.

(** The callback of the loop over [ts.getPreEmitDiagnostics(program)] *)
Definition onPreEmitDiagnostic (sourceErrors : list UserCodeError)
    (diagnostic : Diagnostic) : Outcome (list UserCodeError) :=
  match file diagnostic with
  | Some _ =>
      e ← UserCodeTypeError_new diagnostic sources typeChecker mapMessage;
      mret (sourceErrors ++ [e])
  | None =>
      let codes := getDiagnosticCodes diagnostic in
      if isImplicitLibImport codes then mret sourceErrors
      else Raised (unhandledDiagnostic diagnostic)
  end.

(** The callback of the loop over [emitResult.diagnostics] *)
Definition onEmitDiagnostic (sourceErrors : list UserCodeError)
    (diagnostic : Diagnostic) : Outcome (list UserCodeError) :=
  match file diagnostic with
  | Some _ =>
      e ← UserCodeTypeError_new diagnostic sources typeChecker mapMessage;
      mret (sourceErrors ++ [e])
  | None => Raised (unhandledDiagnostic diagnostic)
  end.

End Collect.

(** The compiler host's [writeFile], acting on [jsFileMap] and
    [userCodeSourceMap].  [jsFileMap] is a plain object: assigning a
    string to its [__proto__] key stores nothing. *)
Definition writeFile (compiler : Compiler)
    (state : gmap string string * option string) (call : string * string)
  : gmap string string * option string :=
  let '(fileName, data) := call in
  let filenameSansExt := removeExt fileName in
  if endsWith fileName ".map" then
    if String.eqb (removeExt filenameSansExt) USER_CODE_FILENAME
    then (fst state,
          Some (text (createSourceFile compiler (removeExt filenameSansExt) data)))
    else state
  else if String.eqb filenameSansExt "__proto__" then state
  else
    (<[filenameSansExt := text (createSourceFile compiler filenameSansExt data)]> (fst state),
     snd state).

(** The virtual file table [tsFileMap]. *)
Definition tsFileMap (userSourceFile executionSourceFile : SourceFile)
    (additionalSourceFiles : list SourceFile) : gmap string SourceFile :=
  fold_left (fun m additionalSourceFile =>
               <[removeExt (fileName additionalSourceFile) := additionalSourceFile]> m)
    additionalSourceFiles
    (<[EXECUTION_HARNESS_FILENAME := executionSourceFile]>
       (<[USER_CODE_FILENAME := userSourceFile]> ∅)).

Definition compile (compiler : Compiler) (userCode outputType : string)
    (argsTypes : list string) (additionalSourceFiles : list SourceFile)
  : gmap string SourceFile * Program :=
  let userSourceFile := createSourceFile compiler USER_CODE_FILENAME userCode in
  let executionSourceFile :=
    createSourceFile compiler EXECUTION_HARNESS_FILENAME
      (executionCode additionalSourceFiles argsTypes outputType) in
  let files := tsFileMap userSourceFile executionSourceFile additionalSourceFiles in
  (files,
   createProgram compiler
     (map fileName additionalSourceFiles ++ [EXECUTION_HARNESS_FILENAME]) files).

Definition preProcess (compiler : Compiler) (runner : UserCodeRunner)
    (userCode outputType : string) (argsTypes : list string)
    (additionalSourceFiles : list SourceFile)
  : Outcome (Result CacheItem (list UserCodeError)) :=
  let '(files, program) :=
    compile compiler userCode outputType argsTypes additionalSourceFiles in
  let typeChecker := getTypeChecker program in
  sourceErrors ←
    forEach (onPreEmitDiagnostic files typeChecker (mapDiagnosticMessage runner))
      (getPreEmitDiagnostics program) [];
  (* program.emit() *)
  let written := fold_left (writeFile compiler) (emitWrites program) (∅, None) in
  sourceErrors ←
    forEach (onEmitDiagnostic files typeChecker (mapDiagnosticMessage runner))
      (emitDiagnostics program) sourceErrors;
  if (0 <? Z.of_nat (List.length sourceErrors)) then mret (Err sourceErrors)
  else mret (Ok {| jsFileMap := fst written; userCodeSourceMap := snd written |}).

(** *** The [vm] module *)

Inductive JsValue : Type :=
| JsUndefined
| JsNumber (n : Z)
| JsString (s : string)
| JsArray (elements : list JsValue).

Record Module : Type := MkModule {
  identifier : string;
  content : string;
}.

(** The [vm] primitives and the [source-map] constructor: building a
    module from emitted text, linking a module through a resolver
    callback, evaluating a linked module under a timeout in a context
    (which gives the context as evaluation leaves it and the value it
    threw, if any), parsing a source map. *)
Record Vm : Type := MkVm {
  SourceTextModule : string -> string -> Outcome Module;
  link : Module -> (string -> Outcome Module) -> Outcome Module;
  evaluate : Module -> Z -> gmap string JsValue -> gmap string JsValue * option JsError;
  newSourceMapConsumer : option string -> Outcome SourceMapConsumer;
}.

(** The loop that fills [moduleCache]. *)
Definition createModules (vm : Vm) (jsFileMap : gmap string string)
  : Outcome (gmap string Module) :=
  forEach (fun (moduleCache : gmap string Module) (entry : string * string) =>
             m ← SourceTextModule vm (snd entry) (fst entry);
             mret (<[fst entry := m]> moduleCache))
          (map_to_list jsFileMap) ∅.

(** The resolver passed to [harnessModule.link]. *)
Definition resolveDependency (moduleCache : gmap string Module) (specifier : string)
  : Outcome Module :=
  let filenameSansExt := removeExt specifier in
  match moduleCache !! filenameSansExt with
  | Some m => mret m
  | None => Raised ("Unable to resolve dependency: " +:+ specifier)
  end.

(** Building the modules and linking the harness module. *)
Definition linkHarness (vm : Vm) (jsFileMap : gmap string string)
  : Outcome Module :=
  moduleCache ← createModules vm jsFileMap;
  harnessModule ← deref (moduleCache !! EXECUTION_HARNESS_FILENAME);
  link vm harnessModule (resolveDependency moduleCache).

(** [executeUserCodeFromArtifacts]: the context as the call leaves it,
    and what the call returns or throws. *)
Definition executeUserCodeFromArtifacts (vm : Vm)
    (jsFileMap : gmap string string) (sourceMap : option string)
    (args : JsValue) (timeout : Z) (context : gmap string JsValue)
  : gmap string JsValue * Outcome (Result JsValue (list UserCodeError)) :=
  (* Put args and result into context *)
  let context := <["__result" := JsUndefined]> (<["__args" := args]> context) in
  (* Create modules for VM *)
  match linkHarness vm jsFileMap with
  | Raised m => (context, Raised m)
  | Returned harnessModule =>
      match evaluate vm harnessModule timeout context with
      | (context, None) =>
          let result := default JsUndefined (context !! "__result") in
          (delete "__result" (delete "__args" context), mret (Ok result))
      | (context, Some error) =>
          (context,
           consumer ← newSourceMapConsumer vm sourceMap;
           e ← UserCodeRuntimeError.new error consumer;
           mret (Err [e]))
      end
  end.

Definition executeUserCode (compiler : Compiler) (vm : Vm)
    (runner : UserCodeRunner) (userCode : string) (args : JsValue)
    (outputType : string) (argsTypes : list string) (timeout : Z)
    (additionalSourceFiles : list SourceFile) (context : gmap string JsValue)
  : gmap string JsValue * Outcome (Result JsValue (list UserCodeError)) :=
  match preProcess compiler runner userCode outputType argsTypes additionalSourceFiles with
  | Raised m => (context, Raised m)
  | Returned (Err errors) => (context, mret (Err errors))
  | Returned (Ok artifacts) =>
      executeUserCodeFromArtifacts vm (jsFileMap artifacts)
        (userCodeSourceMap artifacts) args timeout context
  end.

(** *** The compiler host of [preProcess]

    [customCompilerHost] overrides five members of the default host; the
    three that answer from the virtual file table are below ([writeFile]
    is above, [getCurrentDirectory] returns the empty string). *)

(** What the default host answers from the real file system. *)
Record DefaultCompilerHost : Type := MkDefaultCompilerHost {
  defaultGetSourceFile : string -> option SourceFile;
  defaultReadFile : string -> option string;
}.

Module customCompilerHost.

Section Host.

Variable tsFileMap : gmap string SourceFile.
Variable defaultCompilerHost : DefaultCompilerHost.

Definition getCurrentDirectory : string := "".

Definition getSourceFile (fileName : string) : option SourceFile :=
  let filenameSansExt := removeExt fileName in
  match tsFileMap !! filenameSansExt with
  | Some file => Some file
  | None =>
      if includes fileName "typescript/lib"
      then defaultGetSourceFile defaultCompilerHost fileName
      else None
  end.

Definition readFile (fileName : string) : option string :=
  let filenameSansExt := removeExt fileName in
  match tsFileMap !! filenameSansExt with
  | Some file => Some (text file)
  | None => defaultReadFile defaultCompilerHost fileName
  end.

Definition fileExists (fileName : string) : bool :=
  let filenameSansExt := removeExt fileName in
  bool_decide (is_Some (tsFileMap !! filenameSansExt)).

End Host.

End customCompilerHost.

(** *** [toJSON] and [toString] of every [UserCodeError] *)

Record ErrorJSON : Type := MkErrorJSON {
  jsonMessage : string;
  jsonStack : string;
  jsonLocation : Location;
}.

Definition toJSON (e : UserCodeError) : Outcome ErrorJSON :=
  message ← errorMessage e;
  stack ← errorStack e;
  location ← errorLocation e;
  mret {| jsonMessage := message; jsonStack := stack; jsonLocation := location |}.

Definition toString (e : UserCodeError) : Outcome string :=
  message ← errorMessage e;
  stack ← errorStack e;
  mret (message +:+ LF +:+ stack).

(** ** Concrete compilations

    The trees the parser builds for the harness text, for two user
    sources and for an auxiliary unit, the answers of the type checker
    for them, and the diagnostics the compiler reports.  Node texts are slices of the
    file's text between the node's start and end. *)

Module Scenario.

Section Trees.

(** The text of the file the trees below belong to. *)
Variable T : string.

Definition len (s : string) : Z := Z.of_nat (String.length s).

(** Offset of the first occurrence of [marker] in the text. *)
Definition locate (marker : string) : Z :=
  Z.of_nat (default 0%nat (index 0 marker T)).

Definition slice (from to : Z) : string :=
  substring (Z.to_nat from) (Z.to_nat (to - from)) T.

Definition mk (id : nat) (k : SyntaxKind) (from to : Z) (children : list Node)
    (props : list (string * Node)) (arrays : list (string * list Node)) : Node :=
  MkNode id k from to (slice from to) children props arrays.

Definition tok (id : nat) (from : Z) (width : Z) : Node :=
  mk id Token from (from + width) [] [] [].

Definition ident (id : nat) (from : Z) (width : Z) : Node :=
  mk id Identifier from (from + width) [] [] [].

Definition list_ (id : nat) (from to : Z) (children : list Node) : Node :=
  mk id SyntaxList from to children [] [].

(** *** The harness *)

(** [import '<name>';] statements of the auxiliary units, laid out from
    offset [from] with the separator of [join] (three characters). *)
Fixpoint auxiliaryImports (id : nat) (from : Z) (importLines : list string)
  : list Node :=
  match importLines with
  | [] => []
  | l :: rest =>
      let here :=
        if String.eqb l "" then []
        else [mk id ImportDeclaration from (from + len l)
                [tok (id + 1) from 6;
                 mk (id + 2) StringLiteral (from + 7) (from + len l - 1) [] [] [];
                 tok (id + 3) (from + len l - 1) 1] [] []] in
      here ++ auxiliaryImports (id + 4) (from + len l + 3) rest
  end.

Definition userImport : Node :=
  let p := locate "import defaultExport from '__user_file';" in
  let name := ident 12 (p + 7) 13 in
  mk 10 ImportDeclaration p (p + 40)
    [tok 11 p 6;
     mk 13 ImportClause (p + 7) (p + 20) [name] [("name", name)] [];
     tok 14 (p + 21) 4;
     mk 15 StringLiteral (p + 26) (p + 39) [] [] [];
     tok 16 (p + 39) 1] [] [].

(** [<keyword> <name>: <type>;] inside the [declare global] block *)
Definition globalVariable (id : nat) (p : Z) (keywordWidth nameWidth : Z)
    (typeEnd : Z) : Node :=
  let nameStart := p + keywordWidth + 1 in
  let typeStart := nameStart + nameWidth + 2 in
  let name := ident (id + 4) nameStart nameWidth in
  let type := mk (id + 6) TypeNode typeStart typeEnd [] [] [] in
  let declaration :=
    mk (id + 3) VariableDeclaration nameStart typeEnd
      [name; tok (id + 5) (nameStart + nameWidth) 1; type]
      [("name", name); ("type", type)] [] in
  let declarationList :=
    mk (id + 1) VariableDeclarationList p typeEnd
      [tok (id + 2) p keywordWidth; list_ (id + 7) nameStart typeEnd [declaration]]
      [] [("declarations", [declaration])] in
  mk id VariableStatement p (typeEnd + 1)
    [declarationList; tok (id + 8) typeEnd 1]
    [("declarationList", declarationList)] [].

Definition globalDeclaration : Node :=
  let p := locate "declare global {" in
  let argsStart := locate "const __args: " in
  let argsTypeEnd := locate (";" +:+ LF +:+ "        let __result: ") in
  let resultStart := locate "let __result: " in
  let resultTypeEnd :=
    locate (";" +:+ LF +:+ "      }" +:+ LF +:+ "      __result = defaultExport(") in
  let close := resultTypeEnd + 8 in
  let argsStatement := globalVariable 30 argsStart 5 6 argsTypeEnd in
  let resultStatement := globalVariable 40 resultStart 3 8 resultTypeEnd in
  let name := ident 23 (p + 8) 6 in
  let body :=
    mk 24 ModuleBlock (p + 15) (close + 1)
      [tok 25 (p + 15) 1;
       list_ 26 argsStart (resultTypeEnd + 1) [argsStatement; resultStatement];
       tok 27 close 1]
      [] [("statements", [argsStatement; resultStatement])] in
  mk 20 ModuleDeclaration p (close + 1)
    [list_ 21 p (p + 7) [tok 22 p 7]; name; body]
    [("name", name); ("body", body)] [].

Definition resultAssignment : Node :=
  let p := locate "__result = defaultExport(...__args);" in
  let left := ident 52 p 8 in
  let callee := ident 55 (p + 11) 13 in
  let spreadName := ident 60 (p + 28) 6 in
  let spread :=
    mk 58 SpreadElement (p + 25) (p + 34) [tok 59 (p + 25) 3; spreadName]
      [("expression", spreadName)] [] in
  let call :=
    mk 54 CallExpression (p + 11) (p + 35)
      [callee; tok 56 (p + 24) 1; list_ 57 (p + 25) (p + 34) [spread]; tok 61 (p + 34) 1]
      [("expression", callee)] [("arguments", [spread])] in
  let assignment :=
    mk 51 BinaryExpression p (p + 35) [left; tok 53 (p + 9) 1; call]
      [("left", left); ("right", call)] [] in
  mk 50 ExpressionStatement p (p + 36) [assignment; tok 62 (p + 35) 1]
    [("expression", assignment)] [].

Definition awaitResult : Node :=
  let p := locate "if ((__result as any) instanceof Promise) {" in
  let q := locate "__result = await __result;" in
  let slot := ident 76 (p + 5) 8 in
  let anyType := mk 78 TypeNode (p + 17) (p + 20) [] [] [] in
  let cast :=
    mk 75 AsExpression (p + 5) (p + 20) [slot; tok 77 (p + 14) 2; anyType]
      [("expression", slot); ("type", anyType)] [] in
  let parenthesized :=
    mk 73 ParenthesizedExpression (p + 4) (p + 21)
      [tok 74 (p + 4) 1; cast; tok 79 (p + 20) 1] [("expression", cast)] [] in
  let promise := ident 81 (p + 33) 7 in
  let condition :=
    mk 72 BinaryExpression (p + 4) (p + 40)
      [parenthesized; tok 80 (p + 22) 10; promise]
      [("left", parenthesized); ("right", promise)] [] in
  let left := ident 87 q 8 in
  let awaited := ident 91 (q + 17) 8 in
  let awaitExpression :=
    mk 89 AwaitExpression (q + 11) (q + 25) [tok 90 (q + 11) 5; awaited]
      [("expression", awaited)] [] in
  let assignment :=
    mk 86 BinaryExpression q (q + 25) [left; tok 88 (q + 9) 1; awaitExpression]
      [("left", left); ("right", awaitExpression)] [] in
  let statement :=
    mk 85 ExpressionStatement q (q + 26) [assignment; tok 92 (q + 25) 1]
      [("expression", assignment)] [] in
  let block :=
    mk 83 Block (p + 42) (q + 34)
      [tok 84 (p + 42) 1; list_ 93 q (q + 26) [statement]; tok 94 (q + 33) 1]
      [] [("statements", [statement])] in
  mk 70 IfStatement p (q + 34)
    [tok 71 p 2; tok 95 (p + 3) 1; condition; tok 82 (p + 40) 1; block]
    [("expression", condition); ("thenStatement", block)] [].

(** The tree of the harness whose text is [T]. *)
Definition harnessRoot (importLines : list string) : Node :=
  let statements :=
    auxiliaryImports 100 4 importLines ++
    [userImport; globalDeclaration; resultAssignment; awaitResult] in
  let first := default 0 (getStart <$> head statements) in
  mk 1 SourceFileKind first (len T)
    [list_ 2 first (getEnd awaitResult) statements;
     mk 3 EndOfFileToken (len T) (len T) [] [] []]
    [] [("statements", statements)].

(** *** A user source with a two-parameter default export:
    [export default function MyDSLFunction(thing: string, other: number): string {...}] *)

Definition parameter (id : nat) (p : Z) (nameWidth : Z) (to : Z) : Node :=
  let name := ident (id + 1) p nameWidth in
  let type := mk (id + 3) TypeNode (p + nameWidth + 2) to [] [] [] in
  mk id ParameterDeclaration p to [name; tok (id + 2) (p + nameWidth) 1; type]
    [("name", name); ("type", type)] [].

Definition functionDeclaration : Node :=
  let p := locate "export default function" in
  let name := ident 215 (p + 24) 13 in
  let thing := parameter 220 (locate "thing: string") 5 (locate "thing: string" + 13) in
  let other := parameter 230 (locate "other: number") 5 (locate "other: number" + 13) in
  let close := locate "): string {" in
  let returnType := mk 240 TypeNode (close + 3) (close + 9) [] [] [] in
  let r := locate "return thing" in
  let operand := ident 254 (r + 7) 5 in
  let literal := mk 256 StringLiteral (r + 15) (r + 23) [] [] [] in
  let sum :=
    mk 253 BinaryExpression (r + 7) (r + 23) [operand; tok 255 (r + 13) 1; literal]
      [("left", operand); ("right", literal)] [] in
  let returnStatement :=
    mk 252 ReturnStatement r (r + 24) [tok 257 r 6; sum; tok 258 (r + 23) 1]
      [("expression", sum)] [] in
  let body :=
    mk 250 Block (close + 10) (len T)
      [tok 251 (close + 10) 1; list_ 259 r (r + 24) [returnStatement];
       tok 260 (len T - 1) 1]
      [] [("statements", [returnStatement])] in
  mk 210 FunctionDeclaration p (len T)
    [list_ 211 p (p + 14) [tok 212 p 6; tok 213 (p + 7) 7];
     tok 214 (p + 15) 8; name; tok 216 (p + 37) 1;
     list_ 217 (getStart thing) (getEnd other) [thing; tok 218 (getEnd thing) 1; other];
     tok 219 close 1; tok 241 (close + 1) 1; returnType; body]
    [("name", name); ("type", returnType); ("body", body)]
    [("parameters", [thing; other])].

Definition functionRoot : Node :=
  mk 200 SourceFileKind (getStart functionDeclaration) (len T)
    [list_ 201 (getStart functionDeclaration) (len T) [functionDeclaration];
     mk 202 EndOfFileToken (len T) (len T) [] [] []]
    [] [("statements", [functionDeclaration])].

(** *** A user source without a default export, after a blank line:
    [export const x: number = 'one';] *)

Definition constantStatement : Node :=
  let p := locate "export const" in
  let x := locate "x: number" in
  let name := ident 314 x 1 in
  let type := mk 316 TypeNode (x + 3) (x + 9) [] [] [] in
  let initializer := mk 318 StringLiteral (x + 12) (x + 17) [] [] [] in
  let declaration :=
    mk 313 VariableDeclaration x (x + 17)
      [name; tok 315 (x + 1) 1; type; tok 317 (x + 10) 1; initializer]
      [("name", name); ("type", type); ("initializer", initializer)] [] in
  let declarationList :=
    mk 311 VariableDeclarationList (p + 7) (x + 17)
      [tok 312 (p + 7) 5; list_ 319 x (x + 17) [declaration]]
      [] [("declarations", [declaration])] in
  mk 310 VariableStatement p (x + 18)
    [list_ 320 p (p + 6) [tok 321 p 6]; declarationList; tok 322 (x + 17) 1]
    [("declarationList", declarationList)] [].

Definition constantRoot : Node :=
  mk 300 SourceFileKind (getStart constantStatement) (len T)
    [list_ 301 (getStart constantStatement) (getEnd constantStatement) [constantStatement];
     mk 302 EndOfFileToken (len T) (len T) [] [] []]
    [] [("statements", [constantStatement])].

(** The runner never looks below the root of an auxiliary unit. *)
Definition auxiliaryRoot : Node :=
  mk 400 SourceFileKind 0 (len T) [] [] [].

End Trees.

Definition parseHarness (importLines : list string) (text : string) : SourceFile :=
  {| fileName := EXECUTION_HARNESS_FILENAME +:+ ".ts";
     text := text;
     root := harnessRoot text importLines |}.

(** The texts of the two user sources and of the auxiliary unit. *)
Definition functionSource : string :=
  "export default function MyDSLFunction(thing: string, other: number): string {"
  +:+ LF +:+ "  return thing + ' world';" +:+ LF +:+ "}".

Definition constantSource : string :=
  LF +:+ "export const x: number = 'one';" +:+ LF.

Definition auxiliarySource : string :=
  "// helpers shared by every submission" +:+ LF +:+
  "export function importedFunction(thing: string): string {" +:+ LF +:+
  "  const n: number = 'hello';" +:+ LF +:+
  "  return thing + ' other';" +:+ LF +:+ "}".

Definition auxiliaryFile : SourceFile :=
  {| fileName := "other-importable.ts";
     text := auxiliarySource;
     root := auxiliaryRoot auxiliarySource |}.

(** *** The type checker's answers *)

Definition anyType : Type_ := MkType 0.
Definition functionType : Type_ := MkType 1.
Definition stringType : Type_ := MkType 2.
Definition numberType : Type_ := MkType 3.

Definition moduleSymbol (userRoot : Node) : Symbol :=
  {| escapedName := DQ +:+ USER_CODE_FILENAME +:+ DQ;
     flags := 512;
     valueDeclaration := Some userRoot;
     declarations := Some [userRoot] |}.

Definition parameterSymbol (declaration : Node) : Symbol :=
  {| escapedName := nameText (Some declaration);
     flags := 1;
     valueDeclaration := Some declaration;
     declarations := Some [declaration] |}.

Definition notAnAlias : string :=
  "Debug Failure. False expression: Should only get Alias here.".

(** Answers for the function source: one export, [default], declared by
    the function declaration, of type
    [(thing: string, other: number) => string]. *)
Definition functionChecker : TypeChecker :=
  let userRoot := functionRoot functionSource in
  let declaration := functionDeclaration functionSource in
  let parameters :=
    map parameterSymbol (default [] (array "parameters" declaration)) in
  {| getSymbolAtLocation n :=
       if sameNode n userRoot then Some (moduleSymbol userRoot) else None;
     getExportsOfModule s :=
       if String.eqb (escapedName s) (escapedName (moduleSymbol userRoot))
       then [{| escapedName := "default"; flags := SymbolFlags_Function;
                valueDeclaration := Some declaration;
                declarations := Some [declaration] |}]
       else [];
     getAliasedSymbol _ := Raised notAnAlias;
     getTypeAtLocation n :=
       if sameNodeOpt declaration n then functionType else anyType;
     getCallSignatures t :=
       if Nat.eqb (type_id t) 1
       then [{| getReturnType := stringType; getParameters := parameters |}]
       else [];
     getTypeOfSymbolAtLocation p _ :=
       if String.eqb (escapedName p) "thing" then stringType
       else if String.eqb (escapedName p) "other" then numberType
       else anyType;
     typeToString t :=
       match type_id t with
       | 1%nat => "(thing: string, other: number) => string"
       | 2%nat => "string"
       | 3%nat => "number"
       | _ => "any"
       end |}.

(** Answers for the constant source: one export, [x], no [default]. *)
Definition constantChecker : TypeChecker :=
  let userRoot := constantRoot constantSource in
  {| getSymbolAtLocation n :=
       if sameNode n userRoot then Some (moduleSymbol userRoot) else None;
     getExportsOfModule s :=
       if String.eqb (escapedName s) (escapedName (moduleSymbol userRoot))
       then [{| escapedName := "x"; flags := 2;
                valueDeclaration := None; declarations := None |}]
       else [];
     getAliasedSymbol _ := Raised notAnAlias;
     getTypeAtLocation _ := anyType;
     getCallSignatures _ := [];
     getTypeOfSymbolAtLocation _ _ := anyType;
     typeToString _ := "any" |}.

(** *** Programs *)

Definition harnessText (files : gmap string SourceFile) : string :=
  default "" (text <$> files !! EXECUTION_HARNESS_FILENAME).

Definition emitted : list (string * string) :=
  [("__user_file.js", "export default function MyDSLFunction(thing, other) { return thing + ' world'; }");
   ("__user_file.js.map", "{ mappings }");
   ("__execution_harness.js", "import defaultExport from '__user_file'; __result = defaultExport(...__args);");
   ("__execution_harness.js.map", "{ mappings }")].

(** Declared [(string) => number] against the function source: the
    result slot rejects the returned [string], the call lacks an
    argument. *)
Definition signatureProgram (files : gmap string SourceFile) : Program :=
  {| getTypeChecker := functionChecker;
     getPreEmitDiagnostics :=
       [{| file := files !! EXECUTION_HARNESS_FILENAME;
           start := Some (locate (harnessText files) "__result = defaultExport");
           length := Some 8;
           code := 2322;
           messageText :=
             inl "Type 'string' is not assignable to type 'number | Promise<number>'." |};
        {| file := files !! EXECUTION_HARNESS_FILENAME;
           start := Some (locate (harnessText files) "defaultExport(...__args)");
           length := Some 13;
           code := 2554;
           messageText := inl "Expected 2 arguments, but got 1." |}];
     emitWrites := emitted;
     emitDiagnostics := [] |}.

(** The constant source: the harness import finds no default export, and
    the user's own initializer has the wrong type. *)
Definition constantProgram (files : gmap string SourceFile) : Program :=
  {| getTypeChecker := constantChecker;
     getPreEmitDiagnostics :=
       [{| file := files !! EXECUTION_HARNESS_FILENAME;
           start := Some (locate (harnessText files) "defaultExport from");
           length := Some 13;
           code := 1192;
           messageText :=
             inl ("Module '" +:+ DQ +:+ "__user_file" +:+ DQ +:+ "' has no default export.") |};
        {| file := files !! USER_CODE_FILENAME;
           start := Some (locate constantSource "x: number");
           length := Some 1;
           code := 2322;
           messageText := inl "Type 'string' is not assignable to type 'number'." |}];
     emitWrites := [];
     emitDiagnostics := [] |}.

(** Declared [(string, number) => string] against the function source,
    with the auxiliary unit: the only complaint is inside the auxiliary
    unit. *)
Definition auxiliaryDiagnostic (files : gmap string SourceFile) : Diagnostic :=
  {| file := files !! "other-importable";
     start := Some (locate auxiliarySource "n: number");
     length := Some 1;
     code := 2322;
     messageText := inl "Type 'string' is not assignable to type 'number'." |}.

Definition auxiliaryProgram (files : gmap string SourceFile) : Program :=
  {| getTypeChecker := functionChecker;
     getPreEmitDiagnostics := [auxiliaryDiagnostic files];
     emitWrites := emitted;
     emitDiagnostics := [] |}.

(** A complaint about a missing implicit type library: no file, code
    1420 in the chain. *)
Definition implicitLibrary : Diagnostic :=
  {| file := None;
     start := None;
     length := None;
     code := 2688;
     messageText :=
       inr (MkChain "Cannot find type definition file for 'node'." 2688
              (Some [MkChain "The file is in the program because:" 1430
                       (Some [MkChain "Entry point for implicit type library 'node'"
                                1420 None])])) |}.

Definition implicitLibraryBeforeEmit (files : gmap string SourceFile) : Program :=
  {| getTypeChecker := functionChecker;
     getPreEmitDiagnostics := [implicitLibrary];
     emitWrites := emitted;
     emitDiagnostics := [] |}.

(** Declared return type [Strin]: the complaint sits inside the type of
    the result slot of the harness. *)
Definition unknownTypeProgram (files : gmap string SourceFile) : Program :=
  {| getTypeChecker := functionChecker;
     getPreEmitDiagnostics :=
       [{| file := files !! EXECUTION_HARNESS_FILENAME;
           start := Some (locate (harnessText files) "Strin | Promise");
           length := Some 5;
           code := 2304;
           messageText := inl "Cannot find name 'Strin'." |}];
     emitWrites := emitted;
     emitDiagnostics := [] |}.

(** The compiler front end of a scenario.  A source file is an object
    shared by the file table and the program, and the program renames the
    units it loads to the names it resolved them under before the runner
    reads any name: the two units are given as the program leaves them,
    [__user_file.ts] and [__execution_harness.ts]. *)
Definition compilerOf (userRoot : string -> Node) (importLines : list string)
    (program : gmap string SourceFile -> Program) : Compiler :=
  {| createSourceFile name text :=
       if String.eqb name USER_CODE_FILENAME
       then MkSourceFile (name +:+ ".ts") text (userRoot text)
       else if String.eqb name EXECUTION_HARNESS_FILENAME
            then parseHarness importLines text
            else MkSourceFile name text (auxiliaryRoot text);
     createProgram _ files := program files |}.

(** Modelled from the spec: the message mapper of
    [utils/errorMessageMapping] (not among the sources) on a diagnostic
    whose code has no template, where it falls back to the raw compiler
    message. *)
Definition runner : UserCodeRunner :=
  {| mapDiagnosticMessage d := [flattenDiagnosticMessageText (messageText d)] |}.

(** *** Executions *)

Definition frame (functionName : option string) (file : string) (l c : Z)
  : StackFrame :=
  {| getFileName := Some file;
     getLineNumber := l;
     getColumnNumber := c;
     getFunctionName := functionName |}.

Definition harnessFrames : list StackFrame :=
  [frame None EXECUTION_HARNESS_FILENAME 2 12;
   frame (Some "SourceTextModule.evaluate") "node:internal/vm/module" 226 23].

(** [new Error(text)], thrown with the given call sites. *)
Definition anError (text : string) (callSites : list StackFrame) : JsError :=
  ThrownObject (Returned text) (Returned tt) callSites.

(** [subroutine], called by the default export, throws. *)
Definition userError : JsError :=
  anError "This is a test error"
    (frame (Some "subroutine") USER_CODE_FILENAME 7 9 ::
     frame (Some "MyDSLFunction") USER_CODE_FILENAME 2 3 :: harnessFrames).

(** A function of the auxiliary module throws while the harness imports it. *)
Definition libraryError : JsError :=
  anError "boom" (frame (Some "importedFunction") "other-importable" 2 9 :: harnessFrames).


(** The default export runs [throw 'plain string']. *)
Definition plainString : JsError := ThrownPrimitive "string" "plain string".

(** The default export throws an [Error] after setting its message to a
    [Symbol]. *)
Definition symbolMessage : JsError :=
  ThrownObject (Raised "TypeError: Cannot convert a Symbol value to a string")
    (Returned tt)
    (frame (Some "MyDSLFunction") USER_CODE_FILENAME 2 3 :: harnessFrames).

(** The source map of the user module: generated lines 2 and 7 carry
    mappings from column 2 on. *)
Definition consumer : SourceMapConsumer :=
  {| originalPositionFor l c :=
       if ((l =? 2) || (l =? 7)) && (2 <=? c)
       then {| mappedLine := Some l; mappedColumn := Some (c - 1) |}
       else {| mappedLine := None; mappedColumn := None |} |}.

Definition artifacts : gmap string string :=
  {[ "__user_file" := "export default function MyDSLFunction(thing, other) { return thing + ' world'; }";
     "__execution_harness" := "import defaultExport from '__user_file'; __result = defaultExport(...__args);" ]}.

(** A [vm] whose evaluation of the harness behaves as [run]. *)
Definition vmOf (run : gmap string JsValue -> gmap string JsValue * option JsError)
  : Vm :=
  {| SourceTextModule content identifier := Returned (MkModule identifier content);
     link m resolve := _ ← resolve "__user_file"; mret m;
     evaluate _ _ context := run context;
     newSourceMapConsumer sourceMap :=
       match sourceMap with
       | Some _ => Returned consumer
       | None => Raised "TypeError: the source map is undefined"
       end |}.

Definition throws (error : JsError) (context : gmap string JsValue)
  : gmap string JsValue * option JsError := (context, Some error).

Definition returns (value : JsValue) (context : gmap string JsValue)
  : gmap string JsValue * option JsError :=
  (<["__result" := value]> context, None).

End Scenario.

(** * Vocabulary of the properties *)

Import Scenario.

(** ** Diagnostics and where they come from *)

(** [diagnostic.file?.fileName ?? ''] *)
Definition diagnosticFileName (d : Diagnostic) : string :=
  match file d with Some f => fileName f | None => "" end.

(** The test of [UserCodeTypeError.new]: the diagnostic originates in the
    harness unit. *)
Definition isHarnessDiagnostic (d : Diagnostic) : bool :=
  String.eqb (removeExt (diagnosticFileName d)) EXECUTION_HARNESS_FILENAME.

Definition outsideHarness (d : Diagnostic) : Prop :=
  removeExt (diagnosticFileName d) <> EXECUTION_HARNESS_FILENAME.

Definition hasFile (d : Diagnostic) : bool :=
  match file d with Some _ => true | None => false end.


(** The same diagnostic, attributed to another file. *)
Definition withFile (d : Diagnostic) (f : option SourceFile) : Diagnostic :=
  {| file := f; start := start d; length := length d; code := code d;
     messageText := messageText d |}.

(** A diagnostic the pre-emit loop skips. *)
Definition ignorable (d : Diagnostic) : bool :=
  negb (hasFile d) && isImplicitLibImport (getDiagnosticCodes d).

(** The same compiler, with every such diagnostic taken out of what
    its programs report. *)
Definition withoutImplicitLib (compiler : Compiler) : Compiler :=
  {| createSourceFile := createSourceFile compiler;
     createProgram names files :=
       let program := createProgram compiler names files in
       {| getTypeChecker := getTypeChecker program;
          getPreEmitDiagnostics :=
            List.filter (fun d => negb (ignorable d)) (getPreEmitDiagnostics program);
          emitWrites := emitWrites program;
          emitDiagnostics :=
            List.filter (fun d => negb (ignorable d)) (emitDiagnostics program) |} |}.



(** ** Positions read against a file *)

(** The position a type error reports, read against the text of [userFile]. *)
Definition locationIn (userFile : SourceFile) (position : Z) : Outcome Location :=
  location ← getLineAndCharacterOfPosition userFile position;
  mret {| line := Some (ts.line location + 1);
          column := Some (character location + 1) |}.

(** The frame a type error reports, read against the tree of [userFile]. *)
Definition frameIn (userFile : SourceFile) (position : Z) (width : option Z)
  : Outcome string :=
  let diagnosticNode :=
    getDescendentAtLocation (root userFile) (Some position)
      (Num.add (Some position) width) in
  location ← locationIn userFile position;
  mret (frameText
          (nameText (findAncestor (root userFile) diagnosticNode
                       (fun n => isFunctionLike (Some n))))
          location).

Definition textLength (f : SourceFile) : Z := Z.of_nat (String.length (text f)).

(** The span of a node lies in the text of [f]. *)
Definition withinText (f : SourceFile) (n : Node) : Prop :=
  0 <= getStart n /\ getStart n <= getEnd n /\ getEnd n <= textLength f.

(** The range of a diagnostic lies in the text of [f]. *)
Definition rangeWithin (f : SourceFile) (d : Diagnostic) : Prop :=
  exists s l, start d = Some s /\ length d = Some l /\
              0 <= s /\ 0 <= l /\ s + l <= textLength f.

Definition found (o : Outcome (option Node)) : list Node :=
  match o with Returned (Some n) => [n] | _ => [] end.

(** The nodes whose spans relocation uses: the user unit's tree, the
    default export's declaration, its function's return-type annotation,
    and the declarations of the parameters of its call signature. *)
Definition declarationNodes (sources : gmap string SourceFile)
    (typeChecker : TypeChecker) : list Node :=
  match sources !! USER_CODE_FILENAME with Some f => [root f] | None => [] end ++
  found (ExecutionHarnessTypeError.defaultExportNode sources typeChecker) ++
  found (ExecutionHarnessTypeError.defaultExportedFunctionReturnNode sources typeChecker) ++
  match ExecutionHarnessTypeError.callSignature sources typeChecker with
  | Returned (Some signature) => omap valueDeclaration (getParameters signature)
  | _ => []
  end.

(** What [preProcess] hands back for one diagnostic: a relocated harness
    diagnostic, or a diagnostic of the compilation as it was reported. *)
Definition surfaced (sources : gmap string SourceFile) (typeChecker : TypeChecker)
    (diagnostics : list Diagnostic) (userFile : SourceFile) (e : UserCodeError) : Prop :=
  match e with
  | ExecutionHarnessTypeError d _ _ _ =>
      file d = Some userFile /\
      (Forall (withinText userFile) (declarationNodes sources typeChecker) ->
       rangeWithin userFile d)
  | UserCodeTypeError d _ _ _ =>
      In d diagnostics /\ isHarnessDiagnostic d = false
  | UserCodeRuntimeError _ _ _ => False
  end.

(** The range the runner gives an argument-type mismatch: from the
    smallest start to the largest end of the parameter declarations, or
    the default export node when there is none. *)
Definition parameterSpan (exportNode : Node) (declarations : list Node) : Z * Z :=
  match declarations with
  | [] => (getStart exportNode, getEnd exportNode)
  | first :: others =>
      (Num.min (getStart first) (map getStart others),
       Num.max (getEnd first) (map getEnd others))
  end.

(** ** Messages *)

(** The message of every type error: the mapped diagnostic behind the
    [TypeError: TS<code>] tag. *)
Definition taggedMessage (mapMessage : Diagnostic -> list string) (d : Diagnostic)
  : string :=
  "TypeError: TS" +:+ numberToString (code d) +:+ " " +:+ join LF (mapMessage d).

Definition expectedSignatureText (argumentType outputType : string) : string :=
  "(...args: " +:+ argumentType +:+ ") => " +:+ outputType.

(** A harness diagnostic after relocation to the whole user unit. *)
Definition noDefaultExport (userFile : SourceFile) (argumentType outputType : string)
    (d : Diagnostic) : Diagnostic :=
  {| file := Some userFile;
     start := Some (getStart (root userFile));
     length := Some (getEnd (root userFile) - getStart (root userFile));
     code := code d;
     messageText := inl
       ("No default export. Expected a default export function with the signature: "
        +:+ DQ +:+ expectedSignatureText argumentType outputType +:+ DQ +:+ ".") |}.

(** The two mismatch messages, as the specification words them. *)
Definition claimedReturnMessage (declared actual : string) : string :=
  "Incorrect return type. Expected: '" +:+ declared +:+ "', Actual: '" +:+ actual +:+ "'.".

Definition claimedArgumentMessage (declared actual : string) : string :=
  "Incorrect argument type. Expected: '" +:+ declared +:+ "', Actual: '" +:+ actual +:+ "'.".

(** ** Stack frames *)

(** The frames the rendered stack keeps. *)
Definition retainedFrames (sourceMap : SourceMapConsumer) (frames : list StackFrame)
  : list StackFrame :=
  List.filter
    (fun f => UserCodeRuntimeError.fileEndsWithUserFile f &&
              UserCodeRuntimeError.hasOriginalLine sourceMap f)
    frames.


(** ** The compilations of the scenarios *)

Definition functionFile : SourceFile :=
  MkSourceFile "__user_file.ts" functionSource (functionRoot functionSource).

Definition constantFile : SourceFile :=
  MkSourceFile "__user_file.ts" constantSource (constantRoot constantSource).

(** The function source against the declared [(string) => number]. *)
Definition signatureFiles : gmap string SourceFile :=
  fst (compile (compilerOf functionRoot [] signatureProgram) functionSource
         "number" ["string"] []).

Definition signatureHarness : SourceFile :=
  parseHarness [] (executionCode [] ["string"] "number").

(** The two diagnostics of that compilation, on the result slot and on
    the callee of the harness, and what relocation makes of them. *)
Definition returnDiagnostic : Diagnostic :=
  {| file := Some signatureHarness; start := Some 182; length := Some 8; code := 2322;
     messageText :=
       inl "Type 'string' is not assignable to type 'number | Promise<number>'." |}.

Definition callDiagnostic : Diagnostic :=
  {| file := Some signatureHarness; start := Some 193; length := Some 13; code := 2554;
     messageText := inl "Expected 2 arguments, but got 1." |}.

Definition relocatedReturn : Diagnostic :=
  {| file := Some functionFile; start := Some 69; length := Some 6; code := 2322;
     messageText := inl (claimedReturnMessage "number | Promise<number>" "string") |}.

Definition relocatedCall : Diagnostic :=
  {| file := Some functionFile; start := Some 38; length := Some 28; code := 2554;
     messageText := inl (claimedArgumentMessage "[string]" "[string, number]") |}.

(** The constant source against the declared [(string) => number]. *)
Definition constantFiles : gmap string SourceFile :=
  fst (compile (compilerOf constantRoot [] constantProgram) constantSource
         "number" ["string"] []).

(** The function source with the auxiliary unit, against the declared
    [(string, number) => string]. *)
Definition auxiliaryFiles : gmap string SourceFile :=
  fst (compile (compilerOf functionRoot ["import 'other-importable';"] auxiliaryProgram)
         functionSource "string" ["string"; "number"] [auxiliaryFile]).

(** A complaint about the compiler options: no file, no 1420. *)
Definition optionsDiagnostic : Diagnostic :=
  {| file := None; start := None; length := None; code := 5023;
     messageText := inl "Unknown compiler option 'sourcemap'." |}.

Definition optionsProgram (files : gmap string SourceFile) : Program :=
  {| getTypeChecker := functionChecker;
     getPreEmitDiagnostics := [optionsDiagnostic];
     emitWrites := emitted;
     emitDiagnostics := [] |}.

(** * Vocabulary of the further properties *)

(** ** Trees and message chains *)

(** Induction on a syntax tree through [getChildren]. *)
Section NodeInduction.

Variable P : Node -> Prop.
Hypothesis step : forall n, Forall P (getChildren n) -> P n.

Fixpoint Node_children_ind (n : Node) : P n :=
  step n
    (match n as n0 return Forall P (getChildren n0) with
     | MkNode _ _ _ _ _ children _ _ =>
         (fix all (l : list Node) : Forall P l :=
            match l with
            | [] => @List.Forall_nil _ P
            | child :: rest =>
                @List.Forall_cons _ P child rest (Node_children_ind child) (all rest)
            end) children
     end).

End NodeInduction.

(** Induction on a message chain through [next]. *)
Section ChainInduction.

Variable P : DiagnosticMessageChain -> Prop.
Hypothesis step : forall chain, Forall P (default [] (next chain)) -> P chain.

Fixpoint Chain_next_ind (chain : DiagnosticMessageChain) : P chain :=
  step chain
    (match chain as c0 return Forall P (default [] (next c0)) with
     | MkChain _ _ None => @List.Forall_nil _ P
     | MkChain _ _ (Some kids) =>
         (fix all (l : list DiagnosticMessageChain) : Forall P l :=
            match l with
            | [] => @List.Forall_nil _ P
            | kid :: rest =>
                @List.Forall_cons _ P kid rest (Chain_next_ind kid) (all rest)
            end) kids
     end).

End ChainInduction.

(** The code [c] is carried by the chain, at its head or anywhere below. *)
Inductive mentions (c : Z) : DiagnosticMessageChain -> Prop :=
| mentions_here chain : chainCode chain = c -> mentions c chain
| mentions_next chain kids kid :
    next chain = Some kids -> In kid kids -> mentions c kid -> mentions c chain.

(** [n] is [root] or a node below it. *)
Inductive within : Node -> Node -> Prop :=
| within_here root : within root root
| within_child root child n :
    In child (getChildren root) -> within child n -> within root n.

(** [n] satisfies [guard] and no node on the way from [root] down to it
    does. *)
Inductive topmost (guard : Node -> bool) : Node -> Node -> Prop :=
| topmost_here root : guard root = true -> topmost guard root root
| topmost_child root child n :
    guard root = false -> In child (getChildren root) ->
    topmost guard child n -> topmost guard root n.

(** The two tests of [getDescendentAtLocation]. *)
Definition exactly (n : Node) (start end_ : option Z) : bool :=
  Num.eq (getStart n) start && Num.eq (getEnd n) end_.

Definition encloses (n : Node) (start end_ : option Z) : bool :=
  Num.le_r (getStart n) start && Num.le_l end_ (getEnd n).

(** ** File names *)

(** No directory separator in the name; neither separator nor dot. *)
Definition slashFree (s : string) : bool :=
  forallb (fun c => negb (path.isSlash c)) (list_ascii_of_string s).

Definition plain (s : string) : bool :=
  forallb (fun c => negb (path.isSlash c) && negb (path.isDot c))
    (list_ascii_of_string s).

(** ** Tables keyed by stripped file names *)

(** The file is filed under [key] in [tsFileMap]. *)
Definition filedUnder (key : string) (f : SourceFile) : bool :=
  String.eqb (removeExt (fileName f)) key.

(** A [writeFile] call carrying a source map; one that writes the
    emitted text kept under [key]; one that writes the source map kept for
    the user unit. *)
Definition isSourceMap (call : string * string) : bool :=
  endsWith (fst call) ".map".

Definition emitsUnit (key : string) (call : string * string) : bool :=
  negb (isSourceMap call) && String.eqb (removeExt (fst call)) key.

Definition emitsUserSourceMap (call : string * string) : bool :=
  isSourceMap call &&
  String.eqb (removeExt (removeExt (fst call))) USER_CODE_FILENAME.

(** ** What [preProcess] hands back *)

(** What [program.emit()] leaves in [jsFileMap] and [userCodeSourceMap]. *)
Definition emittedArtifacts (compiler : Compiler) (program : Program) : CacheItem :=
  let written := fold_left (writeFile compiler) (emitWrites program) (∅, None) in
  {| jsFileMap := fst written; userCodeSourceMap := snd written |}.

(** The error is built from the diagnostic by [UserCodeTypeError.new]. *)
Definition builtFrom (sources : gmap string SourceFile) (typeChecker : TypeChecker)
    (mapMessage : Diagnostic -> list string) (d : Diagnostic) (e : UserCodeError) : Prop :=
  UserCodeTypeError_new d sources typeChecker mapMessage = Returned e.

(** ** Execution *)

(** The context as [executeUserCodeFromArtifacts] sets it up. *)
Definition withBindings (args : JsValue) (context : gmap string JsValue)
  : gmap string JsValue :=
  <["__result" := JsUndefined]> (<["__args" := args]> context).

(** ** A default export that is not a function *)

(** A user source whose default export is a value:
    [export default 'hello';] *)
Definition valueSource : string := "export default 'hello';".

Definition valueLiteral (T : string) : Node :=
  let p := locate T "'hello'" in
  mk T 603 StringLiteral p (p + 7) [] [] [].

Definition valueExport (T : string) : Node :=
  let p := locate T "export default" in
  let literal := valueLiteral T in
  mk T 610 ExportAssignment p (getEnd literal + 1)
    [tok T 611 p 6; tok T 612 (p + 7) 7; literal; tok T 613 (getEnd literal) 1]
    [("expression", literal)] [].

Definition valueRoot (T : string) : Node :=
  mk T 600 SourceFileKind (getStart (valueExport T)) (len T)
    [list_ T 601 (getStart (valueExport T)) (getEnd (valueExport T)) [valueExport T];
     mk T 602 EndOfFileToken (len T) (len T) [] [] []]
    [] [("statements", [valueExport T])].

(** Answers for the value source: one export, [default], declared by the
    export assignment, whose expression has type [string]. *)
Definition valueChecker : TypeChecker :=
  let userRoot := valueRoot valueSource in
  {| getSymbolAtLocation n :=
       if sameNode n userRoot then Some (moduleSymbol userRoot) else None;
     getExportsOfModule s :=
       if String.eqb (escapedName s) (escapedName (moduleSymbol userRoot))
       then [{| escapedName := "default"; flags := 4;
                valueDeclaration := Some (valueExport valueSource);
                declarations := Some [valueExport valueSource] |}]
       else [];
     getAliasedSymbol _ := Raised notAnAlias;
     getTypeAtLocation n :=
       if sameNodeOpt (valueLiteral valueSource) n then stringType else anyType;
     getCallSignatures _ := [];
     getTypeOfSymbolAtLocation _ _ := anyType;
     typeToString t :=
       match type_id t with
       | 2%nat => "string"
       | _ => "any"
       end |}.

(** Declared [(string) => string] against the value source: the callee
    of the harness is not callable. *)
Definition valueProgram (files : gmap string SourceFile) : Program :=
  {| getTypeChecker := valueChecker;
     getPreEmitDiagnostics :=
       [{| file := files !! EXECUTION_HARNESS_FILENAME;
           start := Some (locate (harnessText files) "defaultExport(...__args)");
           length := Some 13;
           code := 2349;
           messageText :=
             inr (MkChain "This expression is not callable." 2349
                    (Some [MkChain "Type 'String' has no call signatures." 2757 None])) |}];
     emitWrites := [];
     emitDiagnostics := [] |}.

Definition valueFile : SourceFile :=
  MkSourceFile "__user_file.ts" valueSource (valueRoot valueSource).

Definition valueFiles : gmap string SourceFile :=
  fst (compile (compilerOf valueRoot [] valueProgram) valueSource "string" ["string"] []).


(** The message a default export without call signature gets. *)
Definition notAFunctionMessage (signature : string) : string :=
  "Default export is not a valid function. Expected a default export function with the signature: "
  +:+ DQ +:+ signature +:+ DQ +:+ ".".

(** The four ways the message of a relocated diagnostic opens. *)
Definition relocationOpenings : list string :=
  ["No default export. "; "Default export is not a valid function. ";
   "Incorrect return type. "; "Incorrect argument type. "].

Definition opensWith (text : string) (opening : string) : bool :=
  String.prefix opening text.

(** The message of a type error whose diagnostic has no start. *)
Definition noStartPosition : string := "Could not find start position".

(** * Properties *)

(** ** Reasoning about computations that may throw *)

Lemma bind_returned {A B} (c : Outcome A) (k : A -> Outcome B) (b : B) :
  c ≫= k = Returned b -> exists a, c = Returned a /\ k a = Returned b.
Proof. destruct c as [a|m]; simpl; [eauto | discriminate]. Qed.

Lemma bind_raised_l {A B} (c : Outcome A) (k : A -> Outcome B) m :
  c = Raised m -> c ≫= k = Raised m.
Proof. intros ->. reflexivity. Qed.

Lemma bind_returned_l {A B} (c : Outcome A) (k : A -> Outcome B) a :
  c = Returned a -> c ≫= k = k a.
Proof. intros ->. reflexivity. Qed.

Lemma deref_returned {A} (v : option A) (a : A) :
  deref v = Returned a <-> v = Some a.
Proof. destruct v; simpl; split; congruence. Qed.

Lemma isRaised_bind_l {A B} (c : Outcome A) (k : A -> Outcome B) :
  isRaised c -> isRaised (c ≫= k).
Proof. intros [m ->]. exists m. reflexivity. Qed.

Lemma isRaised_not_returned {A} (c : Outcome A) (a : A) :
  isRaised c -> c <> Returned a.
Proof. intros [m ->]. discriminate. Qed.

Lemma append_assoc (a b c : string) : (a +:+ b) +:+ c = a +:+ (b +:+ c).
Proof.
  induction a as [|ch a IH]; [reflexivity|].
  change (String ch ((a +:+ b) +:+ c) = String ch (a +:+ (b +:+ c))).
  rewrite IH. reflexivity.
Qed.

(** Splits [c ≫= k = Returned b] hypotheses, left to right. *)
Ltac returned H :=
  let a := fresh "v" in
  let Ha := fresh "Hv" in
  apply bind_returned in H; destruct H as (a & Ha & H).

Tactic Notation "invert" hyp(H) "as" ident(a) ident(Ha) :=
  apply bind_returned in H; destruct H as (a & Ha & H).

(** ** The loops over diagnostics *)

Section Loops.

Context {A S : Type} (callback : S -> A -> Outcome S).

Lemma forEach_app (l1 l2 : list A) (s : S) :
  forEach callback (l1 ++ l2) s = forEach callback l1 s ≫= forEach callback l2.
Proof.
  revert s. induction l1 as [|x l1 IH]; intros s; simpl; [reflexivity|].
  destruct (callback s x) as [s'|m]; simpl; [apply IH | reflexivity].
Qed.

(** An element on which the callback throws from every state makes the
    loop throw. *)
Lemma forEach_raises (l : list A) (x : A) (s : S) :
  In x l -> (forall s', isRaised (callback s' x)) -> isRaised (forEach callback l s).
Proof.
  revert s. induction l as [|y l IH]; intros s Hin Hx; [destruct Hin|].
  simpl. destruct Hin as [->|Hin].
  - apply isRaised_bind_l, Hx.
  - destruct (callback s y) as [s'|m]; simpl; [apply IH; assumption | eexists; reflexivity].
Qed.

(** An invariant of the state is kept by a loop that returns. *)
Lemma forEach_invariant (P : S -> Prop) (l : list A) (s s' : S) :
  (forall s0 x s1, In x l -> P s0 -> callback s0 x = Returned s1 -> P s1) ->
  P s -> forEach callback l s = Returned s' -> P s'.
Proof.
  revert s. induction l as [|y l IH]; intros s Hstep Hs Hrun; simpl in Hrun.
  - injection Hrun as <-. exact Hs.
  - returned Hrun. eapply IH; [| |exact Hrun].
    + intros s0 x s1 Hin. apply Hstep. right. exact Hin.
    + eapply Hstep; [left; reflexivity|exact Hs|exact Hv].
Qed.

End Loops.

(** ** Diagnostics outside the harness unit *)

Lemma UserCodeTypeError_new_outside d sources typeChecker mapMessage :
  outsideHarness d ->
  UserCodeTypeError_new d sources typeChecker mapMessage
  = Returned (UserCodeTypeError d sources typeChecker mapMessage).
Proof.
  intros H. unfold UserCodeTypeError_new. fold (diagnosticFileName d).
  destruct (String.eqb_spec (removeExt (diagnosticFileName d)) EXECUTION_HARNESS_FILENAME)
    as [Heq|_]; [contradiction | reflexivity].
Qed.

(** C10. A diagnostic that does not originate in the harness unit, be it
    from the user unit or from an auxiliary unit, becomes a
    [UserCodeTypeError] that keeps the diagnostic as it is; its location
    and its stack are computed from the diagnostic's start offset and
    length against the text and the tree of the user unit, whatever file
    the diagnostic belongs to. *)
Theorem non_harness_diagnostic_read_against_user_unit
    (d : Diagnostic) (sources : gmap string SourceFile)
    (typeChecker : TypeChecker) (mapMessage : Diagnostic -> list string)
    (userFile : SourceFile) (position : Z) :
  outsideHarness d ->
  sources !! USER_CODE_FILENAME = Some userFile ->
  start d = Some position ->
  let e := UserCodeTypeError d sources typeChecker mapMessage in
  UserCodeTypeError_new d sources typeChecker mapMessage = Returned e /\
  errorLocation e = locationIn userFile position /\
  errorStack e = frameIn userFile position (length d) /\
  forall other : option SourceFile,
    let e' := UserCodeTypeError (withFile d other) sources typeChecker mapMessage in
    errorLocation e' = errorLocation e /\ errorStack e' = errorStack e.
Proof.
  intros Hout Huser Hstart e. split; [|split; [|split]].
  - apply UserCodeTypeError_new_outside, Hout.
  - simpl. unfold UserCodeTypeError.location. rewrite Hstart, Huser. reflexivity.
  - simpl. unfold UserCodeTypeError.stack, UserCodeTypeError.location, frameIn, locationIn.
    rewrite Hstart, Huser. reflexivity.
  - intros other e'. split; reflexivity.
Qed.

Lemma non_harness_diagnostic_witness :
  let d := auxiliaryDiagnostic auxiliaryFiles in
  let e := UserCodeTypeError d auxiliaryFiles functionChecker (mapDiagnosticMessage runner) in
  (fileName <$> file d) = Some "other-importable.ts" /\
  errorLocation e = Returned {| line := Some 2; column := Some 27 |} /\
  errorStack e = Returned "at MyDSLFunction(2:27)".
Proof.
  intros d e.
  destruct (non_harness_diagnostic_read_against_user_unit d auxiliaryFiles
              functionChecker (mapDiagnosticMessage runner)
              functionFile
              104)
    as (_ & Hloc & Hstack & _).
  - vm_compute. discriminate.
  - vm_compute. reflexivity.
  - vm_compute. reflexivity.
  - split; [vm_compute; reflexivity|]. split.
    + fold e in Hloc. rewrite Hloc. vm_compute. reflexivity.
    + fold e in Hstack. rewrite Hstack. vm_compute. reflexivity.
Defined.

(** ** User-caused failures are returned *)


Section UserDiagnostics.

Variable sources : gmap string SourceFile.
Variable typeChecker : TypeChecker.
Variable mapMessage : Diagnostic -> list string.






End UserDiagnostics.


Lemma find_inUserFile_none (frames : list StackFrame) :
  (forall f, In f frames -> getFileName f <> Some USER_CODE_FILENAME) ->
  List.find UserCodeRuntimeError.inUserFile frames = None.
Proof.
  intros H.
  destruct (List.find UserCodeRuntimeError.inUserFile frames) as [g|] eqn:E; [|reflexivity].
  apply List.find_some in E as [Hin Hg].
  unfold UserCodeRuntimeError.inUserFile in Hg.
  rewrite bool_decide_eq_true in Hg. destruct (H g Hin Hg).
Qed.



Lemma new_returned (error : JsError) (sourceMap : SourceMapConsumer) (e : UserCodeError) :
  UserCodeRuntimeError.new error sourceMap = Returned e ->
  readStack error = Returned tt /\
  e = UserCodeRuntimeError error sourceMap (parse error) /\
  exists innermost,
    List.find UserCodeRuntimeError.inUserFile (parse error) = Some innermost.
Proof.
  unfold UserCodeRuntimeError.new. intros H. invert H as u Hread. destruct u.
  split; [exact Hread|].
  destruct (List.find UserCodeRuntimeError.inUserFile (parse error)) as [g|].
  - injection H as <-. eauto.
  - invert H as text Htext. invert H as u Hset. discriminate.
Qed.

(** What [executeUserCodeFromArtifacts] does once the harness module is
    linked and its evaluation threw. *)
Lemma execute_after_throw vm jsFileMap sourceMap args timeout context
    harnessModule context' error :
  linkHarness vm jsFileMap = Returned harnessModule ->
  evaluate vm harnessModule timeout
    (<["__result" := JsUndefined]> (<["__args" := args]> context))
  = (context', Some error) ->
  executeUserCodeFromArtifacts vm jsFileMap sourceMap args timeout context
  = (context',
     consumer ← newSourceMapConsumer vm sourceMap;
     e ← UserCodeRuntimeError.new error consumer;
     mret (Err [e])).
Proof.
  intros Hlink Heval. unfold executeUserCodeFromArtifacts.
  rewrite Hlink, Heval. reflexivity.
Qed.



(** ** Failures outside the user code are raised *)

(** What the constructor does with a stack that has no frame of the user
    unit. *)
Lemma new_without_user_frame (error : JsError) (sourceMap : SourceMapConsumer) :
  (forall f, In f (parse error) -> getFileName f <> Some USER_CODE_FILENAME) ->
  UserCodeRuntimeError.new error sourceMap
  = (_ ← readStack error;
     text ← message error;
     _ ← setMessage error;
     Raised (UserCodeRuntimeError.outsideUserCode +:+ text)).
Proof.
  intros Hframes. unfold UserCodeRuntimeError.new.
  rewrite (find_inUserFile_none _ Hframes). reflexivity.
Qed.

(** C8 (the code departs from the claim).  When the evaluation of the
    linked harness throws a value whose parsed call stack has no frame of
    the user unit, [executeUserCodeFromArtifacts] raises and returns no
    [Err]; when the value is an object whose message reads as a string and
    can be assigned, as for the [Error] a library function throws, the
    raised message is that message behind the text that marks a failure
    outside of the user code execution path.  But when the default export
    runs [throw 'plain string'], the parsed stack is empty and the call
    raises the [TypeError] of the failed assignment to [message], without
    the marking text. *)
Theorem failure_outside_user_code_is_raised :
  let marker :=
    "Error: Runtime error detected outside of user code execution path. This is most likely a bug in the additional library source."
    +:+ LF +:+ "Inherited from:" +:+ LF in
  let run thrown :=
    snd (executeUserCodeFromArtifacts (vmOf (throws thrown)) artifacts
           (Some "{ mappings }") (JsArray [JsString "hello"]) 5000 ∅) in
  (forall vm jsFileMap sourceMap args timeout context context' harnessModule error,
     linkHarness vm jsFileMap = Returned harnessModule ->
     evaluate vm harnessModule timeout
       (<["__result" := JsUndefined]> (<["__args" := args]> context))
     = (context', Some error) ->
     (forall f, In f (parse error) -> getFileName f <> Some USER_CODE_FILENAME) ->
     let result :=
       snd (executeUserCodeFromArtifacts vm jsFileMap sourceMap args timeout context) in
     isRaised result /\
     (forall outcome, result <> Returned outcome) /\
     (forall consumer text,
        newSourceMapConsumer vm sourceMap = Returned consumer ->
        readStack error = Returned tt ->
        message error = Returned text ->
        setMessage error = Returned tt ->
        result = Raised (marker +:+ text))) /\
  run libraryError = Raised (marker +:+ "boom") /\
  parse plainString = [] /\
  run plainString
  = Raised "TypeError: Cannot create property 'message' on string 'plain string'" /\
  (forall text, run plainString <> Raised (marker +:+ text)).
Proof.
  intros marker run. split; [|split; [|split; [|split]]].
  - intros vm jsFileMap sourceMap args timeout context context' harnessModule error
      Hlink Heval Hframes result.
    assert (result = (consumer ← newSourceMapConsumer vm sourceMap;
                      _ ← readStack error;
                      text ← message error;
                      _ ← setMessage error;
                      Raised (UserCodeRuntimeError.outsideUserCode +:+ text)))
      as Hresult.
    { subst result. rewrite (execute_after_throw _ _ _ _ _ _ _ _ _ Hlink Heval).
      cbn [snd]. destruct (newSourceMapConsumer vm sourceMap) as [consumer|m];
        [|reflexivity].
      cbn [mbind outcome_bind Js.bind]. rewrite (new_without_user_frame _ _ Hframes).
      destruct (readStack error) as [u|m]; [|reflexivity].
      cbn [mbind outcome_bind Js.bind].
      destruct (message error) as [text|m]; [|reflexivity].
      cbn [mbind outcome_bind Js.bind].
      destruct (setMessage error) as [u'|m]; reflexivity. }
    assert (isRaised result) as Hraised.
    { rewrite Hresult. destruct (newSourceMapConsumer vm sourceMap); [|eexists; reflexivity].
      cbn [mbind outcome_bind Js.bind].
      destruct (readStack error); [|eexists; reflexivity].
      cbn [mbind outcome_bind Js.bind].
      destruct (message error); [|eexists; reflexivity].
      cbn [mbind outcome_bind Js.bind].
      destruct (setMessage error); eexists; reflexivity. }
    split; [exact Hraised|]. split.
    + intros outcome. apply isRaised_not_returned, Hraised.
    + intros consumer text Hmap Hread Htext Hset.
      rewrite Hresult, Hmap. cbn [mbind outcome_bind Js.bind].
      rewrite Hread. cbn [mbind outcome_bind Js.bind].
      rewrite Htext. cbn [mbind outcome_bind Js.bind].
      rewrite Hset. reflexivity.
  - vm_compute. reflexivity.
  - reflexivity.
  - vm_compute. reflexivity.
  - intros text Hrun. vm_compute in Hrun. discriminate.
Qed.

(** ** The ambient bindings *)

(** After a successful evaluation both bindings are deleted from the
    context evaluation left behind. *)
Lemma execute_after_return vm jsFileMap sourceMap args timeout context
    harnessModule context' :
  linkHarness vm jsFileMap = Returned harnessModule ->
  evaluate vm harnessModule timeout
    (<["__result" := JsUndefined]> (<["__args" := args]> context))
  = (context', None) ->
  executeUserCodeFromArtifacts vm jsFileMap sourceMap args timeout context
  = (delete "__result" (delete "__args" context'),
     Returned (Ok (default JsUndefined (context' !! "__result")))).
Proof.
  intros Hlink Heval. unfold executeUserCodeFromArtifacts.
  rewrite Hlink, Heval. reflexivity.
Qed.

(** C3 (the code departs from the claim).  The default export throws in
    [subroutine]; the call returns [Err] with the runtime error, and the
    caller's context, empty before the call, still binds [__args] and
    [__result] after it.  When the same call returns a value, both
    bindings are gone. *)
Theorem ambient_bindings_survive_runtime_error :
  let args := JsArray [JsString "hello"] in
  let failed :=
    executeUserCodeFromArtifacts (vmOf (throws userError)) artifacts
      (Some "{ mappings }") args 5000 ∅ in
  let succeeded :=
    executeUserCodeFromArtifacts (vmOf (returns (JsString "hello world"))) artifacts
      (Some "{ mappings }") args 5000 ∅ in
  (snd failed = Returned (Err [UserCodeRuntimeError userError consumer (parse userError)]) /\
   fst failed !! "__args" = Some args /\
   fst failed !! "__result" = Some JsUndefined) /\
  (snd succeeded = Returned (Ok (JsString "hello world")) /\
   fst succeeded !! "__args" = None /\
   fst succeeded !! "__result" = None).
Proof.
  intros args failed succeeded. subst failed succeeded. split.
  - rewrite (execute_after_throw (vmOf (throws userError)) artifacts _ args 5000 ∅
               (MkModule "__execution_harness"
                  "import defaultExport from '__user_file'; __result = defaultExport(...__args);")
               (<["__result" := JsUndefined]> (<["__args" := args]> ∅)) userError);
      [|vm_compute; reflexivity|reflexivity].
    cbn [fst snd]. split; [reflexivity|]. split.
    + rewrite lookup_insert_ne by discriminate. apply lookup_insert_eq.
    + apply lookup_insert_eq.
  - rewrite (execute_after_return (vmOf (returns (JsString "hello world"))) artifacts _
               args 5000 ∅
               (MkModule "__execution_harness"
                  "import defaultExport from '__user_file'; __result = defaultExport(...__args);")
               (<["__result" := JsString "hello world"]>
                  (<["__result" := JsUndefined]> (<["__args" := args]> ∅))));
      [|vm_compute; reflexivity|reflexivity].
    cbn [fst snd]. split; [|split].
    + rewrite lookup_insert_eq. reflexivity.
    + rewrite lookup_delete_ne by discriminate. apply lookup_delete_eq.
    + apply lookup_delete_eq.
Qed.

(** ** The rendered stack of a runtime error *)







(** ** What [preProcess] returns for the diagnostics of a compilation *)

Section Expected.

Variable sources : gmap string SourceFile.
Variable typeChecker : TypeChecker.
Variable mapMessage : Diagnostic -> list string.

(** A loop whose diagnostics all turn into known errors returns them, one
    per diagnostic that has a file, in order. *)
Variable expected : Diagnostic -> UserCodeError.

Lemma forEach_onPreEmit_expected l acc acc' :
  (forall d, In d l -> hasFile d = true ->
     UserCodeTypeError_new d sources typeChecker mapMessage = Returned (expected d)) ->
  forEach (onPreEmitDiagnostic sources typeChecker mapMessage) l acc = Returned acc' ->
  acc' = acc ++ map expected (List.filter hasFile l).
Proof.
  revert acc. induction l as [|d l IH]; intros acc Hexp Hrun; simpl in *.
  - injection Hrun as <-. rewrite app_nil_r. reflexivity.
  - returned Hrun. unfold onPreEmitDiagnostic, hasFile in *.
    specialize (IH v (fun d' Hin => Hexp d' (or_intror Hin)) Hrun).
    pose proof (Hexp d (or_introl eq_refl)) as Hd.
    destruct (file d) as [f|].
    + rewrite (Hd eq_refl) in Hv. simpl in Hv. injection Hv as <-.
      rewrite IH. simpl. rewrite <- app_assoc. reflexivity.
    + destruct (isImplicitLibImport (getDiagnosticCodes d)); [|discriminate].
      injection Hv as <-. exact IH.
Qed.

Lemma forEach_onEmit_expected l acc acc' :
  (forall d, In d l -> hasFile d = true ->
     UserCodeTypeError_new d sources typeChecker mapMessage = Returned (expected d)) ->
  forEach (onEmitDiagnostic sources typeChecker mapMessage) l acc = Returned acc' ->
  acc' = acc ++ map expected (List.filter hasFile l).
Proof.
  revert acc. induction l as [|d l IH]; intros acc Hexp Hrun; simpl in *.
  - injection Hrun as <-. rewrite app_nil_r. reflexivity.
  - returned Hrun. unfold onEmitDiagnostic, hasFile in *.
    specialize (IH v (fun d' Hin => Hexp d' (or_intror Hin)) Hrun).
    pose proof (Hexp d (or_introl eq_refl)) as Hd.
    destruct (file d) as [f|]; [|discriminate].
    rewrite (Hd eq_refl) in Hv. simpl in Hv. injection Hv as <-.
    rewrite IH. simpl. rewrite <- app_assoc. reflexivity.
Qed.

End Expected.

(** [preProcess] returns [Err] only with what its two loops collected. *)
Lemma preProcess_errors compiler runner userCode outputType argsTypes
    additionalSourceFiles errors :
  preProcess compiler runner userCode outputType argsTypes additionalSourceFiles
  = Returned (Err errors) ->
  let compiled := compile compiler userCode outputType argsTypes additionalSourceFiles in
  exists collected,
    forEach (onPreEmitDiagnostic (fst compiled) (getTypeChecker (snd compiled))
               (mapDiagnosticMessage runner))
      (getPreEmitDiagnostics (snd compiled)) [] = Returned collected /\
    forEach (onEmitDiagnostic (fst compiled) (getTypeChecker (snd compiled))
               (mapDiagnosticMessage runner))
      (emitDiagnostics (snd compiled)) collected = Returned errors.
Proof.
  unfold preProcess. intros H. cbv zeta.
  destruct (compile compiler userCode outputType argsTypes additionalSourceFiles)
    as [files program]. simpl in *.
  returned H. returned H. exists v. split; [exact Hv|].
  destruct (0 <? Z.of_nat (List.length v0)); simpl in H; [|discriminate].
  injection H as <-. exact Hv0.
Qed.

(** A raising loop makes [preProcess] raise. *)
Lemma preProcess_raises compiler runner userCode outputType argsTypes
    additionalSourceFiles :
  let compiled := compile compiler userCode outputType argsTypes additionalSourceFiles in
  let sources := fst compiled in
  let typeChecker := getTypeChecker (snd compiled) in
  (isRaised (forEach (onPreEmitDiagnostic sources typeChecker (mapDiagnosticMessage runner))
               (getPreEmitDiagnostics (snd compiled)) []) \/
   forall collected,
     isRaised (forEach (onEmitDiagnostic sources typeChecker (mapDiagnosticMessage runner))
                 (emitDiagnostics (snd compiled)) collected)) ->
  isRaised (preProcess compiler runner userCode outputType argsTypes additionalSourceFiles).
Proof.
  unfold preProcess. cbv zeta.
  destruct (compile compiler userCode outputType argsTypes additionalSourceFiles)
    as [files program]. simpl. intros [Hpre|Hemit].
  - apply isRaised_bind_l, Hpre.
  - destruct (forEach _ (getPreEmitDiagnostics program) []) as [collected|m]; simpl;
      [|eexists; reflexivity].
    apply isRaised_bind_l, Hemit.
Qed.

(** [executeUserCode] returns the [Err] of [preProcess] as it is, and
    leaves the context alone. *)
Lemma executeUserCode_err compiler vm runner userCode args outputType argsTypes
    timeout additionalSourceFiles context errors :
  preProcess compiler runner userCode outputType argsTypes additionalSourceFiles
  = Returned (Err errors) ->
  executeUserCode compiler vm runner userCode args outputType argsTypes timeout
    additionalSourceFiles context
  = (context, Returned (Err errors)).
Proof. intros H. unfold executeUserCode. rewrite H. reflexivity. Qed.

(** ** Line 1 *)

Lemma computeLineStartsFrom_head (n : nat) :
  forall chars pos lineStart,
    (List.length chars <= n)%nat -> lineStart <= pos ->
    exists rest,
      computeLineStartsFrom chars pos lineStart = lineStart :: rest /\
      Forall (fun s => pos < s) rest.
Proof.
  induction n as [|n IH]; intros chars pos lineStart Hlen Hle.
  - destruct chars; [|simpl in Hlen; lia]. exists []. split; [reflexivity|constructor].
  - destruct chars as [|ch rest]; [exists []; split; [reflexivity|constructor]|].
    simpl in Hlen. simpl.
    assert (forall chars', (List.length chars' <= n)%nat -> forall k, 1 <= k ->
              exists tail,
                lineStart :: computeLineStartsFrom chars' (pos + k) (pos + k)
                = lineStart :: tail /\ Forall (fun s => pos < s) tail) as Hbreak.
    { intros chars' Hlen' k Hk.
      destruct (IH chars' (pos + k) (pos + k) Hlen' ltac:(lia)) as (tail & -> & Htail).
      eexists. split; [reflexivity|]. constructor; [lia|].
      eapply Forall_impl; [exact Htail|]. simpl. intros; lia. }
    destruct (Ascii.eqb ch CR).
    + destruct rest as [|ch' rest'].
      * apply (Hbreak [] ltac:(simpl; lia) 1). lia.
      * destruct (Ascii.eqb ch' NL).
        -- replace (pos + 2) with (pos + 2) by reflexivity.
           apply (Hbreak rest' ltac:(simpl in Hlen; lia) 2). lia.
        -- apply (Hbreak (ch' :: rest') ltac:(lia) 1). lia.
    + destruct (Ascii.eqb ch NL).
      * apply (Hbreak rest ltac:(lia) 1). lia.
      * destruct (IH rest (pos + 1) lineStart ltac:(lia) ltac:(lia)) as (tail & -> & Htail).
        eexists. split; [reflexivity|].
        eapply Forall_impl; [exact Htail|]. simpl. intros; lia.
Qed.

Lemma filter_none {A} (p : A -> bool) (l : list A) :
  Forall (fun x => p x = false) l -> List.filter p l = [].
Proof.
  induction 1 as [|x l Hx _ IH]; simpl; [reflexivity|]. rewrite Hx. exact IH.
Qed.

(** The first token at offset 0 is at line 1, column 1. *)
Lemma locationIn_origin (userFile : SourceFile) :
  locationIn userFile 0 = Returned {| line := Some 1; column := Some 1 |}.
Proof.
  unfold locationIn, getLineAndCharacterOfPosition, computeLineStarts.
  destruct (computeLineStartsFrom_head _ (list_ascii_of_string (text userFile)) 0 0
              (le_n _) ltac:(lia)) as (rest & -> & Hrest).
  simpl. rewrite filter_none; [reflexivity|].
  eapply Forall_impl; [exact Hrest|]. simpl. intros s Hs. apply Z.leb_gt. exact Hs.
Qed.

(** ** No default export *)

Lemma textOf_harness sources getter (s : string) :
  ExecutionHarnessTypeError.textOf
    (ExecutionHarnessTypeError.declaredTypeNode sources getter) = Returned s ->
  exists harness, sources !! EXECUTION_HARNESS_FILENAME = Some harness.
Proof.
  unfold ExecutionHarnessTypeError.textOf, ExecutionHarnessTypeError.declaredTypeNode,
    ExecutionHarnessTypeError.globalModuleDeclarationBlock.
  destruct (sources !! EXECUTION_HARNESS_FILENAME) as [h|]; [eauto | discriminate].
Qed.

Lemma diagnosticNode_returned sources harness d :
  sources !! EXECUTION_HARNESS_FILENAME = Some harness ->
  ExecutionHarnessTypeError.diagnosticNode sources d
  = Returned (getDescendentAtLocation (root harness) (start d)
                (Num.add (start d) (length d))).
Proof. intros H. unfold ExecutionHarnessTypeError.diagnosticNode. rewrite H. reflexivity. Qed.

Lemma relocate_no_default sources typeChecker userFile argumentType outputType d :
  sources !! USER_CODE_FILENAME = Some userFile ->
  ExecutionHarnessTypeError.defaultExportSymbol sources typeChecker = Returned None ->
  ExecutionHarnessTypeError.textOf (ExecutionHarnessTypeError.argumentTypeNode sources)
  = Returned argumentType ->
  ExecutionHarnessTypeError.textOf (ExecutionHarnessTypeError.outputTypeNode sources)
  = Returned outputType ->
  ExecutionHarnessTypeError.relocate sources typeChecker d
  = Returned (noDefaultExport userFile argumentType outputType d).
Proof.
  intros Huser Hsym Harg Hout.
  destruct (textOf_harness _ _ _ Harg) as [harness Hharness].
  unfold ExecutionHarnessTypeError.relocate.
  rewrite (diagnosticNode_returned _ _ _ Hharness). simpl.
  unfold ExecutionHarnessTypeError.defaultExportNode. rewrite Hsym. simpl.
  rewrite Huser. simpl.
  unfold ExecutionHarnessTypeError.expectedSignature. rewrite Harg, Hout. reflexivity.
Qed.

(** C4 (as the code has it).  When the user unit has no export named
    [default], a [preProcess] that returns [Err] (which
    [executeUserCode] returns as it is) returns one error per
    diagnostic that has a file, in the compiler's order; each harness
    diagnostic among them is relocated to the range from the start to
    the end of the user unit's tree, with the message stating the
    signature [(...args: <argument type>) => <output type>] built from
    the texts of the two types the harness declares; its location is the
    line and column of the user unit's first token, which is line 1,
    column 1 when that token is at offset 0. *)
Theorem no_default_export_is_relocated
    (compiler : Compiler) (runner : UserCodeRunner)
    (userCode outputType : string) (argsTypes : list string)
    (additionalSourceFiles : list SourceFile)
    (userFile : SourceFile) (argumentText outputText : string)
    (errors : list UserCodeError) :
  let compiled := compile compiler userCode outputType argsTypes additionalSourceFiles in
  let sources := fst compiled in
  let typeChecker := getTypeChecker (snd compiled) in
  let diagnostics :=
    getPreEmitDiagnostics (snd compiled) ++ emitDiagnostics (snd compiled) in
  let relocated d :=
    ExecutionHarnessTypeError (noDefaultExport userFile argumentText outputText d)
      sources typeChecker (mapDiagnosticMessage runner) in
  sources !! USER_CODE_FILENAME = Some userFile ->
  ExecutionHarnessTypeError.defaultExportSymbol sources typeChecker = Returned None ->
  ExecutionHarnessTypeError.textOf (ExecutionHarnessTypeError.argumentTypeNode sources)
  = Returned argumentText ->
  ExecutionHarnessTypeError.textOf (ExecutionHarnessTypeError.outputTypeNode sources)
  = Returned outputText ->
  preProcess compiler runner userCode outputType argsTypes additionalSourceFiles
  = Returned (Err errors) ->
  errors
  = map (fun d =>
           if isHarnessDiagnostic d then relocated d
           else UserCodeTypeError d sources typeChecker (mapDiagnosticMessage runner))
        (List.filter hasFile diagnostics) /\
  (forall vm args timeout context,
     executeUserCode compiler vm runner userCode args outputType argsTypes timeout
       additionalSourceFiles context
     = (context, Returned (Err errors))) /\
  forall d,
    errorLocation (relocated d) = locationIn userFile (getStart (root userFile)) /\
    (getStart (root userFile) = 0 ->
     errorLocation (relocated d) = Returned {| line := Some 1; column := Some 1 |}).
Proof.
  intros compiled sources typeChecker diagnostics relocated Huser Hsym Harg Hout Hpre.
  split; [|split; [intros; apply executeUserCode_err, Hpre|]].
  - apply preProcess_errors in Hpre. cbv zeta in Hpre.
    fold compiled in Hpre. fold sources in Hpre. fold typeChecker in Hpre.
    destruct Hpre as (collected & Hfirst & Hsecond).
    set (expected := fun d =>
           if isHarnessDiagnostic d then relocated d
           else UserCodeTypeError d sources typeChecker (mapDiagnosticMessage runner)).
    assert (forall d, UserCodeTypeError_new d sources typeChecker (mapDiagnosticMessage runner)
                      = Returned (expected d)) as Hexpected.
    { intros d. unfold UserCodeTypeError_new, expected, isHarnessDiagnostic.
      fold (diagnosticFileName d).
      destruct (String.eqb _ _); [|reflexivity].
      rewrite (relocate_no_default _ _ _ _ _ d Huser Hsym Harg Hout). reflexivity. }
    apply (forEach_onPreEmit_expected _ _ _ expected) in Hfirst; [|auto].
    apply (forEach_onEmit_expected _ _ _ expected) in Hsecond; [|auto].
    subst collected. simpl in Hsecond. subst errors diagnostics.
    rewrite List.filter_app, map_app. reflexivity.
  - intros d.
    assert (errorLocation (relocated d) = locationIn userFile (getStart (root userFile)))
      as Hloc.
    { simpl. unfold ExecutionHarnessTypeError.location. simpl. rewrite Huser. reflexivity. }
    split; [exact Hloc|]. intros H0. rewrite Hloc, H0. apply locationIn_origin.
Qed.

Lemma no_default_export_witness :
  exists e1 e2,
    preProcess (compilerOf constantRoot [] constantProgram) runner constantSource
      "number" ["string"] [] = Returned (Err [e1; e2]) /\
    (messageText <$> errorDiagnostic e1)
    = Some (inl ("No default export. Expected a default export function with the signature: "
                 +:+ DQ +:+ "(...args: [string]) => number | Promise<number>" +:+ DQ +:+ ".")).
Proof.
  pose (d1 := {| file := constantFiles !! EXECUTION_HARNESS_FILENAME;
                 start := Some 18; length := Some 13; code := 1192;
                 messageText :=
                   inl ("Module '" +:+ DQ +:+ "__user_file" +:+ DQ +:+ "' has no default export.") |}).
  pose (d2 := {| file := constantFiles !! USER_CODE_FILENAME;
                 start := Some 14; length := Some 1; code := 2322;
                 messageText := inl "Type 'string' is not assignable to type 'number'." |}).
  pose (e1 := ExecutionHarnessTypeError
                (noDefaultExport constantFile "[string]" "number | Promise<number>" d1)
                constantFiles constantChecker (mapDiagnosticMessage runner)).
  pose (e2 := UserCodeTypeError d2 constantFiles constantChecker (mapDiagnosticMessage runner)).
  exists e1, e2.
  destruct (no_default_export_is_relocated
              (compilerOf constantRoot [] constantProgram) runner constantSource
              "number" ["string"] [] constantFile "[string]" "number | Promise<number>"
              [e1; e2]) as [Herrors _].
  - vm_compute. reflexivity.
  - vm_compute. reflexivity.
  - vm_compute. reflexivity.
  - vm_compute. reflexivity.
  - vm_compute. reflexivity.
  - split; [vm_compute; reflexivity | vm_compute; reflexivity].
Defined.

(** C4 (as stated) fails: the constant source has no default export,
    and the failure holds two errors, the relocated one on line 2. *)
Lemma no_default_export_two_errors_on_line_two :
  ExecutionHarnessTypeError.defaultExportSymbol constantFiles constantChecker
  = Returned None /\
  exists e1 e2,
    preProcess (compilerOf constantRoot [] constantProgram) runner constantSource
      "number" ["string"] [] = Returned (Err [e1; e2]) /\
    List.length [e1; e2] <> 1%nat /\
    (fileName <$> (errorDiagnostic e1 ≫= file)) = Some "__user_file.ts" /\
    errorLocation e1 = Returned {| line := Some 2; column := Some 1 |} /\
    errorLocation e1 <> Returned {| line := Some 1; column := Some 1 |}.
Proof.
  split; [vm_compute; reflexivity|].
  eexists. eexists. split; [vm_compute; reflexivity|].
  split; [simpl; lia|]. split; [vm_compute; reflexivity|].
  split; [vm_compute; reflexivity | vm_compute; discriminate].
Qed.

(** ** Return-type and argument-type mismatches *)

(** [c ≫= k] steps to [k a] once [c] is known to return [a]. *)
Ltac step H := rewrite (bind_returned_l _ _ _ H).

Lemma defaultExportNode_symbol sources typeChecker node :
  ExecutionHarnessTypeError.defaultExportNode sources typeChecker = Returned (Some node) ->
  exists symbol,
    ExecutionHarnessTypeError.defaultExportSymbol sources typeChecker
    = Returned (Some symbol).
Proof.
  unfold ExecutionHarnessTypeError.defaultExportNode.
  destruct (ExecutionHarnessTypeError.defaultExportSymbol sources typeChecker)
    as [[symbol|]|m]; simpl; [eauto | discriminate | discriminate].
Qed.

Lemma harness_new sources typeChecker mapMessage d relocated :
  isHarnessDiagnostic d = true ->
  ExecutionHarnessTypeError.relocate sources typeChecker d = Returned relocated ->
  UserCodeTypeError_new d sources typeChecker mapMessage
  = Returned (ExecutionHarnessTypeError relocated sources typeChecker mapMessage).
Proof.
  intros Hd Hrel. unfold UserCodeTypeError_new. fold (diagnosticFileName d).
  unfold isHarnessDiagnostic in Hd. rewrite Hd, Hrel. reflexivity.
Qed.

Lemma harness_location sources typeChecker mapMessage d userFile position :
  sources !! USER_CODE_FILENAME = Some userFile ->
  start d = Some position ->
  errorLocation (ExecutionHarnessTypeError d sources typeChecker mapMessage)
  = locationIn userFile position.
Proof.
  intros Huser Hstart. simpl. unfold ExecutionHarnessTypeError.location.
  rewrite Hstart, Huser. reflexivity.
Qed.

(** C5 (as the code has it).  A harness diagnostic located on the result
    slot of the harness (the assignment target, or the one after
    [await]), for a default export that has a call signature, is
    relocated to the user unit: its range is the return-type annotation of
    the default export's function declaration when the runner finds one,
    otherwise the whole default export node; its message text is exactly
    [Incorrect return type. Expected: '<slot type>', Actual: '<actual>'.]
    where <slot type> is the text of the type the harness gives its result
    slot and <actual> the return type of the call signature; the error's
    [message] is that diagnostic, mapped, behind [TypeError: TS<code>];
    its location is the line and column of the start of the range. *)
Theorem return_type_mismatch_is_relocated
    (sources : gmap string SourceFile) (typeChecker : TypeChecker)
    (mapMessage : Diagnostic -> list string) (d : Diagnostic)
    (harness : SourceFile) (exportNode : Node) (signature : Signature)
    (returnTypeNode : option Node) (outputText : string) :
  isHarnessDiagnostic d = true ->
  sources !! EXECUTION_HARNESS_FILENAME = Some harness ->
  ExecutionHarnessTypeError.defaultExportNode sources typeChecker
  = Returned (Some exportNode) ->
  ExecutionHarnessTypeError.callSignature sources typeChecker
  = Returned (Some signature) ->
  ExecutionHarnessTypeError.inResultSlot sources
    (getDescendentAtLocation (root harness) (start d) (Num.add (start d) (length d)))
  = Returned true ->
  ExecutionHarnessTypeError.defaultExportedFunctionReturnNode sources typeChecker
  = Returned returnTypeNode ->
  ExecutionHarnessTypeError.textOf (ExecutionHarnessTypeError.outputTypeNode sources)
  = Returned outputText ->
  let target := default exportNode returnTypeNode in
  let relocated :=
    {| file := sources !! USER_CODE_FILENAME;
       start := Some (getStart target);
       length := Some (getEnd target - getStart target);
       code := code d;
       messageText := inl
         ("Incorrect return type. Expected: '" +:+ outputText +:+ "', Actual: '" +:+
          typeToString typeChecker (getReturnType signature) +:+ "'.") |} in
  let e := ExecutionHarnessTypeError relocated sources typeChecker mapMessage in
  UserCodeTypeError_new d sources typeChecker mapMessage = Returned e /\
  errorMessage e = Returned (taggedMessage mapMessage relocated) /\
  forall userFile,
    sources !! USER_CODE_FILENAME = Some userFile ->
    errorLocation e = locationIn userFile (getStart target).
Proof.
  intros Hd Hharness Hnode Hsig Hslot Hret Hout target relocated e.
  destruct (defaultExportNode_symbol _ _ _ Hnode) as [symbol Hsym].
  split; [|split].
  - apply harness_new; [exact Hd|].
    unfold ExecutionHarnessTypeError.relocate.
    step (diagnosticNode_returned _ _ d Hharness). step Hsym. step Hnode. step Hsig.
    step Hslot. step Hret. step Hout.
    subst relocated target. destruct returnTypeNode; reflexivity.
  - reflexivity.
  - intros userFile Huser. apply harness_location; [exact Huser | reflexivity].
Qed.

Lemma return_type_mismatch_witness :
  exists e,
    UserCodeTypeError_new returnDiagnostic signatureFiles functionChecker
      (mapDiagnosticMessage runner) = Returned e /\
    errorLocation e = Returned {| line := Some 1; column := Some 70 |}.
Proof.
  destruct (return_type_mismatch_is_relocated signatureFiles functionChecker
              (mapDiagnosticMessage runner) returnDiagnostic signatureHarness
              (functionDeclaration functionSource)
              {| getReturnType := stringType;
                 getParameters :=
                   map parameterSymbol
                     (default [] (array "parameters" (functionDeclaration functionSource))) |}
              (prop "type" (functionDeclaration functionSource))
              "number | Promise<number>")
    as (Hnew & _ & Hloc).
  - vm_compute. reflexivity.
  - vm_compute. reflexivity.
  - vm_compute. reflexivity.
  - vm_compute. reflexivity.
  - vm_compute. reflexivity.
  - vm_compute. reflexivity.
  - vm_compute. reflexivity.
  - eexists. split; [exact Hnew|].
    rewrite (Hloc functionFile)
      by (vm_compute; reflexivity).
    vm_compute. reflexivity.
Defined.

(** C5 (as stated) fails: with the declared return type [number] the
    message expects the slot type [number | Promise<number>], and the
    error's [message] carries the [TypeError: TS2322] tag, whatever the
    message mapper. *)
Lemma return_type_message_names_the_slot_type :
  exists e1 e2 d,
    preProcess (compilerOf functionRoot [] signatureProgram) runner functionSource
      "number" ["string"] [] = Returned (Err [e1; e2]) /\
    errorDiagnostic e1 = Some d /\
    messageText d
    = inl "Incorrect return type. Expected: 'number | Promise<number>', Actual: 'string'." /\
    messageText d <> inl (claimedReturnMessage "number" "string") /\
    errorMessage e1
    = Returned "TypeError: TS2322 Incorrect return type. Expected: 'number | Promise<number>', Actual: 'string'." /\
    errorMessage e1 <> Returned (claimedReturnMessage "number" "string") /\
    forall mapMessage relocated,
      taggedMessage mapMessage relocated <> claimedReturnMessage "number" "string".
Proof.
  eexists. eexists. eexists. split; [vm_compute; reflexivity|].
  split; [reflexivity|]. split; [reflexivity|].
  split; [vm_compute; discriminate|]. split; [vm_compute; reflexivity|].
  split; [vm_compute; discriminate|].
  intros mapMessage relocated. vm_compute. discriminate.
Qed.

Lemma min_spec (x : Z) (xs : list Z) :
  Num.min x xs <= x /\ Forall (fun y => Num.min x xs <= y) xs /\ In (Num.min x xs) (x :: xs).
Proof.
  unfold Num.min. revert x. induction xs as [|y ys IH]; intros x; simpl.
  - split; [lia|]. split; [constructor | left; reflexivity].
  - destruct (IH (Z.min x y)) as (Hle & Hall & Hin). split; [lia|]. split.
    + constructor; [lia | exact Hall].
    + destruct Hin as [Hin|Hin]; [|right; right; exact Hin].
      rewrite <- Hin. destruct (Z.min_spec x y) as [[_ ->]|[_ ->]]; auto.
Qed.

Lemma max_spec (x : Z) (xs : list Z) :
  x <= Num.max x xs /\ Forall (fun y => y <= Num.max x xs) xs /\ In (Num.max x xs) (x :: xs).
Proof.
  unfold Num.max. revert x. induction xs as [|y ys IH]; intros x; simpl.
  - split; [lia|]. split; [constructor | left; reflexivity].
  - destruct (IH (Z.max x y)) as (Hle & Hall & Hin). split; [lia|]. split.
    + constructor; [lia | exact Hall].
    + destruct Hin as [Hin|Hin]; [|right; right; exact Hin].
      rewrite <- Hin. destruct (Z.max_spec x y) as [[_ ->]|[_ ->]]; auto.
Qed.

Lemma mapM_valueDeclaration (symbols : list Symbol) (nodes : list Node) :
  Forall2 (fun p n => valueDeclaration p = Some n) symbols nodes ->
  mapM (fun q => deref (valueDeclaration q)) symbols = Returned nodes.
Proof.
  induction 1 as [|p n ps ns Hp _ IH]; simpl; [reflexivity|].
  rewrite Hp. simpl. rewrite IH. reflexivity.
Qed.

(** C6 (as the code has it).  A harness diagnostic located on the call of
    the default export, on its callee or on its argument list (and not on
    the result slot), for a default export that has a call signature whose
    parameters all have declarations, is relocated to the user unit: its
    range runs from the smallest start to the largest end of the
    parameter declarations, or covers the whole default export node when
    there is no parameter; its message text is exactly
    [Incorrect argument type. Expected: '<tuple>', Actual: '[<types>]'.]
    with the text of the declared argument tuple and the comma-separated
    types of the parameters; the error's [message] is that diagnostic,
    mapped, behind [TypeError: TS<code>]. *)
Theorem argument_type_mismatch_is_relocated
    (sources : gmap string SourceFile) (typeChecker : TypeChecker)
    (mapMessage : Diagnostic -> list string) (d : Diagnostic)
    (harness : SourceFile) (exportNode : Node) (signature : Signature)
    (declarations : list Node) (argumentText : string) :
  isHarnessDiagnostic d = true ->
  sources !! EXECUTION_HARNESS_FILENAME = Some harness ->
  ExecutionHarnessTypeError.defaultExportNode sources typeChecker
  = Returned (Some exportNode) ->
  ExecutionHarnessTypeError.callSignature sources typeChecker
  = Returned (Some signature) ->
  let diagnosticNode :=
    getDescendentAtLocation (root harness) (start d) (Num.add (start d) (length d)) in
  ExecutionHarnessTypeError.inResultSlot sources diagnosticNode = Returned false ->
  ExecutionHarnessTypeError.inCall sources diagnosticNode = Returned true ->
  Forall2 (fun p n => valueDeclaration p = Some n) (getParameters signature) declarations ->
  ExecutionHarnessTypeError.textOf (ExecutionHarnessTypeError.argumentTypeNode sources)
  = Returned argumentText ->
  let span := parameterSpan exportNode declarations in
  let actual :=
    "[" +:+
    join ", "
      (map (fun p => typeToString typeChecker
                       (getTypeOfSymbolAtLocation typeChecker p
                          (root <$> sources !! USER_CODE_FILENAME)))
           (getParameters signature)) +:+ "]" in
  let relocated :=
    {| file := sources !! USER_CODE_FILENAME;
       start := Some (fst span);
       length := Some (snd span - fst span);
       code := code d;
       messageText := inl (claimedArgumentMessage argumentText actual) |} in
  let e := ExecutionHarnessTypeError relocated sources typeChecker mapMessage in
  UserCodeTypeError_new d sources typeChecker mapMessage = Returned e /\
  errorMessage e = Returned (taggedMessage mapMessage relocated) /\
  Forall (fun n => fst span <= getStart n /\ getEnd n <= snd span) declarations /\
  (declarations <> [] ->
   exists a b, In a declarations /\ In b declarations /\
               fst span = getStart a /\ snd span = getEnd b).
Proof.
  intros Hd Hharness Hnode Hsig diagnosticNode Hslot Hcall Hdecl Harg span actual relocated e.
  destruct (defaultExportNode_symbol _ _ _ Hnode) as [symbol Hsym].
  split; [|split; [|split]].
  - apply harness_new; [exact Hd|].
    unfold ExecutionHarnessTypeError.relocate.
    step (diagnosticNode_returned _ _ d Hharness). step Hsym. step Hnode. step Hsig.
    fold diagnosticNode. step Hslot. step Hcall.
    assert (claimedArgumentMessage argumentText actual
            = "Incorrect argument type. Expected: '" +:+ argumentText +:+ "', Actual: '["
              +:+ ExecutionHarnessTypeError.parameterTypes typeChecker
                    (getParameters signature) (sources !! USER_CODE_FILENAME)
              +:+ "]'.") as Htext.
    { unfold claimedArgumentMessage, actual, ExecutionHarnessTypeError.parameterTypes.
      change ("', Actual: '[" +:+ ?x) with ("', Actual: '" +:+ ("[" +:+ x)).
      rewrite !append_assoc. reflexivity. }
    subst relocated span. unfold parameterSpan.
    destruct Hdecl as [|p n ps ns Hp Hps].
    + unfold ExecutionHarnessTypeError.incorrectArgumentType. step Harg.
      simpl. rewrite Htext. reflexivity.
    + rewrite Hp. simpl. rewrite (mapM_valueDeclaration _ _ Hps). simpl.
      unfold ExecutionHarnessTypeError.incorrectArgumentType. step Harg.
      simpl. rewrite Htext. reflexivity.
  - reflexivity.
  - subst span. unfold parameterSpan. destruct declarations as [|n ns]; [constructor|].
    simpl. destruct (min_spec (getStart n) (map getStart ns)) as (Hmin & Hmins & _).
    destruct (max_spec (getEnd n) (map getEnd ns)) as (Hmax & Hmaxs & _).
    constructor; [split; assumption|].
    rewrite Forall_map in Hmins, Hmaxs.
    rewrite Forall_forall in *. intros m Hm. split; [apply Hmins | apply Hmaxs]; exact Hm.
  - intros Hne. subst span. unfold parameterSpan.
    destruct declarations as [|n ns]; [contradiction|]. simpl.
    destruct (min_spec (getStart n) (map getStart ns)) as (_ & _ & Hmin).
    destruct (max_spec (getEnd n) (map getEnd ns)) as (_ & _ & Hmax).
    change (getStart n :: map getStart ns) with (map getStart (n :: ns)) in Hmin.
    change (getEnd n :: map getEnd ns) with (map getEnd (n :: ns)) in Hmax.
    apply in_map_iff in Hmin as (a & Ha & Hina).
    apply in_map_iff in Hmax as (b & Hb & Hinb).
    exists a, b. auto.
Qed.

Lemma argument_type_mismatch_witness :
  exists e d,
    UserCodeTypeError_new callDiagnostic signatureFiles functionChecker
      (mapDiagnosticMessage runner) = Returned e /\
    errorDiagnostic e = Some d /\
    start d = Some 38 /\ length d = Some 28 /\
    messageText d = inl (claimedArgumentMessage "[string]" "[string, number]").
Proof.
  destruct (argument_type_mismatch_is_relocated signatureFiles functionChecker
              (mapDiagnosticMessage runner) callDiagnostic signatureHarness
              (functionDeclaration functionSource)
              {| getReturnType := stringType;
                 getParameters :=
                   map parameterSymbol
                     (default [] (array "parameters" (functionDeclaration functionSource))) |}
              (default [] (array "parameters" (functionDeclaration functionSource)))
              "[string]")
    as (Hnew & _).
  - vm_compute. reflexivity.
  - vm_compute. reflexivity.
  - vm_compute. reflexivity.
  - vm_compute. reflexivity.
  - vm_compute. reflexivity.
  - vm_compute. reflexivity.
  - vm_compute. repeat constructor.
  - vm_compute. reflexivity.
  - eexists. eexists. split; [exact Hnew|]. split; [reflexivity|].
    split; [vm_compute; reflexivity|]. split; vm_compute; reflexivity.
Defined.

(** C6 (as stated) fails on the error's [message]: it is the relocated
    text behind the [TypeError: TS2554] tag, not the text alone, whatever
    the message mapper. *)
Lemma argument_type_message_is_tagged :
  exists e1 e2,
    preProcess (compilerOf functionRoot [] signatureProgram) runner functionSource
      "number" ["string"] [] = Returned (Err [e1; e2]) /\
    (messageText <$> errorDiagnostic e2)
    = Some (inl (claimedArgumentMessage "[string]" "[string, number]")) /\
    errorMessage e2
    = Returned "TypeError: TS2554 Incorrect argument type. Expected: '[string]', Actual: '[string, number]'." /\
    errorMessage e2 <> Returned (claimedArgumentMessage "[string]" "[string, number]") /\
    forall mapMessage relocated,
      taggedMessage mapMessage relocated
      <> claimedArgumentMessage "[string]" "[string, number]".
Proof.
  eexists. eexists. split; [vm_compute; reflexivity|].
  split; [vm_compute; reflexivity|]. split; [vm_compute; reflexivity|].
  split; [vm_compute; discriminate|].
  intros mapMessage relocated. vm_compute. discriminate.
Qed.

(** ** Diagnostics that abort [preProcess] *)

Lemma forEach_onPreEmit_ignores sources typeChecker mapMessage l acc :
  forEach (onPreEmitDiagnostic sources typeChecker mapMessage) l acc
  = forEach (onPreEmitDiagnostic sources typeChecker mapMessage)
      (List.filter (fun d => negb (ignorable d)) l) acc.
Proof.
  revert acc. induction l as [|d l IH]; intros acc; simpl; [reflexivity|].
  destruct (ignorable d) eqn:Hignorable; simpl.
  - assert (onPreEmitDiagnostic sources typeChecker mapMessage acc d = Returned acc) as ->.
    { unfold ignorable, hasFile in Hignorable. unfold onPreEmitDiagnostic.
      destruct (file d); cbn [negb andb] in Hignorable; [discriminate|].
      rewrite Hignorable. reflexivity. }
    simpl. apply IH.
  - destruct (onPreEmitDiagnostic sources typeChecker mapMessage acc d); simpl;
      [apply IH | reflexivity].
Qed.

Lemma isHarnessDiagnostic_hasFile d : isHarnessDiagnostic d = true -> hasFile d = true.
Proof.
  unfold isHarnessDiagnostic, diagnosticFileName, hasFile.
  destruct (file d); [reflexivity|]. vm_compute. discriminate.
Qed.

Lemma relocate_unhandled sources typeChecker d harness exportNode signature :
  sources !! EXECUTION_HARNESS_FILENAME = Some harness ->
  ExecutionHarnessTypeError.defaultExportNode sources typeChecker
  = Returned (Some exportNode) ->
  ExecutionHarnessTypeError.callSignature sources typeChecker
  = Returned (Some signature) ->
  let diagnosticNode :=
    getDescendentAtLocation (root harness) (start d) (Num.add (start d) (length d)) in
  ExecutionHarnessTypeError.inResultSlot sources diagnosticNode = Returned false ->
  ExecutionHarnessTypeError.inCall sources diagnosticNode = Returned false ->
  ExecutionHarnessTypeError.relocate sources typeChecker d
  = Raised ("Unhandled diagnostic node: " +:+ getText diagnosticNode).
Proof.
  intros Hharness Hnode Hsig diagnosticNode Hslot Hcall.
  destruct (defaultExportNode_symbol _ _ _ Hnode) as [symbol Hsym].
  unfold ExecutionHarnessTypeError.relocate.
  step (diagnosticNode_returned _ _ d Hharness). step Hsym. step Hnode. step Hsig.
  fold diagnosticNode. step Hslot. step Hcall. reflexivity.
Qed.

Lemma chainCodes_eq (chain : DiagnosticMessageChain) :
  getDiagnosticMessageChainCodes chain
  = chainCode chain ::
    concat (map getDiagnosticMessageChainCodes (default [] (next chain))).
Proof.
  destruct chain as [txt c [kids|]]; simpl; [|reflexivity]. f_equal.
  induction kids as [|kid kids IH]; simpl; [reflexivity|]. rewrite IH. reflexivity.
Qed.

Lemma chainCodes_mentions (c : Z) (chain : DiagnosticMessageChain) :
  In c (getDiagnosticMessageChainCodes chain) <-> mentions c chain.
Proof.
  split.
  - revert chain. apply (Chain_next_ind (fun chain =>
      In c (getDiagnosticMessageChainCodes chain) -> mentions c chain)).
    intros chain IH. rewrite chainCodes_eq. intros [Hhead|Hin].
    + apply mentions_here. exact Hhead.
    + apply in_concat in Hin as (codes & Hcodes & Hc).
      apply in_map_iff in Hcodes as (kid & <- & Hkid).
      destruct (next chain) as [kids|] eqn:Hnext; [|destruct Hkid]. simpl in *.
      eapply mentions_next; [exact Hnext | exact Hkid|].
      rewrite Forall_forall in IH. apply IH; [apply list_elem_of_In|]; assumption.
  - induction 1 as [chain Hhead | chain kids kid Hnext Hkid _ IH];
      rewrite chainCodes_eq.
    + left. exact Hhead.
    + right. apply in_concat. exists (getDiagnosticMessageChainCodes kid).
      split; [|exact IH]. apply in_map. rewrite Hnext. exact Hkid.
Qed.

(** The codes of a diagnostic are its own and those its chain carries. *)
Lemma getDiagnosticCodes_mentions (d : Diagnostic) (c : Z) :
  In c (getDiagnosticCodes d) <->
  code d = c \/ exists chain, messageText d = inr chain /\ mentions c chain.
Proof.
  unfold getDiagnosticCodes. simpl.
  destruct (messageText d) as [txt|chain].
  - split; [intros [H|[]]; auto | intros [H|(chain & Hc & _)]; [auto|discriminate]].
  - rewrite chainCodes_mentions. split.
    + intros [H|H]; [auto | right; eauto].
    + intros [H|(chain' & [= <-] & H)]; auto.
Qed.

Lemma isImplicitLibImport_mentions (d : Diagnostic) :
  isImplicitLibImport (getDiagnosticCodes d) = true <->
  code d = 1420 \/ exists chain, messageText d = inr chain /\ mentions 1420 chain.
Proof.
  rewrite <- getDiagnosticCodes_mentions. unfold isImplicitLibImport.
  rewrite existsb_exists. split.
  - intros (c & Hin & Hc). simpl in Hc. rewrite orb_false_r in Hc.
    apply Z.eqb_eq in Hc. subst c. exact Hin.
  - intros Hin. exists 1420. split; [exact Hin | reflexivity].
Qed.

Lemma filter_kept {A} (p : A -> bool) (l : list A) :
  Forall (fun x => p x = false) l -> List.filter (fun x => negb (p x)) l = l.
Proof. induction 1 as [|x l Hx _ IH]; simpl; [|rewrite Hx, IH]; reflexivity. Qed.

(** C9.  A diagnostic without a file that carries the code 1420, as its
    own code or anywhere in its message chain, is silently ignored:
    [preProcess] behaves as if the compiler had not reported it.  Any other
    diagnostic without a file makes [preProcess] raise; so does a harness
    diagnostic, of either pass, for a default export with a call signature
    when its node in the harness is neither the result slot nor the call,
    its callee or its argument list.  The complaint about an implicit type
    library belongs to the construction of the program: it is reported
    before the emit, and the emit reports none. *)
Theorem unclassified_diagnostics_abort
    (compiler : Compiler) (runner : UserCodeRunner)
    (userCode outputType : string) (argsTypes : list string)
    (additionalSourceFiles : list SourceFile) :
  let compiled := compile compiler userCode outputType argsTypes additionalSourceFiles in
  let sources := fst compiled in
  let typeChecker := getTypeChecker (snd compiled) in
  let diagnostics :=
    getPreEmitDiagnostics (snd compiled) ++ emitDiagnostics (snd compiled) in
  let result :=
    preProcess compiler runner userCode outputType argsTypes additionalSourceFiles in
  Forall (fun d => ignorable d = false) (emitDiagnostics (snd compiled)) ->
  (forall d,
     ignorable d = true <->
     file d = None /\
     (code d = 1420 \/ exists chain, messageText d = inr chain /\ mentions 1420 chain)) /\
  result
  = preProcess (withoutImplicitLib compiler) runner userCode outputType argsTypes
      additionalSourceFiles /\
  (forall d, In d diagnostics -> file d = None -> ignorable d = false -> isRaised result) /\
  (forall d harness exportNode signature,
     In d diagnostics ->
     isHarnessDiagnostic d = true ->
     sources !! EXECUTION_HARNESS_FILENAME = Some harness ->
     ExecutionHarnessTypeError.defaultExportNode sources typeChecker
     = Returned (Some exportNode) ->
     ExecutionHarnessTypeError.callSignature sources typeChecker
     = Returned (Some signature) ->
     let diagnosticNode :=
       getDescendentAtLocation (root harness) (start d) (Num.add (start d) (length d)) in
     ExecutionHarnessTypeError.inResultSlot sources diagnosticNode = Returned false ->
     ExecutionHarnessTypeError.inCall sources diagnosticNode = Returned false ->
     isRaised result).
Proof.
  intros compiled sources typeChecker diagnostics result Hquiet.
  assert (forall d, file d = None -> isImplicitLibImport (getDiagnosticCodes d) = false ->
            forall acc, isRaised (onPreEmitDiagnostic sources typeChecker
                                    (mapDiagnosticMessage runner) acc d)) as Hpre.
  { intros d Hf Hc acc. unfold onPreEmitDiagnostic. rewrite Hf, Hc. eexists. reflexivity. }
  assert (forall d, file d = None ->
            forall acc, isRaised (onEmitDiagnostic sources typeChecker
                                    (mapDiagnosticMessage runner) acc d)) as Hemit.
  { intros d Hf acc. unfold onEmitDiagnostic. rewrite Hf. eexists. reflexivity. }
  split; [|split; [|split]].
  - intros d. unfold ignorable, hasFile. rewrite <- isImplicitLibImport_mentions.
    destruct (file d); cbn [negb andb]; split.
    + discriminate.
    + intros [Hfile _]. discriminate.
    + auto.
    + intros [_ Hcodes]. exact Hcodes.
  - subst result. unfold preProcess, compile. simpl.
    rewrite <- forEach_onPreEmit_ignores.
    subst compiled. unfold compile in Hquiet. cbn [snd] in Hquiet.
    rewrite (filter_kept ignorable _ Hquiet). reflexivity.
  - intros d Hin Hf Hc. apply preProcess_raises. apply in_app_or in Hin as [Hin|Hin].
    + left. eapply forEach_raises; [exact Hin|].
      apply Hpre; [exact Hf|]. unfold ignorable, hasFile in Hc. rewrite Hf in Hc. exact Hc.
    + right. intros collected.
      eapply forEach_raises; [exact Hin | apply Hemit; assumption].
  - intros d harness exportNode signature Hin Hd Hharness Hnode Hsig diagnosticNode
      Hslot Hcall.
    pose proof (relocate_unhandled sources typeChecker d harness exportNode signature
                  Hharness Hnode Hsig Hslot Hcall) as Hrel.
    assert (isRaised (UserCodeTypeError_new d sources typeChecker
                        (mapDiagnosticMessage runner))) as Hnew.
    { unfold UserCodeTypeError_new. fold (diagnosticFileName d).
      unfold isHarnessDiagnostic in Hd. rewrite Hd, Hrel. eexists. reflexivity. }
    pose proof (isHarnessDiagnostic_hasFile d Hd) as Hfile. unfold hasFile in Hfile.
    apply preProcess_raises. apply in_app_or in Hin as [Hin|Hin].
    + left. eapply forEach_raises; [exact Hin|]. intros acc.
      unfold onPreEmitDiagnostic. destruct (file d); [|discriminate].
      apply isRaised_bind_l, Hnew.
    + right. intros collected. eapply forEach_raises; [exact Hin|]. intros acc.
      unfold onEmitDiagnostic. destruct (file d); [|discriminate].
      apply isRaised_bind_l, Hnew.
Qed.

Lemma unclassified_diagnostics_witness :
  preProcess (compilerOf functionRoot [] implicitLibraryBeforeEmit) runner functionSource
    "string" ["string"; "number"] []
  = preProcess (withoutImplicitLib (compilerOf functionRoot [] implicitLibraryBeforeEmit))
      runner functionSource "string" ["string"; "number"] [] /\
  isRaised (preProcess (compilerOf functionRoot [] optionsProgram) runner functionSource
              "string" ["string"; "number"] []) /\
  isRaised (preProcess (compilerOf functionRoot [] unknownTypeProgram) runner functionSource
              "Strin" ["string"; "number"] []).
Proof.
  split; [|split].
  - destruct (unclassified_diagnostics_abort
                (compilerOf functionRoot [] implicitLibraryBeforeEmit)
                runner functionSource "string" ["string"; "number"] [])
      as (_ & Hignored & _); [constructor | exact Hignored].
  - destruct (unclassified_diagnostics_abort (compilerOf functionRoot [] optionsProgram)
                runner functionSource "string" ["string"; "number"] [])
      as (_ & _ & Hfileless & _); [constructor|].
    apply (Hfileless optionsDiagnostic).
    + left. reflexivity.
    + reflexivity.
    + reflexivity.
  - destruct (unclassified_diagnostics_abort (compilerOf functionRoot [] unknownTypeProgram)
                runner functionSource "Strin" ["string"; "number"] [])
      as (_ & _ & _ & Hharness); [constructor|].
    eapply (Hharness _ (parseHarness [] (executionCode [] ["string"; "number"] "Strin"))
              (functionDeclaration functionSource)
              {| getReturnType := stringType;
                 getParameters :=
                   map parameterSymbol
                     (default [] (array "parameters" (functionDeclaration functionSource))) |}).
    + left. reflexivity.
    + vm_compute. reflexivity.
    + vm_compute. reflexivity.
    + vm_compute. reflexivity.
    + vm_compute. reflexivity.
    + vm_compute. reflexivity.
    + vm_compute. reflexivity.
Defined.

(** ** Relocated ranges and the user unit's text *)

Lemma span_within f n d :
  withinText f n ->
  start d = Some (getStart n) -> length d = Some (getEnd n - getStart n) ->
  rangeWithin f d.
Proof.
  intros (H0 & H1 & H2) Hs Hl. exists (getStart n), (getEnd n - getStart n).
  repeat split; try assumption; lia.
Qed.

Lemma mapM_valueDeclaration_inv (symbols : list Symbol) (nodes : list Node) :
  mapM (fun q => deref (valueDeclaration q)) symbols = Returned nodes ->
  omap valueDeclaration symbols = nodes.
Proof.
  revert nodes. induction symbols as [|p ps IH]; intros nodes H; simpl in H.
  - injection H as <-. reflexivity.
  - returned H. returned H. injection H as <-.
    apply deref_returned in Hv. simpl. rewrite Hv. f_equal. apply IH. exact Hv0.
Qed.

Lemma relocate_inside sources typeChecker d d' userFile :
  sources !! USER_CODE_FILENAME = Some userFile ->
  ExecutionHarnessTypeError.relocate sources typeChecker d = Returned d' ->
  file d' = Some userFile /\
  (Forall (withinText userFile) (declarationNodes sources typeChecker) ->
   rangeWithin userFile d').
Proof.
  intros Huser H. unfold ExecutionHarnessTypeError.relocate in H.
  invert H as diagnosticNode HdiagnosticNode.
  invert H as symbol Hsymbol. invert H as node Hnode.
  assert ((userFile0 ← deref (sources !! USER_CODE_FILENAME);
           signature ← ExecutionHarnessTypeError.expectedSignature sources;
           mret {| file := Some userFile0;
                   start := Some (getStart (root userFile0));
                   length := Some (getEnd (root userFile0) - getStart (root userFile0));
                   code := code d;
                   messageText := inl
                     ("No default export. Expected a default export function with the signature: "
                      +:+ DQ +:+ signature +:+ DQ +:+ ".") |}) = Returned d' ->
          file d' = Some userFile /\
          (Forall (withinText userFile) (declarationNodes sources typeChecker) ->
           rangeWithin userFile d')) as Hmissing.
  { clear H. intros H. rewrite Huser in H. simpl in H.
    invert H as signature Hsignature. injection H as <-.
    split; [reflexivity|]. intros Hall. unfold declarationNodes in Hall.
    rewrite Huser in Hall. apply Forall_app in Hall as [Hroot _].
    apply Forall_inv in Hroot. eapply span_within; [exact Hroot| |]; reflexivity. }
  destruct symbol as [symbol|]; [|destruct node; apply Hmissing, H].
  destruct node as [exportNode|]; [|apply Hmissing, H]. clear Hmissing.
  assert (Forall (withinText userFile) (declarationNodes sources typeChecker) ->
          withinText userFile exportNode) as Hexport.
  { intros Hall. unfold declarationNodes in Hall. rewrite Hnode in Hall.
    apply Forall_app in Hall as [_ Hall]. apply Forall_app in Hall as [Hall _].
    apply Forall_inv in Hall. exact Hall. }
  invert H as signature Hsignature. destruct signature as [signature|].
  - invert H as inResult HinResult. destruct inResult.
    + invert H as returnNode HreturnNode. invert H as outputType HoutputType.
      injection H as <-. split; [exact Huser|].
      intros Hall. destruct returnNode as [returnNode|].
      * eapply span_within; [| |]; [|reflexivity|reflexivity].
        unfold declarationNodes in Hall. rewrite HreturnNode in Hall.
        apply Forall_app in Hall as [_ Hall]. apply Forall_app in Hall as [_ Hall].
        apply Forall_app in Hall as [Hall _]. apply Forall_inv in Hall. exact Hall.
      * eapply span_within; [apply Hexport, Hall| |]; reflexivity.
    + invert H as inCall HinCall. destruct inCall; [|discriminate].
      destruct (getParameters signature) as [|p ps] eqn:Hparameters.
      * invert H as message Hmessage. injection H as <-. split; [exact Huser|].
        intros Hall. eapply span_within; [apply Hexport, Hall| |]; reflexivity.
      * invert H as first Hfirst. invert H as others Hothers.
        invert H as message Hmessage. injection H as <-. split; [exact Huser|].
        intros Hall.
        assert (omap valueDeclaration (p :: ps) = first :: others) as Hdeclared.
        { apply mapM_valueDeclaration_inv. simpl. rewrite Hfirst. simpl.
          rewrite Hothers. reflexivity. }
        assert (Forall (withinText userFile) (first :: others)) as Hdecl.
        { unfold declarationNodes in Hall. rewrite Hsignature, Hparameters in Hall.
          apply Forall_app in Hall as [_ Hall]. apply Forall_app in Hall as [_ Hall].
          apply Forall_app in Hall as [_ Hall].
          rewrite Hdeclared in Hall. exact Hall. }
        destruct (min_spec (getStart first) (map getStart others)) as (Hmin & _ & Hminin).
        destruct (max_spec (getEnd first) (map getEnd others)) as (Hmax & _ & Hmaxin).
        change (getStart first :: map getStart others)
          with (map getStart (first :: others)) in Hminin.
        change (getEnd first :: map getEnd others)
          with (map getEnd (first :: others)) in Hmaxin.
        apply in_map_iff in Hminin as (a & Ha & Hina).
        apply in_map_iff in Hmaxin as (b & Hb & Hinb).
        rewrite Forall_forall in Hdecl.
        pose proof (Hdecl a ltac:(apply list_elem_of_In; exact Hina)) as (Ha0 & _ & _).
        pose proof (Hdecl b ltac:(apply list_elem_of_In; exact Hinb)) as (_ & _ & Hb2).
        pose proof (Hdecl first ltac:(left)) as (_ & Hspan & _).
        eexists _, _. split; [reflexivity|]. split; [reflexivity|].
        simpl. lia.
  - invert H as signatureText HsignatureText. injection H as <-. split; [exact Huser|].
    intros Hall. eapply span_within; [apply Hexport, Hall| |]; reflexivity.
Qed.

Lemma new_surfaced sources typeChecker mapMessage diagnostics userFile d e :
  sources !! USER_CODE_FILENAME = Some userFile ->
  In d diagnostics ->
  UserCodeTypeError_new d sources typeChecker mapMessage = Returned e ->
  surfaced sources typeChecker diagnostics userFile e.
Proof.
  intros Huser Hin Hnew. unfold UserCodeTypeError_new in Hnew.
  fold (diagnosticFileName d) in Hnew. fold (isHarnessDiagnostic d) in Hnew.
  destruct (isHarnessDiagnostic d) eqn:Hd.
  - invert Hnew as relocated Hrelocated. injection Hnew as <-. simpl.
    eapply relocate_inside; eassumption.
  - injection Hnew as <-. simpl. auto.
Qed.

(** C1 (as the code has it).  Every error of an [Err] returned by
    [preProcess], which [executeUserCode] returns as it is, is a
    compile-time error of one of two kinds.  A
    harness-originated diagnostic has been rewritten so that its file is
    the user unit, and its start and length fall within the user unit's
    text whenever the nodes relocation takes spans from (the user unit's
    tree, the default export's declaration, its return-type annotation,
    its parameter declarations) lie within that text.  Any other
    diagnostic, from the user unit or from an auxiliary unit, is returned
    exactly as the compiler reported it, with its own file and range. *)
Theorem returned_diagnostics_and_the_user_unit
    (compiler : Compiler) (runner : UserCodeRunner)
    (userCode outputType : string) (argsTypes : list string)
    (additionalSourceFiles : list SourceFile)
    (userFile : SourceFile) (errors : list UserCodeError) :
  let compiled := compile compiler userCode outputType argsTypes additionalSourceFiles in
  let sources := fst compiled in
  let typeChecker := getTypeChecker (snd compiled) in
  let diagnostics :=
    getPreEmitDiagnostics (snd compiled) ++ emitDiagnostics (snd compiled) in
  sources !! USER_CODE_FILENAME = Some userFile ->
  preProcess compiler runner userCode outputType argsTypes additionalSourceFiles
  = Returned (Err errors) ->
  Forall (surfaced sources typeChecker diagnostics userFile) errors /\
  forall vm args timeout context,
    executeUserCode compiler vm runner userCode args outputType argsTypes timeout
      additionalSourceFiles context
    = (context, Returned (Err errors)).
Proof.
  intros compiled sources typeChecker diagnostics Huser Hpre.
  split; [|intros; apply executeUserCode_err, Hpre].
  apply preProcess_errors in Hpre. cbv zeta in Hpre.
  fold compiled in Hpre. fold sources in Hpre. fold typeChecker in Hpre.
  destruct Hpre as (collected & Hfirst & Hsecond).
  set (Q := Forall (surfaced sources typeChecker diagnostics userFile)).
  assert (Q collected) as Hcollected.
  { eapply (forEach_invariant _ Q); [|constructor|exact Hfirst].
    intros acc d acc' Hin Hacc Hstep. unfold onPreEmitDiagnostic in Hstep.
    destruct (file d).
    - invert Hstep as e He. injection Hstep as <-.
      apply Forall_app. split; [exact Hacc|]. constructor; [|constructor].
      eapply new_surfaced; [exact Huser| |exact He].
      apply in_or_app. left. exact Hin.
    - destruct (isImplicitLibImport (getDiagnosticCodes d)); [|discriminate].
      injection Hstep as <-. exact Hacc. }
  eapply (forEach_invariant _ Q); [|exact Hcollected|exact Hsecond].
  intros acc d acc' Hin Hacc Hstep. unfold onEmitDiagnostic in Hstep.
  destruct (file d); [|discriminate].
  invert Hstep as e He. injection Hstep as <-.
  apply Forall_app. split; [exact Hacc|]. constructor; [|constructor].
  eapply new_surfaced; [exact Huser| |exact He].
  apply in_or_app. right. exact Hin.
Qed.

Lemma returned_diagnostics_witness :
  rangeWithin functionFile relocatedReturn /\ rangeWithin functionFile relocatedCall.
Proof.
  pose proof (returned_diagnostics_and_the_user_unit
                (compilerOf functionRoot [] signatureProgram) runner functionSource
                "number" ["string"] [] functionFile
                [ExecutionHarnessTypeError relocatedReturn signatureFiles functionChecker
                   (mapDiagnosticMessage runner);
                 ExecutionHarnessTypeError relocatedCall signatureFiles functionChecker
                   (mapDiagnosticMessage runner)]) as H.
  cbv zeta in H.
  assert (Forall (withinText functionFile) (declarationNodes signatureFiles functionChecker))
    as Hnodes.
  { apply Forall_forall. intros n Hn. apply list_elem_of_In in Hn. vm_compute in Hn.
    repeat (destruct Hn as [<-|Hn]; [vm_compute; repeat split; discriminate|]).
    destruct Hn. }
  specialize (H ltac:(vm_compute; reflexivity) ltac:(vm_compute; reflexivity)).
  destruct H as [H _].
  apply Forall_cons_1 in H as [[_ H1] H]. apply Forall_cons_1 in H as [[_ H2] _].
  split; [apply H1 | apply H2]; exact Hnodes.
Defined.

(** C1 (as stated) fails: the only diagnostic of the compilation belongs
    to the auxiliary unit, and the returned error still carries that file
    and the offset in it. *)
Lemma auxiliary_diagnostic_keeps_its_file :
  exists e d,
    preProcess (compilerOf functionRoot ["import 'other-importable';"] auxiliaryProgram)
      runner functionSource "string" ["string"; "number"] [auxiliaryFile]
    = Returned (Err [e]) /\
    errorDiagnostic e = Some d /\
    (fileName <$> file d) = Some "other-importable.ts" /\
    (fileName <$> file d) <> Some "__user_file.ts" /\
    start d = Some 104.
Proof.
  eexists. eexists. split; [vm_compute; reflexivity|]. split; [reflexivity|].
  split; [reflexivity|]. split; [vm_compute; discriminate | reflexivity].
Qed.


(** * Further properties *)

(** ** Diagnostic codes *)

(** X1.  The codes of a diagnostic are its own code and every code its
    message chain carries, at any depth; so the pre-emit loop treats a
    diagnostic as the implicit type library complaint exactly when 1420 is
    its code or occurs anywhere in its chain. *)
Theorem diagnostic_codes_cover_the_chain (d : Diagnostic) :
  (forall c,
     In c (getDiagnosticCodes d) <->
     code d = c \/ exists chain, messageText d = inr chain /\ mentions c chain) /\
  (isImplicitLibImport (getDiagnosticCodes d) = true <->
   code d = 1420 \/ exists chain, messageText d = inr chain /\ mentions 1420 chain).
Proof.
  assert (forall c,
     In c (getDiagnosticCodes d) <->
     code d = c \/ exists chain, messageText d = inr chain /\ mentions c chain) as Hcodes.
  { intros c. unfold getDiagnosticCodes. simpl.
    destruct (messageText d) as [txt|chain].
    - split; [intros [H|[]]; auto | intros [H|(chain & Hc & _)]; [auto|discriminate]].
    - rewrite chainCodes_mentions. split.
      + intros [H|H]; [auto | right; eauto].
      + intros [H|(chain' & [= <-] & H)]; auto. }
  split; [exact Hcodes|].
  rewrite <- Hcodes. unfold isImplicitLibImport. rewrite existsb_exists. split.
  - intros (c & Hin & Hc). simpl in Hc. rewrite orb_false_r in Hc.
    apply Z.eqb_eq in Hc. subst c. exact Hin.
  - intros Hin. exists 1420. split; [exact Hin | reflexivity].
Qed.

(** ** Walking a syntax tree *)

Lemma getDescendentNodes_eq (node : Node) (guard : Node -> bool) :
  getDescendentNodes node guard
  = if guard node then [node]
    else concat (map (fun child => getDescendentNodes child guard) (getChildren node)).
Proof.
  destruct node as [id k s e t children pr ar]. simpl.
  destruct (guard _); [reflexivity|].
  induction children as [|child rest IH]; simpl; [reflexivity|]. rewrite IH. reflexivity.
Qed.

(** X2.  [getDescendentNodes] returns exactly the topmost nodes of the
    tree that satisfy the guard: a node is returned when it satisfies the
    guard and no node between the root and it does; nothing below a
    returned node is looked at. *)
Theorem descendent_nodes_are_the_topmost_matches
    (guard : Node -> bool) (root n : Node) :
  In n (getDescendentNodes root guard) <-> topmost guard root n.
Proof.
  split.
  - revert root n. apply (Node_children_ind (fun root =>
      forall n, In n (getDescendentNodes root guard) -> topmost guard root n)).
    intros root IH n. rewrite getDescendentNodes_eq.
    destruct (guard root) eqn:Hguard.
    + intros [<-|[]]. apply topmost_here. exact Hguard.
    + intros Hin. apply in_concat in Hin as (found & Hfound & Hn).
      apply in_map_iff in Hfound as (child & <- & Hchild).
      eapply topmost_child; [exact Hguard | exact Hchild|].
      rewrite Forall_forall in IH. apply IH; [apply list_elem_of_In|]; assumption.
  - induction 1 as [root Hguard | root child n Hguard Hchild _ IH];
      rewrite getDescendentNodes_eq, Hguard.
    + left. reflexivity.
    + apply in_concat. exists (getDescendentNodes child guard).
      split; [|exact IH]. apply in_map_iff. eauto.
Qed.

Lemma getDescendentAtLocation_eq (node : Node) (start end_ : option Z) :
  getDescendentAtLocation node start end_
  = if exactly node start end_ then node
    else match List.find (fun child => encloses child start end_) (getChildren node) with
         | Some child => getDescendentAtLocation child start end_
         | None => node
         end.
Proof.
  destruct node as [id k s e t children pr ar]. unfold exactly. simpl.
  destruct (_ && _); [reflexivity|].
  generalize (MkNode id k s e t children pr ar). intros fallback.
  induction children as [|child rest IH]; simpl; [reflexivity|].
  unfold encloses at 1. destruct (_ && _); [reflexivity | exact IH].
Qed.

(** X3.  [getDescendentAtLocation] returns a node of the tree it is given;
    it returns the root itself when the start or the end of the range is
    undefined; when the root encloses the range so does the result; and
    the result either has exactly the range or has no child that encloses
    it. *)
Theorem descendent_at_location (root : Node) (start end_ : option Z) :
  let found := getDescendentAtLocation root start end_ in
  within root found /\
  (start = None \/ end_ = None -> found = root) /\
  (encloses root start end_ = true -> encloses found start end_ = true) /\
  (exactly found start end_ = true \/
   Forall (fun child => encloses child start end_ = false) (getChildren found)).
Proof.
  revert root. apply (Node_children_ind (fun root =>
    let found := getDescendentAtLocation root start end_ in
    within root found /\
    (start = None \/ end_ = None -> found = root) /\
    (encloses root start end_ = true -> encloses found start end_ = true) /\
    (exactly found start end_ = true \/
     Forall (fun child => encloses child start end_ = false) (getChildren found)))).
  intros root IH. cbv zeta. rewrite getDescendentAtLocation_eq.
  destruct (exactly root start end_) eqn:Hexact.
  - split; [constructor|]. split; [reflexivity|]. split; [auto|]. left. exact Hexact.
  - destruct (List.find (fun child => encloses child start end_) (getChildren root))
      as [child|] eqn:Hfind.
    + apply List.find_some in Hfind as [Hchild Henc].
      rewrite Forall_forall in IH.
      destruct (IH child ltac:(apply list_elem_of_In; exact Hchild))
        as (Hwithin & Hnone & Hkeeps & Hstops).
      split; [eapply within_child; eassumption|]. split.
      * intros Hundefined. exfalso. unfold encloses in Henc.
        destruct Hundefined as [-> | ->]; simpl in Henc;
          [|rewrite andb_false_r in Henc]; discriminate.
      * split; [intros _; apply Hkeeps, Henc | exact Hstops].
    + split; [constructor|]. split; [reflexivity|]. split; [auto|]. right.
      apply Forall_forall. intros child Hchild. apply list_elem_of_In in Hchild.
      apply (List.find_none _ _ Hfind child Hchild).
Qed.

(** ** File names *)

Lemma chars_app (a b : string) :
  list_ascii_of_string (a +:+ b) = list_ascii_of_string a ++ list_ascii_of_string b.
Proof.
  induction a as [|ch a IH]; [reflexivity|].
  change (ch :: list_ascii_of_string (a +:+ b)
          = ch :: (list_ascii_of_string a ++ list_ascii_of_string b)).
  rewrite IH. reflexivity.
Qed.

Lemma takeWhile_stop {A} (p : A -> bool) (l : list A) (x : A) (rest : list A) :
  forallb p l = true -> p x = false -> path.takeWhile p (l ++ x :: rest) = l.
Proof.
  intros Hl Hx. induction l as [|y l IH]; simpl in *; [rewrite Hx; reflexivity|].
  apply andb_true_iff in Hl as [-> Hl]. rewrite (IH Hl). reflexivity.
Qed.

Lemma takeWhile_all {A} (p : A -> bool) (l : list A) :
  forallb p l = true -> path.takeWhile p l = l.
Proof.
  intros Hl. induction l as [|y l IH]; simpl in *; [reflexivity|].
  apply andb_true_iff in Hl as [-> Hl]. rewrite (IH Hl). reflexivity.
Qed.

Lemma dropWhile_stop {A} (p : A -> bool) (l : list A) (x : A) (rest : list A) :
  forallb p l = true -> p x = false -> path.dropWhile p (l ++ x :: rest) = x :: rest.
Proof.
  intros Hl Hx. induction l as [|y l IH]; simpl in *; [rewrite Hx; reflexivity|].
  apply andb_true_iff in Hl as [-> Hl]. exact (IH Hl).
Qed.

Lemma dropWhile_all {A} (p : A -> bool) (l : list A) :
  forallb p l = true -> path.dropWhile p l = [].
Proof.
  intros Hl. induction l as [|y l IH]; simpl in *; [reflexivity|].
  apply andb_true_iff in Hl as [-> Hl]. exact (IH Hl).
Qed.

Lemma dropWhile_none {A} (p : A -> bool) (l rest : list A) :
  forallb (fun x => negb (p x)) l = true -> l <> [] ->
  path.dropWhile p (l ++ rest) = l ++ rest.
Proof.
  destruct l as [|y l]; [congruence|]. simpl. intros H _.
  apply andb_true_iff in H as [H _]. apply negb_true_iff in H. rewrite H. reflexivity.
Qed.

Lemma forallb_rev {A} (p : A -> bool) (l : list A) :
  forallb p (rev l) = forallb p l.
Proof.
  induction l as [|x l IH]; [reflexivity|]. simpl.
  rewrite forallb_app, IH. simpl. rewrite andb_true_r. apply andb_comm.
Qed.

Lemma chars_nonempty (s : string) : s <> "" -> rev (list_ascii_of_string s) <> [].
Proof.
  destruct s as [|ch s]; [congruence|]. intros _ H.
  apply (f_equal (@List.length _)) in H. rewrite length_rev in H. discriminate.
Qed.

Lemma lastPortionRev_name (name : string) :
  name <> "" -> slashFree name = true ->
  path.lastPortionRev name = rev (list_ascii_of_string name).
Proof.
  intros Hname Hfree. unfold path.lastPortionRev.
  rewrite <- (app_nil_r (rev (list_ascii_of_string name))) at 1.
  rewrite dropWhile_none, app_nil_r.
  - apply takeWhile_all. rewrite forallb_rev. exact Hfree.
  - rewrite forallb_rev. exact Hfree.
  - apply chars_nonempty, Hname.
Qed.

Lemma lastPortionRev_directory (dir name : string) :
  name <> "" -> slashFree name = true ->
  path.lastPortionRev (dir +:+ "/" +:+ name) = rev (list_ascii_of_string name).
Proof.
  intros Hname Hfree. unfold path.lastPortionRev.
  rewrite !chars_app, !rev_app_distr. simpl. rewrite <- !app_assoc. simpl.
  rewrite dropWhile_none.
  - apply takeWhile_stop; [rewrite forallb_rev; exact Hfree | reflexivity].
  - rewrite forallb_rev. exact Hfree.
  - apply chars_nonempty, Hname.
Qed.

Lemma removeExt_portion (a b : string) :
  path.lastPortionRev a = path.lastPortionRev b -> removeExt a = removeExt b.
Proof.
  intros H. unfold removeExt, path.basename, path.extname. rewrite H. reflexivity.
Qed.

Lemma substring_whole (s : string) : substring 0 (String.length s) s = s.
Proof. induction s as [|ch s IH]; simpl; [reflexivity | rewrite IH; reflexivity]. Qed.

Lemma substring_prefix (a b : string) : substring 0 (String.length a) (a +:+ b) = a.
Proof.
  induction a as [|ch a IH]; [destruct b; reflexivity|].
  change (String ch (substring 0 (String.length a) (a +:+ b)) = String ch a).
  rewrite IH. reflexivity.
Qed.

Lemma substring_empty (n : nat) (s : string) : substring n 0 s = "".
Proof.
  revert n. induction s as [|ch s IH]; intros [|n]; simpl; try reflexivity. apply IH.
Qed.

Lemma prefix_refl (s : string) : String.prefix s s = true.
Proof.
  induction s as [|ch s IH]; simpl; [reflexivity|].
  destruct (ascii_dec ch ch); [exact IH | congruence].
Qed.

Lemma index_empty (s : string) : index 0 "" s = Some 0%nat.
Proof. destruct s; reflexivity. Qed.

Lemma length_app_string (a b : string) :
  String.length (a +:+ b) = (String.length a + String.length b)%nat.
Proof.
  induction a as [|ch a IH]; [reflexivity|].
  change (S (String.length (a +:+ b)) = S (String.length a + String.length b)).
  rewrite IH. reflexivity.
Qed.

Lemma index_cons (pattern : string) (b : ascii) (s : string) :
  index 0 pattern (String b s)
  = if String.prefix pattern (String b s) then Some 0%nat
    else match index 0 pattern s with Some n => Some (S n) | None => None end.
Proof. reflexivity. Qed.

Lemma prefix_cons (a b : ascii) (s1 s2 : string) :
  String.prefix (String a s1) (String b s2)
  = if ascii_dec a b then String.prefix s1 s2 else false.
Proof. reflexivity. Qed.

(** The first occurrence of [.ext] in [stem.ext] is after a stem without dots. *)
Lemma index_after_stem (stem ext : string) :
  forallb (fun c => negb (path.isDot c)) (list_ascii_of_string stem) = true ->
  index 0 ("." +:+ ext) (stem +:+ "." +:+ ext) = Some (String.length stem).
Proof.
  intros Hstem. induction stem as [|ch stem IH].
  - change (index 0 (String "." ext) (String "." ext) = Some 0%nat).
    rewrite index_cons, prefix_refl. reflexivity.
  - simpl in Hstem. apply andb_true_iff in Hstem as [Hch Hstem].
    change (index 0 (String "." ext) (String ch (stem +:+ "." +:+ ext))
            = Some (S (String.length stem))).
    rewrite index_cons, prefix_cons.
    destruct (ascii_dec "." ch) as [<-|_]; [discriminate|].
    change (String "." ext) with ("." +:+ ext). rewrite (IH Hstem). reflexivity.
Qed.

Lemma plain_slashFree (s : string) : plain s = true -> slashFree s = true.
Proof.
  unfold plain, slashFree. induction (list_ascii_of_string s) as [|c l IH]; simpl;
    [reflexivity|].
  rewrite !andb_true_iff. intros [[-> _] H]. auto.
Qed.

Lemma plain_dotFree (s : string) :
  plain s = true ->
  forallb (fun c => negb (path.isDot c)) (list_ascii_of_string s) = true.
Proof.
  unfold plain. induction (list_ascii_of_string s) as [|c l IH]; simpl;
    [reflexivity|].
  rewrite !andb_true_iff. intros [[_ ->] H]. auto.
Qed.

Lemma removeExt_plain (stem : string) :
  stem <> "" -> plain stem = true -> removeExt stem = stem.
Proof.
  intros Hne Hplain. unfold removeExt, path.basename, path.extname.
  rewrite (lastPortionRev_name stem Hne (plain_slashFree _ Hplain)).
  rewrite dropWhile_all by (rewrite forallb_rev; apply plain_dotFree, Hplain).
  rewrite rev_involutive, string_of_list_ascii_of_string.
  unfold replace. rewrite index_empty. simpl String.length.
  rewrite substring_empty, Nat.sub_0_r. apply substring_whole.
Qed.

Lemma removeExt_extension (stem ext : string) :
  stem <> "" -> plain stem = true -> plain ext = true ->
  removeExt (stem +:+ "." +:+ ext) = stem.
Proof.
  intros Hne Hstem Hext. unfold removeExt, path.basename, path.extname.
  assert (stem +:+ "." +:+ ext <> "") as Hne' by (destruct stem; [congruence | discriminate]).
  assert (slashFree (stem +:+ "." +:+ ext) = true) as Hfree.
  { pose proof (plain_slashFree _ Hstem) as H1. pose proof (plain_slashFree _ Hext) as H2.
    unfold slashFree in *. rewrite !chars_app, !forallb_app, H1, H2. reflexivity. }
  rewrite (lastPortionRev_name _ Hne' Hfree).
  rewrite rev_involutive, string_of_list_ascii_of_string.
  rewrite !chars_app, !rev_app_distr. simpl. rewrite <- !app_assoc. simpl.
  rewrite dropWhile_stop, takeWhile_stop;
    try reflexivity; try (rewrite forallb_rev; apply plain_dotFree, Hext).
  destruct (rev (list_ascii_of_string stem)) as [|c before] eqn:Hrev;
    [destruct (chars_nonempty stem Hne Hrev)|].
  destruct (String.eqb_spec (stem +:+ "." +:+ ext) "..") as [Hdots|_].
  { exfalso. destruct stem as [|ch stem]; [congruence|].
    injection Hdots as -> _. discriminate. }
  rewrite rev_involutive.
  change (string_of_list_ascii ("."%char :: list_ascii_of_string ext))
    with (String "." (string_of_list_ascii (list_ascii_of_string ext))).
  rewrite string_of_list_ascii_of_string.
  unfold replace. change (String "." ext) with ("." +:+ ext).
  rewrite (index_after_stem stem ext (plain_dotFree _ Hstem)).
  rewrite !length_app_string.
  replace (_ - _)%nat with 0%nat by (simpl; lia).
  rewrite substring_empty, substring_prefix.
  clear. induction stem as [|ch stem IH]; [reflexivity|].
  change (String ch (stem +:+ "" +:+ "") = String ch stem). rewrite IH. reflexivity.
Qed.

(** X4.  [removeExt] keeps the stem of a file name: for a non-empty stem
    without separator or dot and an extension without separator or dot,
    the stem alone, the stem with the extension, and either of them
    behind any directory prefix are all stripped to the stem.  So two
    files that differ only by directory or extension share one key. *)
Theorem removeExt_keeps_the_stem (dir stem ext : string) :
  stem <> "" -> plain stem = true -> plain ext = true ->
  removeExt stem = stem /\
  removeExt (stem +:+ "." +:+ ext) = stem /\
  removeExt (dir +:+ "/" +:+ stem) = stem /\
  removeExt (dir +:+ "/" +:+ stem +:+ "." +:+ ext) = stem.
Proof.
  intros Hne Hstem Hext.
  assert (stem +:+ "." +:+ ext <> "") as Hne' by (destruct stem; [congruence | discriminate]).
  assert (slashFree (stem +:+ "." +:+ ext) = true) as Hfree.
  { pose proof (plain_slashFree _ Hstem) as H1. pose proof (plain_slashFree _ Hext) as H2.
    unfold slashFree in *. rewrite !chars_app, !forallb_app, H1, H2. reflexivity. }
  split; [apply removeExt_plain; assumption|].
  split; [apply removeExt_extension; assumption|]. split.
  - rewrite <- (removeExt_plain stem Hne Hstem) at 2. apply removeExt_portion.
    rewrite lastPortionRev_directory, lastPortionRev_name;
      auto using plain_slashFree.
  - rewrite <- (removeExt_extension stem ext Hne Hstem Hext) at 2. apply removeExt_portion.
    rewrite lastPortionRev_directory, lastPortionRev_name; auto.
Qed.

Lemma removeExt_keeps_the_stem_witness :
  removeExt "lib/other-importable.ts" = "other-importable".
Proof.
  apply (removeExt_keeps_the_stem "lib" "other-importable" "ts");
    [discriminate | reflexivity | reflexivity].
Defined.

(** ** The virtual file table and the compiler host *)

Lemma last_filter_cons {A} (p : A -> bool) (x : A) (l : list A) :
  last (List.filter p (x :: l))
  = match last (List.filter p l) with
    | Some y => Some y
    | None => if p x then Some x else None
    end.
Proof.
  simpl. destruct (p x); [|destruct (last _); reflexivity].
  rewrite last_cons. reflexivity.
Qed.

Lemma fold_tsFileMap (l : list SourceFile) (m : gmap string SourceFile) (k : string) :
  fold_left (fun m f => <[removeExt (fileName f) := f]> m) l m !! k
  = match last (List.filter (filedUnder k) l) with
    | Some f => Some f
    | None => m !! k
    end.
Proof.
  revert m. induction l as [|f l IH]; intros m; [reflexivity|].
  cbn [fold_left]. rewrite IH, last_filter_cons.
  destruct (last (List.filter (filedUnder k) l)); [reflexivity|].
  unfold filedUnder. destruct (String.eqb_spec (removeExt (fileName f)) k) as [->|Hne].
  - apply lookup_insert_eq.
  - apply lookup_insert_ne, Hne.
Qed.

(** X5.  Looking a key up in the virtual file table gives the last
    additional source file whose stripped name is the key; only when there
    is none does the key of the harness give the harness unit and the key
    of the user unit the submitted source.  An additional file named after
    the user unit or the harness therefore takes its place. *)
Theorem file_table_lookup (user harness : SourceFile) (additional : list SourceFile)
    (key : string) :
  tsFileMap user harness additional !! key
  = match last (List.filter (filedUnder key) additional) with
    | Some f => Some f
    | None =>
        if String.eqb key EXECUTION_HARNESS_FILENAME then Some harness
        else if String.eqb key USER_CODE_FILENAME then Some user
        else None
    end.
Proof.
  unfold tsFileMap. rewrite fold_tsFileMap.
  destruct (last _); [reflexivity|].
  destruct (String.eqb_spec key EXECUTION_HARNESS_FILENAME) as [->|Hh].
  - apply lookup_insert_eq.
  - rewrite lookup_insert_ne by congruence.
    destruct (String.eqb_spec key USER_CODE_FILENAME) as [->|Hu].
    + apply lookup_insert_eq.
    + rewrite lookup_insert_ne by congruence. apply lookup_empty.
Qed.

Lemma last_filter_some {A} (p : A -> bool) (l : list A) (x : A) :
  In x l -> p x = true -> exists y, last (List.filter p l) = Some y /\ In y l /\ p y = true.
Proof.
  intros Hin Hp.
  destruct (last (List.filter p l)) as [y|] eqn:Hlast.
  - exists y. split; [reflexivity|].
    apply last_Some in Hlast as [l' Hl'].
    assert (In y (List.filter p l)) as Hy by (rewrite Hl'; apply in_app_iff; right; left; reflexivity).
    apply filter_In in Hy. exact Hy.
  - apply last_None in Hlast.
    assert (In x (List.filter p l)) as Hx by (apply filter_In; auto).
    rewrite Hlast in Hx. destruct Hx.
Qed.

(** X6.  Every root name [preProcess] hands to [createProgram] (the
    names of the additional source files, then the harness) exists for the
    compiler host, and [getSourceFile] and [readFile] answer it from the
    virtual file table, whatever the default host would say: with an
    additional file of the same stripped name, or with the harness unit
    for the harness name. *)
Theorem program_roots_are_served_from_the_table
    (user harness : SourceFile) (additional : list SourceFile)
    (defaultCompilerHost : DefaultCompilerHost) (name : string) :
  let table := tsFileMap user harness additional in
  In name (map fileName additional ++ [EXECUTION_HARNESS_FILENAME]) ->
  exists file,
    (In file additional /\ removeExt (fileName file) = removeExt name \/
     file = harness /\ name = EXECUTION_HARNESS_FILENAME) /\
    customCompilerHost.fileExists table name = true /\
    customCompilerHost.getSourceFile table defaultCompilerHost name = Some file /\
    customCompilerHost.readFile table defaultCompilerHost name = Some (text file).
Proof.
  cbv zeta. intros Hname.
  assert (exists file,
            tsFileMap user harness additional !! removeExt name = Some file /\
            (In file additional /\ removeExt (fileName file) = removeExt name \/
             file = harness /\ name = EXECUTION_HARNESS_FILENAME))
    as (file & Hfile & Horigin).
  { rewrite file_table_lookup. apply in_app_iff in Hname as [Hname|[<-|[]]].
    - apply in_map_iff in Hname as (f & <- & Hf).
      destruct (last_filter_some (filedUnder (removeExt (fileName f))) additional f Hf)
        as (g & -> & Hg & Hunder); [apply String.eqb_refl|].
      exists g. split; [reflexivity|]. left. split; [exact Hg|].
      apply String.eqb_eq, Hunder.
    - destruct (last (List.filter _ additional)) as [g|] eqn:Hlast.
      + exists g. split; [reflexivity|]. left.
        apply last_Some in Hlast as [l' Hl'].
        assert (In g (List.filter (filedUnder (removeExt EXECUTION_HARNESS_FILENAME))
                        additional)) as Hg
          by (rewrite Hl'; apply in_app_iff; right; left; reflexivity).
        apply filter_In in Hg as [Hg Hunder]. split; [exact Hg|].
        apply String.eqb_eq, Hunder.
      + exists harness. split; [reflexivity|]. right. split; reflexivity. }
  exists file. unfold customCompilerHost.fileExists, customCompilerHost.getSourceFile,
    customCompilerHost.readFile. cbv zeta. rewrite Hfile.
  split; [exact Horigin|]. split; [|split; reflexivity].
  apply bool_decide_eq_true. eauto.
Qed.

Lemma program_roots_witness :
  exists file,
    customCompilerHost.getSourceFile auxiliaryFiles
      {| defaultGetSourceFile _ := None; defaultReadFile _ := None |}
      "other-importable.ts" = Some file /\
    text file = auxiliarySource.
Proof.
  destruct (program_roots_are_served_from_the_table
              (createSourceFile (compilerOf functionRoot ["import 'other-importable';"]
                                   auxiliaryProgram) USER_CODE_FILENAME functionSource)
              (createSourceFile (compilerOf functionRoot ["import 'other-importable';"]
                                   auxiliaryProgram) EXECUTION_HARNESS_FILENAME
                 (executionCode [auxiliaryFile] ["string"; "number"] "string"))
              [auxiliaryFile]
              {| defaultGetSourceFile _ := None; defaultReadFile _ := None |}
              "other-importable.ts")
    as (file & Horigin & _ & Hsource & _).
  - left. reflexivity.
  - exists file. split; [exact Hsource|].
    destruct Horigin as [[[<-|[]] _]|[_ Hname]]; [reflexivity | discriminate Hname].
Defined.

Lemma fold_writeFile (compiler : Compiler) (writes : list (string * string))
    (state : gmap string string * option string) :
  let written := fold_left (writeFile compiler) writes state in
  (forall key,
     fst written !! key
     = if String.eqb key "__proto__" then fst state !! key
       else match last (List.filter (emitsUnit key) writes) with
            | Some call => Some (text (createSourceFile compiler key (snd call)))
            | None => fst state !! key
            end) /\
  snd written
  = match last (List.filter emitsUserSourceMap writes) with
    | Some call => Some (text (createSourceFile compiler USER_CODE_FILENAME (snd call)))
    | None => snd state
    end.
Proof.
  cbv zeta. revert state. induction writes as [|[name data] writes IH]; intros state.
  { split; [intros key; destruct (String.eqb key "__proto__")|]; reflexivity. }
  cbn [fold_left]. destruct (IH (writeFile compiler state (name, data))) as [IHjs IHmap].
  split.
  - intros key. rewrite IHjs, last_filter_cons.
    destruct (String.eqb_spec key "__proto__") as [->|Hkey].
    + unfold writeFile. cbn [fst snd].
      destruct (endsWith name ".map").
      * destruct (String.eqb _ USER_CODE_FILENAME); reflexivity.
      * destruct (String.eqb_spec (removeExt name) "__proto__") as [_|Hne]; [reflexivity|].
        cbn [fst]. apply lookup_insert_ne, Hne.
    + destruct (last (List.filter (emitsUnit key) writes)); [reflexivity|].
      unfold writeFile, emitsUnit, isSourceMap. cbn [fst snd].
      destruct (endsWith name ".map"); cbn [negb andb].
      * destruct (String.eqb _ USER_CODE_FILENAME); reflexivity.
      * destruct (String.eqb_spec (removeExt name) "__proto__") as [Hproto|_].
        { destruct (String.eqb_spec (removeExt name) key) as [Heq|_]; [|reflexivity].
          congruence. }
        cbn [fst]. destruct (String.eqb_spec (removeExt name) key) as [->|Hne].
        { rewrite lookup_insert_eq. reflexivity. }
        apply lookup_insert_ne, Hne.
  - rewrite IHmap, last_filter_cons.
    destruct (last (List.filter emitsUserSourceMap writes)); [reflexivity|].
    unfold writeFile, emitsUserSourceMap, isSourceMap. cbn [fst snd].
    destruct (endsWith name ".map"); cbn [negb andb].
    + destruct (String.eqb_spec (removeExt (removeExt name)) USER_CODE_FILENAME) as [->|_];
        reflexivity.
    + destruct (String.eqb (removeExt name) "__proto__"); reflexivity.
Qed.

(** ** What [preProcess] returns *)

Section Collected.

Variable sources : gmap string SourceFile.
Variable typeChecker : TypeChecker.
Variable mapMessage : Diagnostic -> list string.

Lemma forEach_onPreEmit_inv l acc acc' :
  forEach (onPreEmitDiagnostic sources typeChecker mapMessage) l acc = Returned acc' ->
  exists new,
    acc' = acc ++ new /\
    Forall2 (builtFrom sources typeChecker mapMessage) (List.filter hasFile l) new /\
    Forall (fun d => hasFile d = true \/ ignorable d = true) l.
Proof.
  revert acc. induction l as [|d l IH]; intros acc Hrun; simpl in Hrun.
  - injection Hrun as <-. exists []. rewrite app_nil_r. repeat constructor.
  - invert Hrun as acc1 Hd. destruct (IH _ Hrun) as (new & -> & Hnew & Hall).
    unfold onPreEmitDiagnostic in Hd. cbn [List.filter].
    destruct (file d) as [f|] eqn:Hfile.
    + assert (hasFile d = true) as Hhas by (unfold hasFile; rewrite Hfile; reflexivity).
      rewrite Hhas. invert Hd as e He. injection Hd as <-. exists (e :: new).
      rewrite <- app_assoc. split; [reflexivity|].
      split; constructor; [exact He | exact Hnew | left; exact Hhas | exact Hall].
    + assert (hasFile d = false) as Hhas by (unfold hasFile; rewrite Hfile; reflexivity).
      rewrite Hhas. destruct (isImplicitLibImport _) eqn:Himplicit; [|discriminate].
      injection Hd as <-. exists new. split; [reflexivity|]. split; [exact Hnew|].
      constructor; [|exact Hall]. right. unfold ignorable. rewrite Hhas, Himplicit.
      reflexivity.
Qed.

Lemma forEach_onEmit_inv l acc acc' :
  forEach (onEmitDiagnostic sources typeChecker mapMessage) l acc = Returned acc' ->
  exists new,
    acc' = acc ++ new /\
    Forall2 (builtFrom sources typeChecker mapMessage) l new /\
    Forall (fun d => hasFile d = true) l.
Proof.
  revert acc. induction l as [|d l IH]; intros acc Hrun; simpl in Hrun.
  - injection Hrun as <-. exists []. rewrite app_nil_r. repeat constructor.
  - invert Hrun as acc1 Hd. destruct (IH _ Hrun) as (new & -> & Hnew & Hall).
    unfold onEmitDiagnostic in Hd.
    destruct (file d) as [f|] eqn:Hfile; [|discriminate].
    assert (hasFile d = true) as Hhas by (unfold hasFile; rewrite Hfile; reflexivity).
    invert Hd as e He. injection Hd as <-. exists (e :: new).
    rewrite <- app_assoc. split; [reflexivity|].
    split; constructor; [exact He | exact Hnew | exact Hhas | exact Hall].
Qed.

Lemma forEach_onPreEmit_ignorable l acc :
  Forall (fun d => ignorable d = true) l ->
  forEach (onPreEmitDiagnostic sources typeChecker mapMessage) l acc = Returned acc.
Proof.
  induction 1 as [|d l Hd _ IH]; [reflexivity|]. simpl.
  unfold onPreEmitDiagnostic. unfold ignorable, hasFile in Hd.
  destruct (file d); [discriminate|]. cbn [negb andb] in Hd. rewrite Hd. exact IH.
Qed.

End Collected.

Lemma filter_all {A} (p : A -> bool) (l : list A) :
  Forall (fun x => p x = true) l -> List.filter p l = l.
Proof. induction 1 as [|x l Hx _ IH]; simpl; [|rewrite Hx, IH]; reflexivity. Qed.

(** What a returning [preProcess] has gone through. *)
Lemma preProcess_returned compiler runner userCode outputType argsTypes
    additionalSourceFiles result :
  preProcess compiler runner userCode outputType argsTypes additionalSourceFiles
  = Returned result ->
  let compiled := compile compiler userCode outputType argsTypes additionalSourceFiles in
  let program := snd compiled in
  exists errors,
    Forall2 (builtFrom (fst compiled) (getTypeChecker program) (mapDiagnosticMessage runner))
      (List.filter hasFile (getPreEmitDiagnostics program) ++ emitDiagnostics program)
      errors /\
    Forall (fun d => hasFile d = true \/ ignorable d = true) (getPreEmitDiagnostics program) /\
    Forall (fun d => hasFile d = true) (emitDiagnostics program) /\
    result = match errors with
             | [] => Ok (emittedArtifacts compiler program)
             | _ => Err errors
             end.
Proof.
  unfold preProcess. intros H. cbv zeta.
  destruct (compile compiler userCode outputType argsTypes additionalSourceFiles)
    as [files program]. cbn [fst snd] in *.
  invert H as collected Hpre. invert H as errors Hemit.
  apply forEach_onPreEmit_inv in Hpre as (new1 & -> & Hnew1 & Hall1).
  apply forEach_onEmit_inv in Hemit as (new2 & -> & Hnew2 & Hall2).
  exists (new1 ++ new2). split; [apply Forall2_app; assumption|].
  split; [exact Hall1|]. split; [exact Hall2|].
  simpl in H. destruct (new1 ++ new2) as [|e rest]; simpl in H.
  - injection H as <-. reflexivity.
  - injection H as <-. reflexivity.
Qed.

(** X8.  [preProcess] returns [Ok] exactly when every pre-emit
    diagnostic is a file-less diagnostic mentioning code 1420 and the emit
    reports no diagnostic at all; the value is then what the emit wrote
    into [jsFileMap] and [userCodeSourceMap]. *)
Theorem preProcess_ok_exactly_when_nothing_to_report
    (compiler : Compiler) (runner : UserCodeRunner)
    (userCode outputType : string) (argsTypes : list string)
    (additionalSourceFiles : list SourceFile) (item : CacheItem) :
  let program :=
    snd (compile compiler userCode outputType argsTypes additionalSourceFiles) in
  preProcess compiler runner userCode outputType argsTypes additionalSourceFiles
  = Returned (Ok item) <->
  Forall (fun d => ignorable d = true) (getPreEmitDiagnostics program) /\
  emitDiagnostics program = [] /\
  item = emittedArtifacts compiler program.
Proof.
  cbv zeta. split.
  - intros H. apply preProcess_returned in H. cbv zeta in H.
    destruct H as (errors & Hbuilt & Hpre & Hemit & Hresult).
    destruct errors as [|e rest]; [|discriminate]. injection Hresult as ->.
    apply Forall2_nil_inv_r in Hbuilt. apply app_eq_nil in Hbuilt as [Hnone ->].
    split; [|split; reflexivity].
    rewrite Forall_forall in Hpre. apply Forall_forall. intros d Hd.
    destruct (Hpre d Hd) as [Hhas|Hign]; [|exact Hign].
    assert (In d (List.filter hasFile
                    (getPreEmitDiagnostics
                       (snd (compile compiler userCode outputType argsTypes
                               additionalSourceFiles))))) as Hin
      by (apply filter_In; split; [apply list_elem_of_In, Hd | exact Hhas]).
    rewrite Hnone in Hin. destruct Hin.
  - intros (Hpre & Hemit & ->). unfold preProcess, emittedArtifacts.
    destruct (compile compiler userCode outputType argsTypes additionalSourceFiles)
      as [files program]. cbn [fst snd] in *.
    rewrite forEach_onPreEmit_ignorable by exact Hpre. rewrite Hemit. reflexivity.
Qed.

(** X9.  When [preProcess] returns [Err], the list is not empty and
    holds, in order, one error built by [UserCodeTypeError.new] for each
    pre-emit diagnostic that has a file followed by one for each emit
    diagnostic; every file-less pre-emit diagnostic mentioned code 1420,
    every emit diagnostic had a file, and every error is a type error
    carrying a diagnostic. *)
Theorem preProcess_reports_in_order
    (compiler : Compiler) (runner : UserCodeRunner)
    (userCode outputType : string) (argsTypes : list string)
    (additionalSourceFiles : list SourceFile) (errors : list UserCodeError) :
  let compiled := compile compiler userCode outputType argsTypes additionalSourceFiles in
  let program := snd compiled in
  preProcess compiler runner userCode outputType argsTypes additionalSourceFiles
  = Returned (Err errors) ->
  errors <> [] /\
  Forall2 (builtFrom (fst compiled) (getTypeChecker program) (mapDiagnosticMessage runner))
    (List.filter hasFile (getPreEmitDiagnostics program) ++ emitDiagnostics program)
    errors /\
  Forall (fun d => hasFile d = true \/ ignorable d = true) (getPreEmitDiagnostics program) /\
  Forall (fun d => hasFile d = true) (emitDiagnostics program) /\
  Forall (fun e => is_Some (errorDiagnostic e)) errors.
Proof.
  cbv zeta. intros H. apply preProcess_returned in H. cbv zeta in H.
  destruct H as (errors' & Hbuilt & Hpre & Hemit & Hresult).
  destruct errors' as [|e rest]; [discriminate|]. injection Hresult as ->.
  split; [discriminate|]. split; [exact Hbuilt|]. split; [exact Hpre|].
  split; [exact Hemit|].
  eapply Forall2_Forall_r; [exact Hbuilt|]. apply Forall_forall.
  intros d _ e' Hnew. unfold builtFrom, UserCodeTypeError_new in Hnew.
  destruct (String.eqb _ _).
  - invert Hnew as relocated Hrelocated. injection Hnew as <-. simpl. eauto.
  - injection Hnew as <-. simpl. eauto.
Qed.

Lemma built_is_type_error sources typeChecker mapMessage d e :
  builtFrom sources typeChecker mapMessage d e -> is_Some (errorDiagnostic e).
Proof.
  unfold builtFrom, UserCodeTypeError_new. destruct (String.eqb _ _); intros Hnew.
  - invert Hnew as relocated Hrelocated. injection Hnew as <-. simpl. eauto.
  - injection Hnew as <-. simpl. eauto.
Qed.

Lemma execute_err_inv vm jsFileMap sourceMap args timeout context context' errors :
  executeUserCodeFromArtifacts vm jsFileMap sourceMap args timeout context
  = (context', Returned (Err errors)) ->
  exists error consumer,
    newSourceMapConsumer vm sourceMap = Returned consumer /\
    UserCodeRuntimeError.new error consumer
    = Returned (UserCodeRuntimeError error consumer (parse error)) /\
    errors = [UserCodeRuntimeError error consumer (parse error)].
Proof.
  unfold executeUserCodeFromArtifacts.
  destruct (linkHarness vm jsFileMap) as [harnessModule|m]; [|discriminate].
  destruct (evaluate vm harnessModule timeout _) as [evaluated [error|]];
    [|discriminate].
  intros [= _ H]. invert H as consumer Hconsumer. invert H as e He. injection H as <-.
  exists error, consumer. split; [exact Hconsumer|].
  pose proof He as Hnew. apply new_returned in Hnew as (_ & -> & _).
  split; [exact He | reflexivity].
Qed.

(** X11.  An [Err] returned by [executeUserCode] is one of two things:
    the non-empty list of type errors [preProcess] returned, with the
    context exactly as the caller passed it; or, after a compilation that
    returned [Ok], a single runtime error whose parsed stack has a frame of
    the user unit. *)
Theorem failures_of_executeUserCode
    (compiler : Compiler) (vm : Vm) (runner : UserCodeRunner)
    (userCode : string) (args : JsValue) (outputType : string)
    (argsTypes : list string) (timeout : Z)
    (additionalSourceFiles : list SourceFile)
    (context context' : gmap string JsValue) (errors : list UserCodeError) :
  let compiled :=
    preProcess compiler runner userCode outputType argsTypes additionalSourceFiles in
  executeUserCode compiler vm runner userCode args outputType argsTypes timeout
    additionalSourceFiles context
  = (context', Returned (Err errors)) ->
  (compiled = Returned (Err errors) /\ context' = context /\ errors <> [] /\
   Forall (fun e => is_Some (errorDiagnostic e)) errors) \/
  (exists artifacts error consumer frame,
     compiled = Returned (Ok artifacts) /\
     newSourceMapConsumer vm (userCodeSourceMap artifacts) = Returned consumer /\
     errors = [UserCodeRuntimeError error consumer (parse error)] /\
     In frame (parse error) /\ getFileName frame = Some USER_CODE_FILENAME).
Proof.
  cbv zeta. unfold executeUserCode.
  destruct (preProcess compiler runner userCode outputType argsTypes additionalSourceFiles)
    as [[artifacts|errors']|m] eqn:Hpre; [| |discriminate].
  - intros Hrun. right.
    apply execute_err_inv in Hrun as (error & consumer & Hconsumer & Hnew & ->).
    apply new_returned in Hnew as (_ & _ & frame & Hfind).
    apply List.find_some in Hfind as [Hin Huser].
    unfold UserCodeRuntimeError.inUserFile in Huser. rewrite bool_decide_eq_true in Huser.
    exists artifacts, error, consumer, frame. auto.
  - intros [= <- <-]. left. split; [reflexivity|]. split; [reflexivity|].
    apply preProcess_returned in Hpre. cbv zeta in Hpre.
    destruct Hpre as (built & Hbuilt & _ & _ & Hresult).
    destruct built as [|e rest]; [discriminate|]. injection Hresult as ->.
    split; [discriminate|].
    eapply Forall2_Forall_r; [exact Hbuilt|]. apply Forall_forall.
    intros d _ e' Hnew. eapply built_is_type_error, Hnew.
Qed.

Lemma forEach_onPreEmit_returns sources typeChecker mapMessage l acc :
  Forall (fun d => ignorable d = true \/ hasFile d = true /\ isHarnessDiagnostic d = false) l ->
  exists acc',
    forEach (onPreEmitDiagnostic sources typeChecker mapMessage) l acc = Returned acc'.
Proof.
  intros Hl. revert acc. induction Hl as [|d l Hd _ IH]; intros acc; [eexists; reflexivity|].
  cbn [forEach].
  assert (exists acc1,
            onPreEmitDiagnostic sources typeChecker mapMessage acc d = Returned acc1)
    as [acc1 ->]; [|apply IH].
  unfold onPreEmitDiagnostic. unfold ignorable, hasFile in Hd.
  destruct (file d) as [f|] eqn:Hfile.
  - destruct Hd as [Hd|[_ Hd]]; [discriminate|].
    rewrite UserCodeTypeError_new_outside; [eexists; reflexivity|].
    unfold outsideHarness. unfold isHarnessDiagnostic in Hd. apply String.eqb_neq, Hd.
  - destruct Hd as [Hd|[Hd _]]; [|discriminate]. cbn [negb andb] in Hd.
    rewrite Hd. eexists. reflexivity.
Qed.

(** X10.  When the pre-emit diagnostics before a file-less diagnostic
    without code 1420 are all skipped or located outside the harness,
    [preProcess] throws an error whose message is [Unhandled diagnostic: ]
    followed by that diagnostic's code, a space and its flattened message
    text. *)
Theorem first_unhandled_diagnostic_is_named
    (compiler : Compiler) (runner : UserCodeRunner)
    (userCode outputType : string) (argsTypes : list string)
    (additionalSourceFiles : list SourceFile)
    (before after : list Diagnostic) (d : Diagnostic) :
  let program :=
    snd (compile compiler userCode outputType argsTypes additionalSourceFiles) in
  getPreEmitDiagnostics program = before ++ d :: after ->
  Forall (fun x => ignorable x = true \/ hasFile x = true /\ isHarnessDiagnostic x = false)
    before ->
  file d = None ->
  isImplicitLibImport (getDiagnosticCodes d) = false ->
  preProcess compiler runner userCode outputType argsTypes additionalSourceFiles
  = Raised ("Unhandled diagnostic: " +:+ numberToString (code d) +:+ " " +:+
            flattenDiagnosticMessageText (messageText d)).
Proof.
  cbv zeta. unfold preProcess.
  destruct (compile compiler userCode outputType argsTypes additionalSourceFiles)
    as [files program]. cbn [fst snd]. intros -> Hbefore Hfile Hcodes.
  rewrite forEach_app.
  destruct (forEach_onPreEmit_returns files (getTypeChecker program)
              (mapDiagnosticMessage runner) before [] Hbefore) as [acc ->].
  cbn [mbind outcome_bind Js.bind forEach].
  assert (onPreEmitDiagnostic files (getTypeChecker program) (mapDiagnosticMessage runner)
            acc d = Raised (unhandledDiagnostic d)) as ->
    by (unfold onPreEmitDiagnostic; rewrite Hfile, Hcodes; reflexivity).
  reflexivity.
Qed.

Lemma first_unhandled_diagnostic_witness :
  preProcess (compilerOf functionRoot [] optionsProgram) runner functionSource
    "string" ["string"; "number"] []
  = Raised "Unhandled diagnostic: 5023 Unknown compiler option 'sourcemap'.".
Proof.
  apply (first_unhandled_diagnostic_is_named (compilerOf functionRoot [] optionsProgram)
           runner functionSource "string" ["string"; "number"] [] [] [] optionsDiagnostic).
  - reflexivity.
  - constructor.
  - reflexivity.
  - reflexivity.
Defined.

(** X7.  The artifacts of a [preProcess] that returns [Ok] are the last
    writes of the emit: under a key other than [__proto__], [jsFileMap]
    holds the text of the last written file that is not a source map and
    whose stripped name is the key, and nothing when there is none; under
    [__proto__] the plain object holds nothing, whatever was written;
    [userCodeSourceMap] is the text of the last written source map whose
    name, stripped twice, is the user unit, and is undefined when there is
    none. *)
Theorem artifacts_are_the_last_writes
    (compiler : Compiler) (runner : UserCodeRunner)
    (userCode outputType : string) (argsTypes : list string)
    (additionalSourceFiles : list SourceFile) (item : CacheItem) :
  let program :=
    snd (compile compiler userCode outputType argsTypes additionalSourceFiles) in
  preProcess compiler runner userCode outputType argsTypes additionalSourceFiles
  = Returned (Ok item) ->
  (forall key,
     jsFileMap item !! key
     = if String.eqb key "__proto__" then None
       else (fun call => text (createSourceFile compiler key (snd call)))
              <$> last (List.filter (emitsUnit key) (emitWrites program))) /\
  userCodeSourceMap item
  = (fun call => text (createSourceFile compiler USER_CODE_FILENAME (snd call)))
      <$> last (List.filter emitsUserSourceMap (emitWrites program)).
Proof.
  cbv zeta. intros H. apply preProcess_returned in H. cbv zeta in H. revert H.
  generalize (snd (compile compiler userCode outputType argsTypes additionalSourceFiles)).
  intros program (errors & _ & _ & _ & Hresult).
  destruct errors as [|e rest]; [|discriminate]. injection Hresult as ->.
  pose proof (fold_writeFile compiler (emitWrites program) (∅, None)) as Hfold.
  cbv zeta in Hfold. destruct Hfold as [Hjs Hmap].
  change (jsFileMap (emittedArtifacts compiler program))
    with (fst (fold_left (writeFile compiler) (emitWrites program) (∅, None))).
  change (userCodeSourceMap (emittedArtifacts compiler program))
    with (snd (fold_left (writeFile compiler) (emitWrites program) (∅, None))).
  split.
  - intros key. rewrite Hjs. cbn [fst]. rewrite lookup_empty.
    destruct (String.eqb key "__proto__"); [reflexivity|].
    destruct (last _); reflexivity.
  - rewrite Hmap. destruct (last _); reflexivity.
Qed.

Lemma artifacts_are_the_last_writes_witness :
  let compiler := compilerOf functionRoot [] implicitLibraryBeforeEmit in
  let item := emittedArtifacts compiler (implicitLibraryBeforeEmit ∅) in
  jsFileMap item !! "__execution_harness"
  = Some "import defaultExport from '__user_file'; __result = defaultExport(...__args);" /\
  jsFileMap item !! "__user_file.js" = None /\
  jsFileMap item !! "__proto__" = None /\
  userCodeSourceMap item = Some "{ mappings }".
Proof.
  destruct (artifacts_are_the_last_writes
              (compilerOf functionRoot [] implicitLibraryBeforeEmit) runner functionSource
              "string" ["string"; "number"] []
              (emittedArtifacts (compilerOf functionRoot [] implicitLibraryBeforeEmit)
                 (implicitLibraryBeforeEmit ∅))) as [Hjs Hmap].
  - vm_compute. reflexivity.
  - cbv zeta. rewrite !Hjs, Hmap. vm_compute. auto.
Defined.

Lemma preProcess_ok_witness :
  preProcess (compilerOf functionRoot [] implicitLibraryBeforeEmit) runner functionSource
    "string" ["string"; "number"] []
  = Returned (Ok (emittedArtifacts (compilerOf functionRoot [] implicitLibraryBeforeEmit)
                    (implicitLibraryBeforeEmit ∅))).
Proof.
  apply (preProcess_ok_exactly_when_nothing_to_report
           (compilerOf functionRoot [] implicitLibraryBeforeEmit) runner functionSource
           "string" ["string"; "number"] []).
  split; [|split; reflexivity]. repeat constructor.
Defined.

Lemma preProcess_reports_in_order_witness :
  let errors :=
    map (fun d => ExecutionHarnessTypeError d signatureFiles functionChecker
                    (mapDiagnosticMessage runner))
      [relocatedReturn; relocatedCall] in
  errors <> [] /\
  Forall2 (builtFrom signatureFiles functionChecker (mapDiagnosticMessage runner))
    [returnDiagnostic; callDiagnostic] errors.
Proof.
  destruct (preProcess_reports_in_order (compilerOf functionRoot [] signatureProgram)
              runner functionSource "number" ["string"] []
              (map (fun d => ExecutionHarnessTypeError d signatureFiles functionChecker
                               (mapDiagnosticMessage runner))
                 [relocatedReturn; relocatedCall]))
    as (Hsome & Hbuilt & _).
  - vm_compute. reflexivity.
  - split; [exact Hsome | exact Hbuilt].
Defined.

Lemma failures_of_executeUserCode_witness :
  let errors :=
    map (fun d => ExecutionHarnessTypeError d signatureFiles functionChecker
                    (mapDiagnosticMessage runner))
      [relocatedReturn; relocatedCall] in
  let context : gmap string JsValue := {[ "shared" := JsNumber 1 ]} in
  (preProcess (compilerOf functionRoot [] signatureProgram) runner functionSource
     "number" ["string"] [] = Returned (Err errors) /\
   context = context /\ errors <> [] /\
   Forall (fun e => is_Some (errorDiagnostic e)) errors) \/
  (exists artifacts error consumer frame,
     preProcess (compilerOf functionRoot [] signatureProgram) runner functionSource
       "number" ["string"] [] = Returned (Ok artifacts) /\
     newSourceMapConsumer (vmOf (returns (JsString "hello world")))
       (userCodeSourceMap artifacts) = Returned consumer /\
     errors = [UserCodeRuntimeError error consumer (parse error)] /\
     In frame (parse error) /\ getFileName frame = Some USER_CODE_FILENAME).
Proof.
  apply (failures_of_executeUserCode (compilerOf functionRoot [] signatureProgram)
           (vmOf (returns (JsString "hello world"))) runner functionSource
           (JsArray [JsString "hello"]) "number" ["string"] 5000 []
           {[ "shared" := JsNumber 1 ]}).
  vm_compute. reflexivity.
Defined.

(** ** Linking and running *)

Lemma createModules_keys (vm : Vm) (jsFileMap : gmap string string)
    (moduleCache : gmap string Module) :
  createModules vm jsFileMap = Returned moduleCache ->
  forall key m,
    moduleCache !! key = Some m ->
    exists content,
      jsFileMap !! key = Some content /\ SourceTextModule vm content key = Returned m.
Proof.
  unfold createModules. intros Hrun.
  eapply (forEach_invariant _
            (fun cache => forall key m, cache !! key = Some m ->
               exists content, jsFileMap !! key = Some content /\
                               SourceTextModule vm content key = Returned m));
    [| |exact Hrun].
  - intros cache [name content] cache' Hin Hcache Hstep key m. cbn [fst snd] in Hstep.
    invert Hstep as built Hbuilt. injection Hstep as <-.
    destruct (decide (name = key)) as [->|Hne].
    + rewrite lookup_insert_eq. intros [= ->]. exists content. split; [|exact Hbuilt].
      apply elem_of_map_to_list, list_elem_of_In, Hin.
    + rewrite lookup_insert_ne by exact Hne. apply Hcache.
  - intros key m. rewrite lookup_empty. discriminate.
Qed.

(** X13.  When the emitted files lack the harness module, or when
    [vm.SourceTextModule] throws for one of them,
    [executeUserCodeFromArtifacts] throws before anything is evaluated, and
    the caller's context is left with [__args] and [__result] bound. *)
Theorem modules_that_cannot_be_linked
    (vm : Vm) (jsFileMap : gmap string string) (sourceMap : option string)
    (args : JsValue) (timeout : Z) (context : gmap string JsValue) :
  jsFileMap !! EXECUTION_HARNESS_FILENAME = None \/
  (exists key content,
     jsFileMap !! key = Some content /\ isRaised (SourceTextModule vm content key)) ->
  let result :=
    executeUserCodeFromArtifacts vm jsFileMap sourceMap args timeout context in
  isRaised (snd result) /\ fst result = withBindings args context.
Proof.
  intros Hbroken. cbv zeta. unfold executeUserCodeFromArtifacts.
  assert (isRaised (linkHarness vm jsFileMap)) as [m ->]; [|split; [exists m|]; reflexivity].
  unfold linkHarness. destruct Hbroken as [Hmissing|(key & content & Hkey & Hraises)].
  - destruct (createModules vm jsFileMap) as [moduleCache|m] eqn:Hmodules;
      [|exists m; reflexivity].
    destruct (moduleCache !! EXECUTION_HARNESS_FILENAME) as [harnessModule|] eqn:Hharness.
    + destruct (createModules_keys _ _ _ Hmodules _ _ Hharness) as (content & Hcontent & _).
      congruence.
    + exists undefinedError. simpl. rewrite Hharness. reflexivity.
  - apply isRaised_bind_l. unfold createModules.
    apply (forEach_raises _ _ (key, content)).
    + apply list_elem_of_In, elem_of_map_to_list, Hkey.
    + intros cache. apply isRaised_bind_l. exact Hraises.
Qed.

Lemma modules_that_cannot_be_linked_witness :
  let result :=
    executeUserCodeFromArtifacts (vmOf (returns (JsString "hello world")))
      {[ "__user_file" := "export default function f() {}" ]} None (JsArray []) 5000 ∅ in
  isRaised (snd result) /\ fst result = withBindings (JsArray []) ∅.
Proof.
  apply (modules_that_cannot_be_linked (vmOf (returns (JsString "hello world")))
           {[ "__user_file" := "export default function f() {}" ]} None
           (JsArray []) 5000 ∅).
  left. vm_compute. reflexivity.
Defined.

(** X12.  When [executeUserCodeFromArtifacts] returns [Ok], the harness
    was linked and its evaluation did not throw; the value is what
    evaluation left in [__result] ([undefined] when nothing is bound); the
    context handed back binds neither [__args] nor [__result], whatever the
    caller had bound to them before, and agrees with the evaluated context
    on every other name. *)
Theorem successful_run_removes_both_bindings
    (vm : Vm) (jsFileMap : gmap string string) (sourceMap : option string)
    (args : JsValue) (timeout : Z) (context context' : gmap string JsValue)
    (value : JsValue) :
  executeUserCodeFromArtifacts vm jsFileMap sourceMap args timeout context
  = (context', Returned (Ok value)) ->
  exists harnessModule evaluated,
    linkHarness vm jsFileMap = Returned harnessModule /\
    evaluate vm harnessModule timeout (withBindings args context) = (evaluated, None) /\
    value = default JsUndefined (evaluated !! "__result") /\
    context' !! "__args" = None /\
    context' !! "__result" = None /\
    forall name, name <> "__args" -> name <> "__result" ->
                 context' !! name = evaluated !! name.
Proof.
  unfold executeUserCodeFromArtifacts. fold (withBindings args context).
  destruct (linkHarness vm jsFileMap) as [harnessModule|m]; [|discriminate].
  destruct (evaluate vm harnessModule timeout (withBindings args context))
    as [evaluated [error|]] eqn:Heval.
  - intros [= _ H]. invert H as consumer Hconsumer. invert H as e He. discriminate.
  - intros [= <- <-]. exists harnessModule, evaluated.
    split; [reflexivity|]. split; [exact Heval|]. split; [reflexivity|].
    split; [|split].
    + rewrite lookup_delete_ne by discriminate. apply lookup_delete_eq.
    + apply lookup_delete_eq.
    + intros name Hargs Hresult. rewrite !lookup_delete_ne by congruence. reflexivity.
Qed.

Lemma successful_run_witness :
  exists harnessModule evaluated,
    linkHarness (vmOf (returns (JsString "hello world"))) artifacts = Returned harnessModule /\
    evaluate (vmOf (returns (JsString "hello world"))) harnessModule 5000
      (withBindings (JsArray [JsString "hello"]) {[ "__args" := JsNumber 7 ]})
    = (evaluated, None) /\
    JsString "hello world" = default JsUndefined (evaluated !! "__result") /\
    (∅ : gmap string JsValue) !! "__args" = None /\
    (∅ : gmap string JsValue) !! "__result" = None /\
    forall name, name <> "__args" -> name <> "__result" ->
                 (∅ : gmap string JsValue) !! name = evaluated !! name.
Proof.
  apply (successful_run_removes_both_bindings (vmOf (returns (JsString "hello world")))
           artifacts (Some "{ mappings }") (JsArray [JsString "hello"]) 5000
           {[ "__args" := JsNumber 7 ]} ∅ (JsString "hello world")).
  vm_compute. reflexivity.
Defined.

Lemma createModules_entries (vm : Vm) (entries : list (string * string))
    (cache cache' : gmap string Module) :
  NoDup (map fst entries) ->
  forEach (fun (moduleCache : gmap string Module) (entry : string * string) =>
             m ← SourceTextModule vm (snd entry) (fst entry);
             mret (<[fst entry := m]> moduleCache)) entries cache
  = Returned cache' ->
  forall key,
    (forall content, In (key, content) entries ->
       exists m, SourceTextModule vm content key = Returned m /\ cache' !! key = Some m) /\
    (~ In key (map fst entries) -> cache' !! key = cache !! key).
Proof.
  intros Hnodup. revert cache.
  induction entries as [|[name content] entries IH]; intros cache Hrun key.
  - injection Hrun as <-. split; [intros ? []|reflexivity].
  - cbn [map fst] in Hnodup. apply NoDup_cons in Hnodup as [Hfresh Hnodup].
    rewrite list_elem_of_In in Hfresh.
    cbn [forEach fst snd] in Hrun. invert Hrun as cache1 Hstep.
    invert Hstep as built Hbuilt. injection Hstep as <-.
    destruct (IH Hnodup _ Hrun key) as [Hin Hout]. split.
    + intros content' [[= <- <-]|Hlater]; [|apply Hin, Hlater].
      exists built. split; [exact Hbuilt|].
      rewrite (Hout Hfresh). apply lookup_insert_eq.
    + cbn [map fst]. intros Hkey. simpl in Hkey. rewrite Hout by tauto.
      apply lookup_insert_ne. tauto.
Qed.

(** X19.  Once the modules of the emitted files are built, the resolver
    handed to [link] answers a specifier by its stripped name: with the
    module built from the emitted file of that name when there is one, and
    by throwing [Unable to resolve dependency: <specifier>] when there is
    none. *)
Theorem resolver_answers_from_the_emitted_files
    (vm : Vm) (jsFileMap : gmap string string) (moduleCache : gmap string Module)
    (specifier : string) :
  createModules vm jsFileMap = Returned moduleCache ->
  match jsFileMap !! removeExt specifier with
  | Some content =>
      exists m,
        SourceTextModule vm content (removeExt specifier) = Returned m /\
        resolveDependency moduleCache specifier = Returned m
  | None =>
      resolveDependency moduleCache specifier
      = Raised ("Unable to resolve dependency: " +:+ specifier)
  end.
Proof.
  unfold createModules. intros Hrun.
  assert (NoDup (map fst (map_to_list jsFileMap))) as Hnodup
    by apply NoDup_fst_map_to_list.
  destruct (createModules_entries _ _ _ _ Hnodup Hrun (removeExt specifier)) as [Hin Hout].
  unfold resolveDependency. cbv zeta.
  destruct (jsFileMap !! removeExt specifier) as [content|] eqn:Hkey.
  - destruct (Hin content) as (m & Hbuilt & ->).
    + apply list_elem_of_In, elem_of_map_to_list, Hkey.
    + exists m. split; [exact Hbuilt | reflexivity].
  - rewrite Hout, lookup_empty; [reflexivity|].
    intros Hmember. apply in_map_iff in Hmember as ([name content] & Hname & Hentry).
    simpl in Hname. subst name.
    apply list_elem_of_In, elem_of_map_to_list in Hentry. congruence.
Qed.

Lemma resolver_witness :
  exists m,
    SourceTextModule (vmOf (returns (JsString "hello world")))
      "export default function MyDSLFunction(thing, other) { return thing + ' world'; }"
      "__user_file" = Returned m /\
    resolveDependency
      {[ "__user_file" :=
           MkModule "__user_file"
             "export default function MyDSLFunction(thing, other) { return thing + ' world'; }";
         "__execution_harness" :=
           MkModule "__execution_harness"
             "import defaultExport from '__user_file'; __result = defaultExport(...__args);" ]}
      "./__user_file.js" = Returned m.
Proof.
  apply (resolver_answers_from_the_emitted_files (vmOf (returns (JsString "hello world")))
           artifacts _ "./__user_file.js").
  vm_compute. reflexivity.
Defined.

(** ** Relocated harness diagnostics *)

(** X14.  A harness diagnostic, wherever it sits in the harness, for a
    default export that exists but whose type has no call signature,
    becomes an error whose diagnostic is attributed to the user unit, spans
    the default export node and reads [Default export is not a valid
    function. ...] with the expected signature; its message is that
    diagnostic behind the [TypeError: TS<code>] tag and its location is the
    start of the export node read against the user unit. *)
Theorem value_default_export_is_relocated
    (sources : gmap string SourceFile) (typeChecker : TypeChecker)
    (mapMessage : Diagnostic -> list string) (d : Diagnostic)
    (harness : SourceFile) (exportNode : Node) (signature : string) :
  let relocated :=
    {| file := sources !! USER_CODE_FILENAME;
       start := Some (getStart exportNode);
       length := Some (getEnd exportNode - getStart exportNode);
       code := code d;
       messageText := inl (notAFunctionMessage signature) |} in
  let e := ExecutionHarnessTypeError relocated sources typeChecker mapMessage in
  isHarnessDiagnostic d = true ->
  sources !! EXECUTION_HARNESS_FILENAME = Some harness ->
  ExecutionHarnessTypeError.defaultExportNode sources typeChecker
  = Returned (Some exportNode) ->
  ExecutionHarnessTypeError.callSignature sources typeChecker = Returned None ->
  ExecutionHarnessTypeError.expectedSignature sources = Returned signature ->
  UserCodeTypeError_new d sources typeChecker mapMessage = Returned e /\
  errorMessage e = Returned (taggedMessage mapMessage relocated) /\
  forall userFile,
    sources !! USER_CODE_FILENAME = Some userFile ->
    errorLocation e = locationIn userFile (getStart exportNode).
Proof.
  intros relocated e Hd Hharness Hnode Hsignature Hexpected.
  split; [|split].
  - apply harness_new; [exact Hd|].
    destruct (defaultExportNode_symbol _ _ _ Hnode) as [symbol Hsymbol].
    unfold ExecutionHarnessTypeError.relocate.
    rewrite (diagnosticNode_returned _ _ _ Hharness). simpl.
    rewrite Hsymbol. simpl. rewrite Hnode. simpl. rewrite Hsignature. simpl.
    rewrite Hexpected. reflexivity.
  - reflexivity.
  - intros userFile Huser. apply harness_location; [exact Huser | reflexivity].
Qed.

Lemma value_default_export_witness :
  UserCodeTypeError_new
    {| file := valueFiles !! EXECUTION_HARNESS_FILENAME;
       start := Some 193; length := Some 13; code := 2349;
       messageText :=
         inr (MkChain "This expression is not callable." 2349
                (Some [MkChain "Type 'String' has no call signatures." 2757 None])) |}
    valueFiles valueChecker (mapDiagnosticMessage runner)
  = Returned
      (ExecutionHarnessTypeError
         {| file := valueFiles !! USER_CODE_FILENAME;
            start := Some 0; length := Some 23; code := 2349;
            messageText :=
              inl (notAFunctionMessage "(...args: [string]) => string | Promise<string>") |}
         valueFiles valueChecker (mapDiagnosticMessage runner)).
Proof.
  destruct (value_default_export_is_relocated valueFiles valueChecker
              (mapDiagnosticMessage runner)
              {| file := valueFiles !! EXECUTION_HARNESS_FILENAME;
                 start := Some 193; length := Some 13; code := 2349;
                 messageText :=
                   inr (MkChain "This expression is not callable." 2349
                          (Some [MkChain "Type 'String' has no call signatures." 2757
                                   None])) |}
              (parseHarness [] (executionCode [] ["string"] "string"))
              (valueExport valueSource)
              "(...args: [string]) => string | Promise<string>") as [Hnew _].
  - vm_compute. reflexivity.
  - vm_compute. reflexivity.
  - vm_compute. reflexivity.
  - vm_compute. reflexivity.
  - vm_compute. reflexivity.
  - exact Hnew.
Defined.

(** X15.  Whenever the constructor of [ExecutionHarnessTypeError]
    returns, the diagnostic it rewrote keeps its code, is attributed to
    the user unit of the sources, has a start and a length, and carries a
    plain message that opens in one of four ways: no default export, not a
    valid function, incorrect return type, incorrect argument type. *)
Theorem relocated_diagnostic_shape
    (sources : gmap string SourceFile) (typeChecker : TypeChecker)
    (d relocated : Diagnostic) :
  ExecutionHarnessTypeError.relocate sources typeChecker d = Returned relocated ->
  code relocated = code d /\
  file relocated = sources !! USER_CODE_FILENAME /\
  is_Some (start relocated) /\
  is_Some (length relocated) /\
  exists text,
    messageText relocated = inl text /\
    existsb (opensWith text) relocationOpenings = true.
Proof.
  unfold ExecutionHarnessTypeError.relocate. intros H.
  invert H as node Hnode. invert H as symbol Hsymbol. invert H as exportNode Hexport.
  assert (forall k : Outcome Diagnostic,
            (userFile ← deref (sources !! USER_CODE_FILENAME);
             signature ← ExecutionHarnessTypeError.expectedSignature sources;
             mret {| file := Some userFile;
                     start := Some (getStart (root userFile));
                     length := Some (getEnd (root userFile) - getStart (root userFile));
                     code := code d;
                     messageText := inl
                       ("No default export. Expected a default export function with the signature: "
                        +:+ DQ +:+ signature +:+ DQ +:+ ".") |}) = Returned relocated ->
            code relocated = code d /\
            file relocated = sources !! USER_CODE_FILENAME /\
            is_Some (start relocated) /\
            is_Some (length relocated) /\
            exists text,
              messageText relocated = inl text /\
              existsb (opensWith text) relocationOpenings = true) as Hmissing.
  { intros _ Hk. invert Hk as userFile Huser. invert Hk as signature Hsig.
    injection Hk as <-. apply deref_returned in Huser. simpl. rewrite Huser.
    repeat split; eauto. }
  destruct symbol as [symbol|]; [|apply (Hmissing (Raised "")), H].
  destruct exportNode as [exportNode|]; [|apply (Hmissing (Raised "")), H].
  clear Hmissing. invert H as signature Hsignature.
  destruct signature as [signature|].
  - invert H as inResult HinResult. destruct inResult.
    + invert H as returnNode Hreturn. invert H as outputType Houtput.
      injection H as <-. simpl. repeat split; eauto.
    + invert H as inCall HinCall. destruct inCall; [|discriminate].
      destruct (getParameters signature) as [|p ps].
      * invert H as text Htext. injection H as <-.
        unfold ExecutionHarnessTypeError.incorrectArgumentType in Htext.
        invert Htext as argumentType Hargument. injection Htext as <-.
        simpl. repeat split; eauto.
      * invert H as first Hfirst. invert H as others Hothers.
        invert H as text Htext. injection H as <-.
        unfold ExecutionHarnessTypeError.incorrectArgumentType in Htext.
        invert Htext as argumentType Hargument. injection Htext as <-.
        simpl. repeat split; eauto.
  - invert H as expected Hexpected. injection H as <-. simpl. repeat split; eauto.
Qed.

(** ** Getters at the edges *)

(** X16.  A diagnostic from outside the harness that has no start is
    still turned into an error by [UserCodeTypeError.new], and that error
    answers [message]; but [location], [stack], [toJSON] and [toString]
    all throw [Could not find start position]. *)
Theorem user_diagnostic_without_start
    (sources : gmap string SourceFile) (typeChecker : TypeChecker)
    (mapMessage : Diagnostic -> list string) (d : Diagnostic) (userFile : SourceFile) :
  outsideHarness d ->
  start d = None ->
  sources !! USER_CODE_FILENAME = Some userFile ->
  exists e,
    UserCodeTypeError_new d sources typeChecker mapMessage = Returned e /\
    errorMessage e = Returned (taggedMessage mapMessage d) /\
    errorLocation e = Raised noStartPosition /\
    errorStack e = Raised noStartPosition /\
    toJSON e = Raised noStartPosition /\
    toString e = Raised noStartPosition.
Proof.
  intros Houtside Hstart Huser. eexists.
  split; [apply UserCodeTypeError_new_outside, Houtside|].
  assert (UserCodeTypeError.location d sources = Raised noStartPosition) as Hlocation
    by (unfold UserCodeTypeError.location; rewrite Hstart; reflexivity).
  assert (UserCodeTypeError.stack d sources = Raised noStartPosition) as Hstack
    by (unfold UserCodeTypeError.stack; rewrite Huser; simpl; rewrite Hlocation;
        reflexivity).
  split; [reflexivity|]. split; [exact Hlocation|]. split; [exact Hstack|].
  unfold toJSON, toString. simpl. rewrite Hstack. split; reflexivity.
Qed.

Lemma user_diagnostic_without_start_witness :
  exists e,
    UserCodeTypeError_new
      {| file := Some constantFile; start := None; length := None; code := 1208;
         messageText := inl "File cannot be compiled under '--isolatedModules'." |}
      constantFiles constantChecker (mapDiagnosticMessage runner) = Returned e /\
    toJSON e = Raised noStartPosition.
Proof.
  destruct (user_diagnostic_without_start constantFiles constantChecker
              (mapDiagnosticMessage runner)
              {| file := Some constantFile; start := None; length := None; code := 1208;
                 messageText := inl "File cannot be compiled under '--isolatedModules'." |}
              constantFile)
    as (e & Hnew & _ & _ & _ & Hjson & _).
  - vm_compute. discriminate.
  - reflexivity.
  - vm_compute. reflexivity.
  - exists e. split; [exact Hnew | exact Hjson].
Defined.

Lemma lineAndCharacter_nonnegative (f : SourceFile) (position : Z) (l : LineAndCharacter) :
  getLineAndCharacterOfPosition f position = Returned l ->
  0 <= ts.line l /\ 0 <= character l.
Proof.
  unfold getLineAndCharacterOfPosition. cbv zeta.
  destruct (last (List.filter (fun s => s <=? position) (computeLineStarts (text f))))
    as [lineStart|] eqn:Hlast; [|discriminate].
  intros [= <-]. simpl.
  apply last_Some in Hlast as [before Hbefore].
  assert (In lineStart (List.filter (fun s => s <=? position) (computeLineStarts (text f))))
    as Hin by (rewrite Hbefore; apply in_app_iff; right; left; reflexivity).
  apply filter_In in Hin as [_ Hle]. apply Z.leb_le in Hle.
  rewrite Hbefore, length_app. simpl. lia.
Qed.

(** X17.  A location answered by a type error is one-based: its line
    and its column are numbers, both at least 1. *)
Theorem type_error_locations_are_one_based (e : UserCodeError) (l : Location) :
  is_Some (errorDiagnostic e) ->
  errorLocation e = Returned l ->
  exists lineNumber columnNumber,
    l = {| line := Some lineNumber; column := Some columnNumber |} /\
    1 <= lineNumber /\ 1 <= columnNumber.
Proof.
  intros Hd Hl.
  destruct e as [d sources typeChecker mapMessage | d sources typeChecker mapMessage
                 | error sourceMap frames]; simpl in *; [| |destruct Hd; discriminate].
  - unfold UserCodeTypeError.location in Hl.
    destruct (start d) as [position|]; [|discriminate].
    invert Hl as userFile Huser. invert Hl as lc Hlc. injection Hl as <-.
    apply lineAndCharacter_nonnegative in Hlc. eexists _, _. split; [reflexivity|]. lia.
  - unfold ExecutionHarnessTypeError.location in Hl.
    destruct (start d) as [position|].
    + invert Hl as userFile Huser. invert Hl as lc Hlc. injection Hl as <-.
      apply lineAndCharacter_nonnegative in Hlc. eexists _, _. split; [reflexivity|]. lia.
    + injection Hl as <-. eexists _, _. split; [reflexivity|]. lia.
Qed.

(** X18.  For a runtime error that was constructed, [location] answers
    with the mapped position of the first frame of the user unit; its line
    is a number exactly when that frame is among the frames the stack
    renders; [stack] answers too.  [toJSON] and [toString] throw exactly
    when reading the thrown value's message into a string throws (as for a
    message set to a [Symbol]), with that error; otherwise they are made of
    the message behind [Error: ], the rendered stack and that location. *)
Theorem runtime_error_location_and_stack
    (error : JsError) (sourceMap : SourceMapConsumer) (e : UserCodeError) :
  UserCodeRuntimeError.new error sourceMap = Returned e ->
  exists innermost,
    let position := UserCodeRuntimeError.mappedLocation sourceMap innermost in
    let location := {| line := mappedLine position; column := mappedColumn position |} in
    let stack := UserCodeRuntimeError.stack sourceMap (parse error) in
    List.find UserCodeRuntimeError.inUserFile (parse error) = Some innermost /\
    errorLocation e = Returned location /\
    (is_Some (line location) <-> In innermost (retainedFrames sourceMap (parse error))) /\
    errorStack e = Returned stack /\
    (forall text,
       message error = Returned text ->
       toJSON e
       = Returned {| jsonMessage := "Error: " +:+ text;
                     jsonStack := stack;
                     jsonLocation := location |} /\
       toString e = Returned ("Error: " +:+ text +:+ LF +:+ stack)) /\
    (forall thrown,
       message error = Raised thrown ->
       errorMessage e = Raised thrown /\
       toJSON e = Raised thrown /\
       toString e = Raised thrown).
Proof.
  intros Hnew. apply new_returned in Hnew as (Hread & -> & innermost & Hfind).
  exists innermost. cbv zeta.
  assert (UserCodeRuntimeError.location error sourceMap
          = Returned
              {| line := mappedLine (UserCodeRuntimeError.mappedLocation sourceMap innermost);
                 column :=
                   mappedColumn (UserCodeRuntimeError.mappedLocation sourceMap innermost) |})
    as Hlocation
    by (unfold UserCodeRuntimeError.location; rewrite Hread, Hfind; reflexivity).
  split; [exact Hfind|]. split; [exact Hlocation|]. split; [|split; [reflexivity|split]].
  - apply List.find_some in Hfind as [Hin Huser].
    unfold UserCodeRuntimeError.inUserFile in Huser. rewrite bool_decide_eq_true in Huser.
    unfold retainedFrames. rewrite filter_In, andb_true_iff.
    unfold UserCodeRuntimeError.fileEndsWithUserFile, UserCodeRuntimeError.hasOriginalLine.
    rewrite Huser. simpl. split.
    + intros [n ->]. auto.
    + intros (_ & _ & Hline). destruct (mappedLine _); [eauto | discriminate].
  - intros text Htext. unfold toJSON, toString.
    cbn [errorMessage errorStack errorLocation]. unfold UserCodeRuntimeError.message.
    rewrite Htext, Hlocation. split; reflexivity.
  - intros thrown Hthrown. unfold toJSON, toString.
    cbn [errorMessage]. unfold UserCodeRuntimeError.message.
    rewrite Hthrown. repeat split.
Qed.

Lemma relocated_diagnostic_shape_witness :
  code relocatedReturn = code returnDiagnostic /\
  file relocatedReturn = signatureFiles !! USER_CODE_FILENAME /\
  is_Some (start relocatedReturn) /\
  is_Some (length relocatedReturn) /\
  exists text,
    messageText relocatedReturn = inl text /\
    existsb (opensWith text) relocationOpenings = true.
Proof.
  apply (relocated_diagnostic_shape signatureFiles functionChecker returnDiagnostic).
  vm_compute. reflexivity.
Defined.

Lemma type_error_locations_witness :
  exists lineNumber columnNumber,
    {| line := Some 2; column := Some 27 |}
    = {| line := Some lineNumber; column := Some columnNumber |} /\
    1 <= lineNumber /\ 1 <= columnNumber.
Proof.
  apply (type_error_locations_are_one_based
           (UserCodeTypeError (auxiliaryDiagnostic auxiliaryFiles) auxiliaryFiles
              functionChecker (mapDiagnosticMessage runner))).
  - simpl. eauto.
  - vm_compute. reflexivity.
Defined.

Lemma runtime_error_location_witness :
  (exists innermost,
     List.find UserCodeRuntimeError.inUserFile (parse userError) = Some innermost /\
     getFunctionName innermost = Some "subroutine" /\
     errorLocation (UserCodeRuntimeError userError consumer (parse userError))
     = Returned {| line := Some 7; column := Some 8 |} /\
     In innermost (retainedFrames consumer (parse userError)) /\
     toString (UserCodeRuntimeError userError consumer (parse userError))
     = Returned ("Error: This is a test error" +:+ LF +:+
                 "at subroutine(7:8)" +:+ LF +:+ "at MyDSLFunction(2:2)")) /\
  toJSON (UserCodeRuntimeError symbolMessage consumer (parse symbolMessage))
  = Raised "TypeError: Cannot convert a Symbol value to a string".
Proof.
  split.
  - destruct (runtime_error_location_and_stack userError consumer
                (UserCodeRuntimeError userError consumer (parse userError)))
      as (innermost & Hfind & Hlocation & Hline & _ & Hreads & _).
    + reflexivity.
    + exists innermost. split; [exact Hfind|].
      assert (innermost = frame (Some "subroutine") USER_CODE_FILENAME 7 9) as ->
        by (vm_compute in Hfind; injection Hfind as <-; reflexivity).
      split; [reflexivity|]. split; [exact Hlocation|]. split.
      * apply Hline. vm_compute. eauto.
      * destruct (Hreads "This is a test error" eq_refl) as [_ ->]. vm_compute. reflexivity.
  - destruct (runtime_error_location_and_stack symbolMessage consumer
                (UserCodeRuntimeError symbolMessage consumer (parse symbolMessage)))
      as (innermost & _ & _ & _ & _ & _ & Hthrows).
    + reflexivity.
    + apply Hthrows. reflexivity.
Defined.
